(* ===== verification/_CoqProject ===== *)
-Q . S2P
Prelude.v
PyStr.v
PyFormat.v
PosixPath.v
FileSys.v
Templates.v
Materializer.v
Builder.v
