(* ===== verification/Prelude.v ===== *)
(** * A verification development of zope.mkzeoinstance

    The repository is one Python module, [src/src/zope/mkzeoinstance/__init__.py]
    (261 lines), with its test [tests/test_unix.py].  Run as
    [mkzeoinstance home [[host:]port]], it creates a "ZEO instance home":
    the directories [etc], [var], [log] and [bin] under [home], the
    configuration file [etc/zeo.conf] and the shell scripts [bin/zeoctl]
    and [bin/runzeo].  It never changes the text of an existing file
    whose stripped text is not empty; when that text differs from what
    it would write, it warns instead.

    ** The program and how its parts interact

    [main] (lines 144-146) calls [ZEOInstanceBuilder.run] (150-196).
    [run] parses the options with [getopt], prints the help or the
    usage line, makes the home absolute, finds [ZODB] on [sys.path],
    parses the address and calls [create] (209-217) with the dict of
    [get_params] (198-207).  [create] calls [makedir] (220-225) five
    times, which calls [mkdirs] (227-234), then [makefile] (236-250) once
    and [makexfile] (252-260) twice.  Every message goes through [print_]
    (135-142).  Underneath are Python's [%] formatting, its string
    builtins, [os.path] and the operating system calls.

    ** Files, in dependency order

    - [Prelude] (this file): characters, the exceptions [exn] and OS
      errors [errno], the state-and-exception monad [PyM] with notation
      [x <- m ;; k] in [py_scope], the hint databases [mkzeo] and
      [mkzeo_rw], the step tactics [step_ok] and [step_raise], and generic
      lemmas on strings and integers.
    - [PyStr]: [str.strip], [in], [str.split(sep, 1)], [int], [str], [%o]
      and [%r], and the universal-newline translation of text reads.
    - [PyFormat]: [%] formatting.  [parse_fmt] is the specifier state
      machine; the class [FormatArgs] is the interface of the argument,
      a tuple ([tuple_args]) or a dict ([dict_args]); [py_format] renders.
    - [PosixPath]: [os.path.join], [split], [basename], [isabs],
      [normpath] and [abspath], and the clean paths [path_of cs].
    - [FileSys]: the process state [world] (a [gmap] from locations to
      [node]s, the working directory, the umask and the lines written to
      standard output).  Each OS call is an operation on it.  Four
      properties of computations are closed under [bind] and proved
      call by call, by one tactic [seq_tac] over the hints of [mkzeo]:
      the invariant [world_wf] ([preserves]), the texts that are kept
      ([keeps]), the locations changed ([touches_only]) and the
      exceptions raised ([raises_only], in [Prelude]).
    - [Templates]: the three templates and the docstring, line for line,
      and [get_params].
    - [Materializer]: [print_], [mkdirs], [makedir], [makefile],
      [makexfile] and [create], each call of the source one call of
      [FileSys] in the source's order.  The abstract effects
      [mkdirs_post], [makefile_post], [makexfile_post], [create_post] and
      [fresh_world] are what these functions promise.
    - [Builder]: [getopt] as [run] calls it, [parse_address],
      [find_zodb], [run], [main] and the exit status [exit_code]; a
      concrete system [demo_world] for end-to-end runs.

    ** What is proved

    - Refinement: [mkdirs], [makefile], [makexfile] and [create] refine
      their abstract effects on clean absolute paths ([mkdirs_spec],
      [makefile_spec], [makexfile_spec], [create_spec]).  [run] reduces
      to [create] with the parameters it resolves ([run_create]).  The
      whole program on a fresh home is [fresh_world] followed by
      [All done.] ([main_fresh]).
    - Safety of the whole program, for every command line, environment
      and state:
      - no run changes the text of an existing file whose stripped text
        is not empty; only a script's mode may change
        ([main_keeps_files]);
      - [create] changes only the home, its ancestors and the seven
        locations of the instance ([create_frame]);
      - every run ends by returning, by [sys.exit()] or [sys.exit(2)], or
        with an [OSError], the [ValueError] of [int()] or the
        [AttributeError] of [print_]: no [%] format raises and [mkdirs]
        never runs out of depth, so the status is 0, 1 or 2
        ([main_outcomes]).
    - Functional behaviour:
      - on a fresh home, the exact file tree, its modes and the ten
        lines of the test ([create_fresh]);
      - the conflict policy of [makefile] ([makefile_conflict],
        [makefile_same]);
      - the mode of a new script under any umask ([makexfile_new_script]);
      - every outcome of [main]: help, usage, missing ZODB, a bad
        option, a port [int()] rejects ([main_bad_port]);
      - the [sys.path] loop is [List.find] ([find_zodb_find]);
      - the abbreviations of [--help] ([getopt_help_prefix]);
      - a relative home resolved against the working directory
        ([home_of_relative]), and an empty home that is the working
        directory itself ([home_of_empty], through the [normpath]
        lemmas [normpath_abs] and [normpath_path_of_slash]);
      - the address forms;
      - the rendered configuration text of the test ([zeo_conf_render]),
        and templates that never raise [KeyError] ([templates_render]).
    - Error paths: a home at or below an existing file raises [EEXIST]
      naming that file before anything changes ([create_under_file]); a
      home with a trailing slash and a missing parent raises [ENOENT]
      ([mkdirs_trailing_slash]).
    - Invariants: every operation preserves [world_wf]
      ([create_preserves]).  A second run of [create] on its own result
      does nothing ([create_idempotent]).
    - Termination: [mkdirs] recurses on a strictly shorter path
      ([path_split_shorter]), so its fuel [len(path) + 1] is never
      exhausted and it always ends by returning or by an [OSError]
      ([mkdirs_outcome]).
    - Types: the address is an [int] or a [host:port] text, never another
      object ([parse_address_type]).  The home given to [create] is
      absolute ([home_of_isabs]).
    - Library lemmas the proofs use: the creation modes are nine-bit
      permissions ([create_modes_bounds], by evaluation over
      [[0, 512)] with [Z_range_check]); [int(str(z)) = z]
      ([py_int_of_str]); [sep.join(s.split(sep)) = s] ([join_split]);
      [%]-escaping ([escape_pct_roundtrip]); [str.strip] ignores
      surrounding whitespace ([strip_surrounding]).
    - Findings:
      - a bad option crashes under Python 3 ([main_getopt_error]);
      - a blank existing file is overwritten, although the docstring
        says existing files are not ([makefile_blank_overwritten]);
      - a trailing slash on an absolute home breaks [mkdirs]
        ([mkdirs_trailing_slash]);
      - a non-numeric port gives a traceback ([main_bad_port]);
      - any integer port is accepted, with no range check
        ([parse_address_port]);
      - an empty home builds the instance in the working directory
        ([home_of_empty]).

    Each theorem with hypotheses has a witness ([..._witness]) at a
    concrete instance, discharged by evaluation.  Concrete worlds are
    checked against [world_wfb] and [no_file_onb], booleans whose
    soundness lemmas give the invariants.

    ** Not modelled

    - The test module: its expected outputs are theorems here instead.
    - The [zdaemon] and [ZODB] packages: the module only reads their paths.
    - Python 2 ([text_type = unicode], lines 42-45): the model is
      Python 3, where [text_type] is [str] and [print_] decodes only
      [bytes].
    - Text encodings and characters above code point 255.
    - Symbolic links, ownership and permission checks.
    - [%] flags, width and precision: no format of the module uses them,
      and they give the outcome [Unmodelled].
    - The interpreter's recursion limit, which the bound on [mkdirs]'s
      depth (the path length) never approaches. *)

From Stdlib Require Import ZArith String Ascii List Lia.
From stdpp Require Import base gmap strings list.

(** ** Characters the templates and the string functions need *)

Definition chr (n : nat) : ascii := ascii_of_nat n.

(** A one-character string. *)
Definition str1 (c : ascii) : string := String c EmptyString.

Definition nl_char : ascii := "010"%char.
Definition cr_char : ascii := "013"%char.
Definition dq_char : ascii := "034"%char.
Definition sq_char : ascii := "039"%char.
Definition bs_char : ascii := "092"%char.

(** The newline and the double quote as strings: a template line that
    contains a double quote is built by concatenation. *)
Definition nl : string := str1 nl_char.
Definition dq : string := str1 dq_char.

(** [lines [l1; ...; ln]] is [l1 ++ "\n" ++ ... ++ ln ++ "\n"], how a
    triple-quoted Python string with a trailing newline is laid out. *)
Fixpoint lines (ls : list string) : string :=
  match ls with
  | [] => EmptyString
  | l :: ls' => (l ++ nl ++ lines ls')%string
  end.

(** ** Python exceptions and the state-and-exception monad

    The modelled code runs in a world [W] (the filesystem, the umask,
    the standard output) and may raise.  A computation maps a world to
    the world after it and to either a value or the raised exception:
    effects performed before an exception are kept, as in Python. *)

Inductive errno := EEXIST | ENOENT | ENOTDIR | EISDIR.

Inductive exn :=
  | SystemExit (code : option Z)      (** [sys.exit()] / [sys.exit(n)] *)
  | OSError (e : errno) (path : string)
  | ValueError (msg : string)
  | KeyError (key : string)
  | TypeError (msg : string)
  | AttributeError (msg : string)
  | GetoptError (msg opt : string)     (** [getopt.GetoptError(msg, opt)] *)
  | Unmodelled (what : string).       (** a construct outside the model *)

Inductive res (A : Type) : Type :=
  | Ok (a : A)
  | Raise (e : exn).
Arguments Ok {A} a.
Arguments Raise {A} e.

Definition PyM (W A : Type) : Type := W -> W * res A.

Section Monad.
Context {W : Type}.

Definition ret {A} (a : A) : PyM W A := fun w => (w, Ok a).

Definition bind {A B} (m : PyM W A) (k : A -> PyM W B) : PyM W B :=
  fun w => match m w with
           | (w', Ok a) => k a w'
           | (w', Raise e) => (w', Raise e)
           end.

Definition raise {A} (e : exn) : PyM W A := fun w => (w, Raise e).

Definition get : PyM W W := fun w => (w, Ok w).

Definition modify (f : W -> W) : PyM W unit := fun w => (f w, Ok tt).

(** Lift a pure result (an [option] whose [None] is an exception). *)
Definition lift_res {A} (r : res A) : PyM W A := fun w => (w, r).

(** What a computation returns, whenever it returns. *)
Definition returns_in {A} (Q : A -> Prop) (c : PyM W A) : Prop :=
  forall w w' a, c w = (w', Ok a) -> Q a.

(** A computation that, whenever it raises, raises an exception of [P]. *)
Definition raises_only {A} (P : exn -> Prop) (c : PyM W A) : Prop :=
  forall w, match snd (c w) with Ok _ => True | Raise e => P e end.
End Monad.

Definition res_map {A B} (f : A -> B) (r : res A) : res B :=
  match r with Ok a => Ok (f a) | Raise e => Raise e end.

Declare Scope py_scope.
Delimit Scope py_scope with py.
Notation "x <- m ;; k" := (bind m (fun x => k))
  (at level 100, m at next level, right associativity) : py_scope.
Notation "m ;; k" := (bind m (fun _ => k))
  (at level 100, right associativity) : py_scope.

(** ** Shared automation *)

Create HintDb mkzeo discriminated.
Create Rewrite HintDb mkzeo_rw.

Section MonadLemmas.
Context {W : Type}.

Lemma bind_ok {A B} (m : PyM W A) (k : A -> PyM W B) w w' a :
  m w = (w', Ok a) -> bind m k w = k a w'.
Proof. unfold bind. intros ->. reflexivity. Qed.

Lemma bind_raise {A B} (m : PyM W A) (k : A -> PyM W B) w w' e :
  m w = (w', Raise e) -> bind m k w = (w', Raise e).
Proof. unfold bind. intros ->. reflexivity. Qed.

Lemma bind_ret {A B} (a : A) (k : A -> PyM W B) w :
  bind (ret a) k w = k a w.
Proof. reflexivity. Qed.

Lemma bind_assoc {A B C} (m : PyM W A) (k : A -> PyM W B)
  (h : B -> PyM W C) w :
  bind (bind m k) h w = bind m (fun a => bind (k a) h) w.
Proof. unfold bind. destruct (m w) as [w' [a|e]]; reflexivity. Qed.
Lemma bind_lift_ok {A B} (r : res A) (a : A) (k : A -> PyM W B) w :
  r = Ok a -> bind (lift_res r) k w = k a w.
Proof. intros ->. reflexivity. Qed.

Lemma returns_in_bind {A B} (Q : A -> Prop) (R : B -> Prop) (m : PyM W A) (k : A -> PyM W B) :
  returns_in Q m -> (forall a, Q a -> returns_in R (k a)) -> returns_in R (bind m k).
Proof.
  intros Hm Hk w w' b. unfold bind. destruct (m w) as [w1 [a|e]] eqn:E; [|discriminate].
  apply Hk. exact (Hm _ _ _ E).
Qed.

Lemma returns_in_ret {A} (Q : A -> Prop) (a : A) : Q a -> returns_in Q (ret (W := W) a).
Proof. intros Ha w w' b [= _ <-]. exact Ha. Qed.

Lemma returns_in_true {A} (c : PyM W A) : returns_in (fun _ => True) c.
Proof. intros w w' a _. exact I. Qed.

(** Sequencing after a computation whose result does not matter. *)
Lemma returns_in_seq {A B} (R : B -> Prop) (m : PyM W A) (k : A -> PyM W B) :
  (forall a, returns_in R (k a)) -> returns_in R (bind m k).
Proof. intros Hk. apply (returns_in_bind (fun _ => True)); [apply returns_in_true|auto]. Qed.

Lemma raises_only_bind {A B} (P : exn -> Prop) (m : PyM W A) (k : A -> PyM W B) :
  raises_only P m -> (forall a, raises_only P (k a)) -> raises_only P (bind m k).
Proof.
  intros Hm Hk w. unfold bind. specialize (Hm w).
  destruct (m w) as [w' [a|e]]; [apply Hk|exact Hm].
Qed.

Lemma raises_only_ret {A} (P : exn -> Prop) (a : A) : raises_only P (ret (W := W) a).
Proof. intros w. exact I. Qed.

Lemma raises_only_raise {A} (P : exn -> Prop) (e : exn) : P e -> raises_only (A := A) P (raise (W := W) e).
Proof. intros He w. exact He. Qed.

Lemma raises_only_lift_ok {A} (P : exn -> Prop) (r : res A) (a : A) :
  r = Ok a -> raises_only P (lift_res (W := W) r).
Proof. intros -> w. exact I. Qed.
End MonadLemmas.

#[export] Hint Rewrite @bind_ret @bind_assoc : mkzeo_rw.

(** [step_ok H] rewrites a goal [bind m k w = _] with the equation
    [H : m w = (w', Ok a)] of the first computation. *)
Tactic Notation "step_ok" open_constr(H) := erewrite (bind_ok _ _ _ _ _ H).
Tactic Notation "step_raise" open_constr(H) := erewrite (bind_raise _ _ _ _ _ H).

(** ** Generic string lemmas

    stdpp declares [String.append] [simpl never]; these two equations
    replace [simpl] on appends. *)

Lemma append_nil_l (s : string) : (EmptyString ++ s)%string = s.
Proof. reflexivity. Qed.

Lemma append_cons (c : ascii) (s t : string) :
  (String c s ++ t)%string = String c (s ++ t).
Proof. reflexivity. Qed.

#[export] Hint Rewrite append_nil_l append_cons : mkzeo_rw.

Lemma string_app_assoc (a b c : string) :
  ((a ++ b) ++ c = a ++ (b ++ c))%string.
Proof. induction a as [|x a IH]; rewrite ?append_nil_l, ?append_cons; congruence. Qed.

Lemma string_app_nil_r (a : string) : (a ++ EmptyString)%string = a.
Proof. induction a as [|x a IH]; rewrite ?append_nil_l, ?append_cons; congruence. Qed.

#[export] Hint Rewrite string_app_assoc string_app_nil_r : mkzeo_rw.

Lemma string_app_length (a b : string) :
  String.length (a ++ b) = String.length a + String.length b.
Proof. induction a as [|x a IH]; rewrite ?append_nil_l, ?append_cons; simpl; lia. Qed.

(** ** Generic integer lemmas *)

(** Masking with [2^n - 1] keeps [n] low bits. *)
Lemma land_ones_range (x n : Z) :
  (0 <= n)%Z -> (0 <= Z.land x (Z.ones n) < 2 ^ n)%Z.
Proof.
  intros Hn. rewrite Z.land_ones by exact Hn.
  apply Z.mod_pos_bound. apply Z.pow_pos_nonneg; lia.
Qed.

Lemma land_ones_small (x n : Z) :
  (0 <= n)%Z -> (0 <= x < 2 ^ n)%Z -> Z.land x (Z.ones n) = x.
Proof. intros Hn Hx. rewrite Z.land_ones by exact Hn. now apply Z.mod_small. Qed.

Lemma land_511_small (x : Z) : (0 <= x <= 511)%Z -> Z.land x 511 = x.
Proof.
  intros Hx. change 511%Z with (Z.ones 9) at 1. apply land_ones_small; simpl; lia.
Qed.

(** A decidable property of the integers of [[0, n)] checked by running
    it on each of them: how a statement about every nine-bit umask is
    proved by evaluation. *)
Lemma Z_range_check (P : Z -> bool) (n : nat) :
  forallb P (map Z.of_nat (seq 0 n)) = true ->
  forall u, (0 <= u < Z.of_nat n)%Z -> P u = true.
Proof.
  rewrite forallb_forall. intros H u Hu.
  apply H, in_map_iff. exists (Z.to_nat u). split; [lia|]. apply in_seq. lia.
Qed.
