(* ===== verification/PyStr.v ===== *)
(** * Python's string builtins called by the module

    The module calls [str.strip] (makefile, line 242 and 244), the
    [in] test and [str.split(':', 1)] (run, lines 185-186), [int] and
    [str] on the port (lines 189 and 192), [%o] and [%r] in its messages
    (lines 245 and 259), and reads files in text mode, which translates
    newlines.  Strings are Rocq [string]s: a character is a code point
    below 256. *)

From Stdlib Require Import ZArith NArith String Ascii List Lia.
From stdpp Require Import base list.
From S2P Require Import Prelude.

Local Open Scope string_scope.

(** ** Whitespace and [str.strip] *)

(** [str.isspace] on a code point below 256: [\t \n \x0b \x0c \r],
    the separators [\x1c]-[\x1f], the space, [\x85] and [\xa0]. *)
Definition is_space (c : ascii) : bool :=
  let n := nat_of_ascii c in
  (((9 <=? n) && (n <=? 13)) || ((28 <=? n) && (n <=? 32))
   || (n =? 133) || (n =? 160))%nat.

Fixpoint lstrip (s : string) : string :=
  match s with
  | EmptyString => EmptyString
  | String c s' => if is_space c then lstrip s' else s
  end.

(** A character is dropped when it is a space and everything after it
    is dropped. *)
Fixpoint rstrip (s : string) : string :=
  match s with
  | EmptyString => EmptyString
  | String c s' =>
      match rstrip s' with
      | EmptyString => if is_space c then EmptyString else str1 c
      | r => String c r
      end
  end.

(** [s.strip()]. *)
Definition strip (s : string) : string := rstrip (lstrip s).

(** ** Characters and membership *)

Abbreviation ascii_eqb := Ascii.eqb (only parsing).

(** [c in s] for a one-character [c]. *)
Fixpoint contains_char (c : ascii) (s : string) : bool :=
  match s with
  | EmptyString => false
  | String x s' => ascii_eqb x c || contains_char c s'
  end.

(** [s.split(c, 1)] when [c in s]: the text before the first [c] and
    the text after it. *)
Fixpoint split_once (c : ascii) (s : string) : option (string * string) :=
  match s with
  | EmptyString => None
  | String x s' =>
      if ascii_eqb x c then Some (EmptyString, s')
      else match split_once c s' with
           | Some (a, b) => Some (String x a, b)
           | None => None
           end
  end.

(** [s.split(c)]: every piece between two separators, empty pieces
    included. *)
Fixpoint split_on (c : ascii) (s : string) : list string :=
  match s with
  | EmptyString => [EmptyString]
  | String x s' =>
      let r := split_on c s' in
      if ascii_eqb x c then EmptyString :: r
      else match r with
           | [] => [str1 x]
           | h :: t => String x h :: t
           end
  end.

(** [sep.join(l)]. *)
Fixpoint join_with (sep : string) (l : list string) : string :=
  match l with
  | [] => EmptyString
  | [x] => x
  | x :: l' => x ++ sep ++ join_with sep l'
  end.

Definition starts_with_char (c : ascii) (s : string) : bool :=
  match s with
  | String x _ => ascii_eqb x c
  | EmptyString => false
  end.

(** Every character of [s] satisfies [p]. *)
Fixpoint all_chars (p : ascii -> bool) (s : string) : bool :=
  match s with
  | EmptyString => true
  | String c s' => p c && all_chars p s'
  end.

(** ** Text-mode reading: universal newlines

    [open(path).read()] turns [\r\n] and a lone [\r] into [\n]. *)
Fixpoint translate_newlines (s : string) : string :=
  match s with
  | EmptyString => EmptyString
  | String c s' =>
      if ascii_eqb c cr_char then
        match s' with
        | String d s'' =>
            if ascii_eqb d nl_char then String nl_char (translate_newlines s'')
            else String nl_char (translate_newlines s')
        | EmptyString => str1 nl_char
        end
      else String c (translate_newlines s')
  end.

(** ** Integers: [str(n)], [%o] and [int(s)]

    [digits_acc b fuel n acc] puts the base-[b] digits of [n], most
    significant first, in front of [acc].  Each step divides by [b >= 2],
    so [N.size n + 1] steps (the bit length) are enough; see
    [digits_acc_enough] below. *)
Fixpoint digits_acc (b : N) (fuel : nat) (n : N) (acc : list N) : list N :=
  match fuel with
  | O => acc
  | S f =>
      let acc' := (n mod b)%N :: acc in
      if (n <? b)%N then acc' else digits_acc b f (n / b)%N acc'
  end.

Definition digits (b n : N) : list N :=
  digits_acc b (S (N.to_nat (N.size n))) n [].

(** The digit characters [0-9a-f]. *)
Definition digit_char (d : N) : ascii :=
  if (d <? 10)%N then ascii_of_N (48 + d) else ascii_of_N (87 + d).

Definition string_of_digits (l : list N) : string :=
  string_of_list_ascii (map digit_char l).

(** [str(z)] with the base [b]: decimal for [str] and [%d], octal for
    [%o], a minus sign before a negative number. *)
Definition show_Z (b : N) (z : Z) : string :=
  if (z <? 0)%Z then "-" ++ string_of_digits (digits b (Z.to_N (- z)))
  else string_of_digits (digits b (Z.to_N z)).

Definition str_of_Z (z : Z) : string := show_Z 10 z.
Definition oct_of_Z (z : Z) : string := show_Z 8 z.

Definition is_digit (c : ascii) : bool :=
  ((48 <=? nat_of_ascii c) && (nat_of_ascii c <=? 57))%nat.

Definition digit_value (c : ascii) : Z := (Z.of_nat (nat_of_ascii c) - 48)%Z.

(** The digits of [int(s)]: at least one digit, an underscore only
    between two digits.  [after_digit] says the previous character was a
    digit. *)
Fixpoint parse_digits (s : string) (acc : Z) (after_digit : bool) : option Z :=
  match s with
  | EmptyString => if after_digit then Some acc else None
  | String c s' =>
      if is_digit c then parse_digits s' (acc * 10 + digit_value c)%Z true
      else if ascii_eqb c "_"%char && after_digit then parse_digits s' acc false
      else None
  end.

(** [int(s)] on a [str]: surrounding whitespace stripped, an optional
    sign, decimal digits.  [None] is the [ValueError]. *)
Definition py_int (s : string) : option Z :=
  match strip s with
  | String c s' =>
      if ascii_eqb c "-"%char then option_map Z.opp (parse_digits s' 0 false)
      else if ascii_eqb c "+"%char then parse_digits s' 0 false
      else parse_digits (String c s') 0 false
  | EmptyString => None
  end.

(** ** [repr] of a [str] *)

(** Code points [repr] escapes as [\xhh]: the controls, [\x7f], the
    C1 controls with [\xa0], and the soft hyphen [\xad]. *)
Definition repr_hex (c : ascii) : bool :=
  let n := nat_of_ascii c in
  ((n <? 32) || (n =? 127) || ((128 <=? n) && (n <=? 160)) || (n =? 173))%nat.

Definition hex2 (c : ascii) : string :=
  let n := N_of_ascii c in
  String (digit_char (n / 16)) (str1 (digit_char (n mod 16))).

Definition repr_char (q c : ascii) : string :=
  if ascii_eqb c q || ascii_eqb c bs_char then String bs_char (str1 c)
  else if ascii_eqb c "009"%char then "\t"
  else if ascii_eqb c nl_char then "\n"
  else if ascii_eqb c cr_char then "\r"
  else if repr_hex c then "\x" ++ hex2 c
  else str1 c.

Fixpoint repr_body (q : ascii) (s : string) : string :=
  match s with
  | EmptyString => EmptyString
  | String c s' => repr_char q c ++ repr_body q s'
  end.

(** [repr(s)]: single quotes unless [s] has a single quote and no
    double quote. *)
Definition py_repr (s : string) : string :=
  let q := if contains_char sq_char s && negb (contains_char dq_char s)
           then dq_char else sq_char in
  String q (repr_body q s ++ str1 q).

(** The value of a digit list in base [b]. *)
Definition digits_value (b : N) (l : list N) : N :=
  fold_left (fun a d => a * b + d)%N l 0%N.

(** ** Lemmas *)

Lemma ascii_eqb_eq (a b : ascii) : ascii_eqb a b = true <-> a = b.
Proof. apply Ascii.eqb_eq. Qed.

Lemma ascii_eqb_refl (a : ascii) : ascii_eqb a a = true.
Proof. apply Ascii.eqb_refl. Qed.

#[export] Hint Rewrite ascii_eqb_refl : mkzeo_rw.

Lemma lstrip_idem (s : string) : lstrip (lstrip s) = lstrip s.
Proof.
  induction s as [|c s IH]; simpl; [reflexivity|].
  destruct (is_space c) eqn:E; [exact IH|]. simpl. now rewrite E.
Qed.

Lemma rstrip_cons (c : ascii) (s : string) :
  rstrip (String c s) =
  match rstrip s with
  | EmptyString => if is_space c then EmptyString else str1 c
  | r => String c r
  end.
Proof. reflexivity. Qed.

(** After [rstrip] the string is empty or ends in a non-space. *)
Lemma rstrip_idem (s : string) : rstrip (rstrip s) = rstrip s.
Proof.
  induction s as [|c s IH]; [reflexivity|]. rewrite rstrip_cons.
  destruct (rstrip s) as [|d r] eqn:E.
  - destruct (is_space c) eqn:Ec; simpl; [reflexivity|]. now rewrite Ec.
  - rewrite rstrip_cons, IH. reflexivity.
Qed.

Lemma rstrip_lstrip_head (s : string) c r :
  lstrip s = String c r -> is_space c = false.
Proof.
  induction s as [|x s IH]; simpl; [discriminate|].
  destruct (is_space x) eqn:E; [exact IH|]. now intros [= -> _].
Qed.

(** [rstrip] keeps the first character when it is not a space. *)
Lemma lstrip_rstrip_nonspace (c : ascii) (s : string) :
  is_space c = false -> lstrip (rstrip (String c s)) = rstrip (String c s).
Proof.
  intros Hc. rewrite rstrip_cons.
  destruct (rstrip s); rewrite ?Hc; unfold str1; simpl; rewrite ?Hc; reflexivity.
Qed.

(** Stripping twice is stripping once. *)
Lemma strip_idem (s : string) : strip (strip s) = strip s.
Proof.
  unfold strip. destruct (lstrip s) as [|c r] eqn:E.
  - reflexivity.
  - rewrite (lstrip_rstrip_nonspace c r) by exact (rstrip_lstrip_head s c r E).
    apply rstrip_idem.
Qed.

Lemma lstrip_spaces_app (a s : string) :
  all_chars is_space a = true -> lstrip (a ++ s) = lstrip s.
Proof.
  induction a as [|c a IH]; intros H; [reflexivity|].
  cbn in H. apply andb_true_iff in H as [Hc Ha]. rewrite append_cons. cbn. rewrite Hc. auto.
Qed.

Lemma lstrip_spaces (b : string) : all_chars is_space b = true -> lstrip b = "".
Proof. intros H. rewrite <- (string_app_nil_r b). now rewrite lstrip_spaces_app. Qed.

Lemma rstrip_spaces (b : string) : all_chars is_space b = true -> rstrip b = "".
Proof.
  induction b as [|c b IH]; intros H; [reflexivity|].
  cbn in H. apply andb_true_iff in H as [Hc Hb]. rewrite rstrip_cons, IH by exact Hb.
  now rewrite Hc.
Qed.

Lemma rstrip_app_spaces (s b : string) :
  all_chars is_space b = true -> rstrip (s ++ b) = rstrip s.
Proof.
  intros Hb. induction s as [|c s IH]; [now apply rstrip_spaces|].
  rewrite append_cons, !rstrip_cons. now rewrite IH.
Qed.

Lemma lstrip_app (s b : string) :
  lstrip (s ++ b) = match lstrip s with EmptyString => lstrip b | r => r ++ b end.
Proof.
  induction s as [|c s IH]; [reflexivity|].
  rewrite append_cons. cbn. destruct (is_space c); [exact IH|reflexivity].
Qed.

(** [str.strip] ignores whitespace around a text: the comparison
    [olddata != data.strip()] of [makefile] never sees spaces, tabs or
    newlines added before or after the content, which is the
    trim-then-compare policy of the conflict check. *)
Lemma strip_surrounding (a s b : string) :
  all_chars is_space a = true -> all_chars is_space b = true ->
  strip (a ++ s ++ b) = strip s.
Proof.
  intros Ha Hb. unfold strip. rewrite lstrip_spaces_app by exact Ha. rewrite lstrip_app.
  destruct (lstrip s) as [|c r]; [now rewrite lstrip_spaces|].
  now rewrite rstrip_app_spaces.
Qed.

Lemma split_on_no_sep (c : ascii) (s : string) :
  Forall (fun p => contains_char c p = false) (split_on c s).
Proof.
  induction s as [|x s IH]; simpl; [repeat constructor|].
  destruct (ascii_eqb x c) eqn:E; [constructor; auto|].
  destruct (split_on c s) as [|h t]; inversion IH; subst;
    constructor; simpl; rewrite ?E; auto.
Qed.

Lemma split_on_nonempty (c : ascii) (s : string) : split_on c s <> [].
Proof.
  destruct s as [|x s]; simpl; [discriminate|].
  destruct (ascii_eqb x c); [discriminate|]. destruct (split_on c s); discriminate.
Qed.

Lemma join_with_cons2 (sep x y : string) (l : list string) :
  join_with sep (x :: y :: l) = x ++ sep ++ join_with sep (y :: l).
Proof. reflexivity. Qed.

(** [sep.join(s.split(sep)) == s] for a one-character separator. *)
Lemma join_split (c : ascii) (s : string) :
  join_with (str1 c) (split_on c s) = s.
Proof.
  induction s as [|x s IH]; simpl; [reflexivity|].
  pose proof (split_on_nonempty c s) as Hne.
  destruct (ascii_eqb x c) eqn:E.
  - apply ascii_eqb_eq in E. subst.
    destruct (split_on c s) as [|h t]; [congruence|].
    rewrite join_with_cons2, IH. reflexivity.
  - destruct (split_on c s) as [|h t]; [congruence|].
    destruct t; [simpl in *; congruence|].
    rewrite join_with_cons2 in *. rewrite append_cons. congruence.
Qed.

Lemma translate_newlines_id (s : string) :
  contains_char cr_char s = false -> translate_newlines s = s.
Proof.
  induction s as [|c s IH]; simpl; [reflexivity|].
  intros H. apply Bool.orb_false_iff in H as [Hc Hs].
  rewrite Hc. now rewrite IH.
Qed.

(** *** Integers *)

Lemma size_div (n b : N) :
  (2 <= b)%N -> (b <= n)%N -> (N.size (n / b) < N.size n)%N.
Proof.
  intros Hb Hn.
  assert (Hq : (1 <= n / b)%N) by (apply N.div_le_lower_bound; lia).
  rewrite !N.size_log2 by lia.
  apply -> N.succ_lt_mono. apply N.log2_lt_pow2; [lia|].
  pose proof (N.log2_spec n ltac:(lia)) as [_ Hlt].
  rewrite N.pow_succ_r' in Hlt.
  apply N.Div0.div_lt_upper_bound. nia.
Qed.

Lemma digits_acc_app (b : N) (f : nat) (n : N) (acc : list N) :
  digits_acc b f n acc = (digits_acc b f n [] ++ acc)%list.
Proof.
  revert n acc. induction f as [|f IH]; intros n acc; simpl; [reflexivity|].
  destruct (n <? b)%N; [reflexivity|].
  rewrite IH, (IH _ [_]), <- app_assoc. reflexivity.
Qed.

(** With [N.size n + 1] steps the digits are complete: they are below
    [b], there is at least one, and they denote [n]. *)
Lemma digits_acc_enough (b : N) (f : nat) (n : N) :
  (2 <= b)%N -> N.to_nat (N.size n) < f ->
  let D := digits_acc b f n [] in
  digits_value b D = n /\ Forall (fun d => (d < b)%N) D /\ D <> [].
Proof.
  intros Hb. revert n. induction f as [|f IH]; intros n Hf; [lia|]. cbn zeta.
  simpl digits_acc. destruct (n <? b)%N eqn:Hlt.
  - apply N.ltb_lt in Hlt. rewrite N.mod_small by exact Hlt.
    split; [reflexivity|]. split; [repeat constructor; lia | discriminate].
  - apply N.ltb_ge in Hlt.
    assert (Hs : N.to_nat (N.size (n / b)) < f).
    { pose proof (size_div n b Hb Hlt). lia. }
    destruct (IH (n / b)%N Hs) as (Hv & Hd & Hne).
    rewrite digits_acc_app. unfold digits_value in *.
    rewrite fold_left_app, Hv. simpl.
    split; [pose proof (N.div_mod n b ltac:(lia)); lia|].
    split; [apply Forall_app; split; [exact Hd | constructor; [apply N.mod_lt; lia | constructor]]|].
    destruct (digits_acc b f (n / b) []); [congruence | discriminate].
Qed.

Lemma digits_spec (b n : N) :
  (2 <= b)%N ->
  digits_value b (digits b n) = n /\ Forall (fun d => (d < b)%N) (digits b n)
  /\ digits b n <> [].
Proof. intros Hb. apply digits_acc_enough; [exact Hb | lia]. Qed.

Lemma digit_char_code (d : N) :
  (d < 10)%N -> N_of_ascii (digit_char d) = (48 + d)%N.
Proof.
  intros Hd. unfold digit_char. rewrite (proj2 (N.ltb_lt d 10) Hd).
  apply N_ascii_embedding. lia.
Qed.

Lemma nat_of_digit_char (d : N) :
  (d < 10)%N -> nat_of_ascii (digit_char d) = N.to_nat (48 + d).
Proof. intros Hd. unfold nat_of_ascii. now rewrite digit_char_code. Qed.

Lemma digit_char_props (d : N) :
  (d < 10)%N ->
  is_digit (digit_char d) = true /\ digit_value (digit_char d) = Z.of_N d
  /\ is_space (digit_char d) = false.
Proof.
  intros Hd. unfold is_digit, digit_value, is_space.
  rewrite nat_of_digit_char by exact Hd.
  repeat split.
  - apply andb_true_iff; split; apply Nat.leb_le; lia.
  - lia.
  - repeat rewrite ?orb_false_iff, ?andb_false_iff, ?Nat.leb_gt, ?Nat.eqb_neq.
    repeat split; lia.
Qed.

Lemma digit_char_not (d : N) (c : ascii) :
  (d < 10)%N -> (N_of_ascii c < 48)%N -> ascii_eqb (digit_char d) c = false.
Proof.
  intros Hd Hc. destruct (ascii_eqb (digit_char d) c) eqn:E; [|reflexivity].
  apply ascii_eqb_eq in E. rewrite <- E, digit_char_code in Hc by exact Hd. lia.
Qed.

Lemma string_of_digits_cons (d : N) (l : list N) :
  string_of_digits (d :: l) = String (digit_char d) (string_of_digits l).
Proof. reflexivity. Qed.

Lemma parse_digits_digit (c : ascii) (s : string) (acc : Z) (ad : bool) :
  is_digit c = true ->
  parse_digits (String c s) acc ad = parse_digits s (acc * 10 + digit_value c)%Z true.
Proof. intros H. simpl. now rewrite H. Qed.

Lemma parse_digits_string (l : list N) (acc : Z) :
  Forall (fun d => (d < 10)%N) l ->
  parse_digits (string_of_digits l) acc true =
  Some (fold_left (fun a d => a * 10 + Z.of_N d)%Z l acc).
Proof.
  revert acc. induction l as [|d l IH]; intros acc Hl; [reflexivity|].
  inversion Hl as [|? ? Hd Hl']; subst.
  destruct (digit_char_props d Hd) as (Hdig & Hval & _).
  rewrite string_of_digits_cons, parse_digits_digit, Hval by exact Hdig.
  apply IH, Hl'.
Qed.

Lemma digits_value_Z (l : list N) (acc : N) :
  Z.of_N (fold_left (fun a d => a * 10 + d)%N l acc) =
  fold_left (fun a d => a * 10 + Z.of_N d)%Z l (Z.of_N acc).
Proof.
  revert acc. induction l as [|d l IH]; intros acc; simpl; [reflexivity|].
  rewrite IH. f_equal. lia.
Qed.

Lemma parse_string_of_digits (n : N) :
  parse_digits (string_of_digits (digits 10 n)) 0 false = Some (Z.of_N n).
Proof.
  destruct (digits_spec 10 n ltac:(lia)) as (Hv & Hd & Hne).
  destruct (digits 10 n) as [|d l] eqn:E; [congruence|].
  apply Forall_cons in Hd as [Hd0 Hl].
  destruct (digit_char_props d Hd0) as (Hdig & Hval & _).
  rewrite string_of_digits_cons, parse_digits_digit, Hval by exact Hdig.
  rewrite parse_digits_string by exact Hl.
  f_equal. rewrite <- Hv. unfold digits_value. simpl.
  rewrite digits_value_Z. reflexivity.
Qed.

Lemma strip_no_space (s : string) :
  all_chars (fun c => negb (is_space c)) s = true -> strip s = s.
Proof.
  intros H. unfold strip.
  assert (Hl : lstrip s = s).
  { destruct s as [|c s']; [reflexivity|]. simpl in *.
    apply andb_true_iff in H as [Hc _]. now destruct (is_space c). }
  rewrite Hl. clear Hl. induction s as [|c s IH]; [reflexivity|].
  simpl in H. apply andb_true_iff in H as [Hc Hs].
  rewrite rstrip_cons, (IH Hs). destruct s; [|reflexivity].
  now destruct (is_space c).
Qed.

Lemma digits_no_space (l : list N) :
  Forall (fun d => (d < 10)%N) l ->
  all_chars (fun c => negb (is_space c)) (string_of_digits l) = true.
Proof.
  induction l as [|d l IH]; intros Hl; [reflexivity|].
  apply Forall_cons in Hl as [Hd Hl].
  rewrite string_of_digits_cons. simpl.
  destruct (digit_char_props d Hd) as (_ & _ & ->). now apply IH.
Qed.

(** [int(str(z)) == z]: the decimal text of an integer reads back as
    that integer. *)
Lemma py_int_of_str (z : Z) : py_int (str_of_Z z) = Some z.
Proof.
  unfold py_int, str_of_Z, show_Z.
  destruct (z <? 0)%Z eqn:Hz.
  - destruct (digits_spec 10 (Z.to_N (- z)) ltac:(lia)) as (_ & Hd & _).
    rewrite strip_no_space by (simpl; now apply digits_no_space).
    rewrite append_cons, append_nil_l. cbn -[string_of_digits digits].
    rewrite parse_string_of_digits. simpl. f_equal.
    apply Z.ltb_lt in Hz. lia.
  - destruct (digits_spec 10 (Z.to_N z) ltac:(lia)) as (_ & Hd & Hne).
    rewrite strip_no_space by now apply digits_no_space.
    pose proof (parse_string_of_digits (Z.to_N z)) as Hp.
    destruct (digits 10 (Z.to_N z)) as [|d l] eqn:E; [congruence|].
    apply Forall_cons in Hd as [Hd0 _]. rewrite string_of_digits_cons in *.
    rewrite !digit_char_not by (simpl; lia).
    rewrite Hp. f_equal. apply Z.ltb_ge in Hz. lia.
Qed.

(** *** Characters of [str(z)] *)

Lemma contains_char_app (c : ascii) (s t : string) :
  contains_char c (s ++ t) = contains_char c s || contains_char c t.
Proof.
  induction s as [|x s IH]; [reflexivity|]. rewrite append_cons. simpl.
  now rewrite IH, orb_assoc.
Qed.

Lemma digits_no_char (c : ascii) (l : list N) :
  (N_of_ascii c < 48 \/ 57 < N_of_ascii c)%N -> Forall (fun d => (d < 10)%N) l ->
  contains_char c (string_of_digits l) = false.
Proof.
  intros Hc. induction l as [|d l IH]; intros Hl; [reflexivity|].
  apply Forall_cons in Hl as [Hd Hl]. rewrite string_of_digits_cons. simpl.
  rewrite IH by exact Hl. rewrite orb_false_r.
  destruct (Ascii.eqb (digit_char d) c) eqn:E; [|reflexivity].
  apply Ascii.eqb_eq in E. rewrite <- E, digit_char_code in Hc by exact Hd. lia.
Qed.

(** [str(z)] is made of digits and a minus sign only. *)
Lemma str_of_Z_no_char (c : ascii) (z : Z) :
  (N_of_ascii c < 45 \/ (45 < N_of_ascii c < 48) \/ 57 < N_of_ascii c)%N ->
  contains_char c (str_of_Z z) = false.
Proof.
  intros Hc. unfold str_of_Z, show_Z. destruct (z <? 0)%Z.
  - destruct (digits_spec 10 (Z.to_N (- z)) ltac:(lia)) as (_ & Hd & _).
    rewrite contains_char_app, digits_no_char by (lia || exact Hd).
    change (contains_char c "-") with (Ascii.eqb "-" c || false).
    rewrite !orb_false_r. destruct (Ascii.eqb "-" c) eqn:E; [|reflexivity].
    apply Ascii.eqb_eq in E. subst c. simpl in Hc. lia.
  - destruct (digits_spec 10 (Z.to_N z) ltac:(lia)) as (_ & Hd & _).
    apply digits_no_char; [lia|exact Hd].
Qed.

Lemma split_once_sep (c : ascii) (h t : string) :
  contains_char c h = false -> split_once c (h ++ str1 c ++ t) = Some (h, t).
Proof.
  induction h as [|x h IH]; intros Hh.
  - simpl. now rewrite Ascii.eqb_refl.
  - simpl in Hh. apply orb_false_iff in Hh as [Hx Hh].
    rewrite append_cons. simpl. rewrite Hx, IH by exact Hh. reflexivity.
Qed.
