(* ===== verification/PyFormat.v ===== *)
(** * Python's [%] string formatting

    Every text the module produces goes through [%]: the templates are
    rendered with [template % kwds] against the parameter dict
    (makefile, line 239), the help text with [__doc__ % {"program": ...}]
    (run, line 159), and the messages with [msg % args] against a tuple
    (print_, line 137).  A format string is read left to right as
    [CPython]'s [PyUnicode_Format] reads it: literal characters, [%%],
    and conversion specifiers [%c] or [%(key)c]; the key may contain
    balanced parentheses.  The argument is either a tuple or a mapping:
    the class [FormatArgs] is that interface, with an instance for each.

    Flags, width and precision ([%-5s], [%.3d]) do not occur in any
    format string of the module; a specifier that uses them is the
    [Unmodelled] outcome, not a guess. *)

From Stdlib Require Import ZArith String Ascii List Lia.
From stdpp Require Import base gmap strings list.
From S2P Require Import Prelude PyStr.

Local Open Scope string_scope.

(** ** Python values that reach a format string *)

Inductive pyval :=
  | PStr (s : string)
  | PInt (z : Z)
  | PObj (cls : string) (text : string).  (** another object, its [str] *)

(** [str(v)]. *)
Definition py_str (v : pyval) : string :=
  match v with
  | PStr s => s
  | PInt z => str_of_Z z
  | PObj _ t => t
  end.

(** ** Parsing a format string *)

(** A literal character, a conversion (its key, if any, and its
    conversion character), or a key whose specifier the string ends
    before: Python looks the key up before it reads on. *)
Inductive seg :=
  | Lit (c : ascii)
  | Spec (key : option string) (conv : ascii)
  | KeyAtEnd (key : string).

Inductive pstate :=
  | PText
  | PPercent
  | PKey (depth : nat) (acc : string)
  | PConv (key : option string).

Definition cons_seg (x : seg) (r : list seg * option exn) : list seg * option exn :=
  (x :: fst r, snd r).

(** [parse_fmt st s] is the list of segments of [s] read from state
    [st], and the [ValueError] that stops the reading, if any. *)
Fixpoint parse_fmt (st : pstate) (s : string) : list seg * option exn :=
  match s with
  | EmptyString =>
      match st with
      | PText => ([], None)
      | PPercent => ([], Some (ValueError "incomplete format"))
      | PKey _ _ => ([], Some (ValueError "incomplete format key"))
      | PConv None => ([], Some (ValueError "incomplete format"))
      | PConv (Some k) => ([KeyAtEnd k], Some (ValueError "incomplete format"))
      end
  | String c s' =>
      match st with
      | PText =>
          if ascii_eqb c "%" then parse_fmt PPercent s'
          else cons_seg (Lit c) (parse_fmt PText s')
      | PPercent =>
          if ascii_eqb c "(" then parse_fmt (PKey 0 EmptyString) s'
          else cons_seg (Spec None c) (parse_fmt PText s')
      | PKey d acc =>
          if ascii_eqb c ")" then
            match d with
            | O => parse_fmt (PConv (Some acc)) s'
            | S d' => parse_fmt (PKey d' (acc ++ str1 c)) s'
            end
          else if ascii_eqb c "(" then parse_fmt (PKey (S d) (acc ++ str1 c)) s'
          else parse_fmt (PKey d (acc ++ str1 c)) s'
      | PConv k => cons_seg (Spec k c) (parse_fmt PText s')
      end
  end.

(** ** The argument of [%]: a tuple or a mapping *)

Class FormatArgs (A : Type) := {
  (** [%(key)c]: the value under [key]. *)
  fa_lookup : A -> string -> res pyval;
  (** [%c]: the next positional value and the arguments left. *)
  fa_next : A -> res (pyval * A);
  (** At the end: were all positional arguments converted? *)
  fa_done : A -> bool
}.

(** A tuple [(v1, ..., vn)]. *)
#[export] Instance tuple_args : FormatArgs (list pyval) := {
  fa_lookup _ _ := Raise (TypeError "format requires a mapping");
  fa_next l := match l with
               | v :: l' => Ok (v, l')
               | [] => Raise (TypeError "not enough arguments for format string")
               end;
  fa_done l := match l with [] => true | _ => false end
}.

(** A dict with [str] keys.  Python formats the dict itself for a
    positional specifier; no format string of the module does that. *)
#[export] Instance dict_args : FormatArgs (gmap string pyval) := {
  fa_lookup m k := match m !! k with
                   | Some v => Ok v
                   | None => Raise (KeyError k)
                   end;
  fa_next _ := Raise (Unmodelled "a mapping used as a positional argument");
  fa_done _ := true
}.

(** ** Conversions *)

Definition is_flag_or_width (c : ascii) : bool :=
  contains_char c "-+ #0123456789.*".

Definition convert (c : ascii) (v : pyval) : res string :=
  if ascii_eqb c "s" then Ok (py_str v)
  else if ascii_eqb c "r" then
    match v with
    | PStr s => Ok (py_repr s)
    | PInt z => Ok (str_of_Z z)
    | PObj _ _ => Raise (Unmodelled "repr of an object")
    end
  else if ascii_eqb c "d" || ascii_eqb c "i" || ascii_eqb c "u" then
    match v with
    | PInt z => Ok (str_of_Z z)
    | _ => Raise (TypeError "%d format: a real number is required")
    end
  else if ascii_eqb c "o" then
    match v with
    | PInt z => Ok (oct_of_Z z)
    | _ => Raise (TypeError "%o format: an integer is required")
    end
  else if ascii_eqb c "x" then
    match v with
    | PInt z => Ok (show_Z 16 z)
    | _ => Raise (TypeError "%x format: an integer is required")
    end
  else if is_flag_or_width c || contains_char c "aceEfFgGX" then
    Raise (Unmodelled "format flags, width, precision or conversion")
  else Raise (ValueError "unsupported format character").

Section Render.
Context {A : Type} `{FormatArgs A}.

(** The text of the segments and the arguments left over. *)
Fixpoint render (segs : list seg) (a : A) : res (string * A) :=
  match segs with
  | [] => Ok (EmptyString, a)
  | Lit c :: segs' =>
      match render segs' a with
      | Ok (out, a') => Ok (String c out, a')
      | Raise e => Raise e
      end
  | Spec None c :: segs' =>
      if ascii_eqb c "%" then
        match render segs' a with
        | Ok (out, a') => Ok (String c out, a')
        | Raise e => Raise e
        end
      else
        match fa_next a with
        | Raise e => Raise e
        | Ok (v, a1) =>
            match convert c v with
            | Raise e => Raise e
            | Ok t =>
                match render segs' a1 with
                | Ok (out, a') => Ok (t ++ out, a')
                | Raise e => Raise e
                end
            end
        end
  | Spec (Some k) c :: segs' =>
      match fa_lookup a k with
      | Raise e => Raise e
      | Ok v =>
          match (if ascii_eqb c "%" then Ok (str1 c) else convert c v) with
          | Raise e => Raise e
          | Ok t =>
              match render segs' a with
              | Ok (out, a') => Ok (t ++ out, a')
              | Raise e => Raise e
              end
          end
      end
  | KeyAtEnd k :: segs' =>
      match fa_lookup a k with
      | Raise e => Raise e
      | Ok _ => render segs' a
      end
  end.

(** [fmt % a]. *)
Definition py_format (fmt : string) (a : A) : res string :=
  let (segs, err) := parse_fmt PText fmt in
  match render segs a with
  | Raise e => Raise e
  | Ok (out, a') =>
      match err with
      | Some e => Raise e
      | None =>
          if fa_done a' then Ok out
          else Raise (TypeError "not all arguments converted during string formatting")
      end
  end.

End Render.

(** ** Templates: literal text, [%%] and [%(key)s]

    The three templates and the help text use no other specifier. *)

Definition seg_simple (x : seg) : bool :=
  match x with
  | Lit _ => true
  | Spec None c => ascii_eqb c "%"
  | Spec (Some _) c => ascii_eqb c "s"
  | KeyAtEnd _ => false
  end.

Definition is_simple_template (fmt : string) : bool :=
  let (segs, err) := parse_fmt PText fmt in
  forallb seg_simple segs && match err with None => true | Some _ => false end.

Definition seg_keys (segs : list seg) : list string :=
  flat_map (fun x => match x with Spec (Some k) _ => [k] | _ => [] end) segs.

Definition template_keys (fmt : string) : list string :=
  seg_keys (fst (parse_fmt PText fmt)).

(** The keys of [ks] the dict lacks, in order. *)
Definition first_missing (m : gmap string pyval) (ks : list string) : option string :=
  find (fun k => match m !! k with None => true | Some _ => false end) ks.

(** The text of simple segments with every key replaced by [str] of
    its value. *)
Fixpoint expand (m : gmap string pyval) (segs : list seg) : string :=
  match segs with
  | [] => EmptyString
  | Lit c :: segs' => String c (expand m segs')
  | Spec None c :: segs' => String c (expand m segs')
  | Spec (Some k) _ :: segs' =>
      match m !! k with
      | Some v => py_str v
      | None => EmptyString
      end ++ expand m segs'
  | KeyAtEnd _ :: segs' => expand m segs'
  end.

(** [s] with every [%] doubled: a format string whose rendering is [s]. *)
Fixpoint escape_pct (s : string) : string :=
  match s with
  | EmptyString => EmptyString
  | String c s' =>
      if ascii_eqb c "%" then String c (String c (escape_pct s'))
      else String c (escape_pct s')
  end.

(** ** Lemmas *)

Lemma render_cons_lit {A} `{FormatArgs A} (c : ascii) (segs : list seg) (a : A) :
  render (Lit c :: segs) a =
  match render segs a with Ok (out, a') => Ok (String c out, a') | Raise e => Raise e end.
Proof. reflexivity. Qed.

(** A simple template renders to its expansion when the dict has all
    its keys, and raises [KeyError] for the first key it lacks. *)
Lemma render_simple (m : gmap string pyval) (segs : list seg) :
  forallb seg_simple segs = true ->
  render segs m =
  match first_missing m (seg_keys segs) with
  | None => Ok (expand m segs, m)
  | Some k => Raise (KeyError k)
  end.
Proof.
  unfold first_missing.
  induction segs as [|x segs IH]; intros Hs; [reflexivity|].
  simpl in Hs. apply andb_true_iff in Hs as [Hx Hs].
  specialize (IH Hs).
  destruct x as [c|[k|] c|k]; simpl in Hx |- *; try discriminate.
  - rewrite IH. destruct (find _ (seg_keys segs)); reflexivity.
  - apply ascii_eqb_eq in Hx. subst c. cbn [ascii_eqb Ascii.eqb].
    destruct (m !! k) as [v|] eqn:Hk; simpl; [|reflexivity].
    rewrite IH. destruct (find _ (seg_keys segs)); reflexivity.
  - apply ascii_eqb_eq in Hx. subst c. simpl.
    rewrite IH. destruct (find _ (seg_keys segs)); reflexivity.
Qed.

Lemma escape_parse (s : string) :
  parse_fmt PText (escape_pct s) =
  (map (fun c => if ascii_eqb c "%" then Spec None c else Lit c)
       (list_ascii_of_string s), None).
Proof.
  induction s as [|c s IH]; [reflexivity|]. simpl.
  destruct (ascii_eqb c "%") eqn:E.
  - apply ascii_eqb_eq in E. subst c. simpl. rewrite IH. reflexivity.
  - cbn [parse_fmt]. rewrite E, IH. reflexivity.
Qed.

Lemma escape_render {A} `{FormatArgs A} (s : string) (a : A) :
  render (map (fun c => if ascii_eqb c "%" then Spec None c else Lit c)
              (list_ascii_of_string s)) a = Ok (s, a).
Proof.
  induction s as [|c s IH]; [reflexivity|]. simpl.
  destruct (ascii_eqb c "%") eqn:E; simpl; rewrite ?E, IH; reflexivity.
Qed.

(** [template % kwds] on a template of literal text, [%%] and
    [%(key)s]: the text with every key replaced by [str] of its value
    when [kwds] has every key, else [KeyError] for the first key it
    lacks. *)
Theorem template_format_eq (fmt : string) (m : gmap string pyval) :
  is_simple_template fmt = true ->
  py_format fmt m =
  match first_missing m (template_keys fmt) with
  | None => Ok (expand m (fst (parse_fmt PText fmt)))
  | Some k => Raise (KeyError k)
  end.
Proof.
  unfold is_simple_template, template_keys, py_format.
  destruct (parse_fmt PText fmt) as [segs err]. simpl.
  intros Hs. apply andb_true_iff in Hs as [Hs He]. destruct err; [discriminate|].
  rewrite render_simple by exact Hs.
  destruct (first_missing m (seg_keys segs)); reflexivity.
Qed.

(** Doubling every [%] makes any text a format that renders to itself
    when no argument remains. *)
Lemma escape_pct_roundtrip {A} `{FormatArgs A} (s : string) (a : A) :
  fa_done a = true -> py_format (escape_pct s) a = Ok s.
Proof.
  intros Hd. unfold py_format. rewrite escape_parse, escape_render, Hd. reflexivity.
Qed.
