(* ===== verification/PosixPath.v ===== *)
(** * [os.path] on POSIX: [join], [split], [basename], [isabs], [normpath], [abspath]

    The module builds every path with [os.path.join] (makedir, line 223;
    makefile, line 238), splits with [os.path.split] (mkdirs, line 230;
    run, line 179), takes [os.path.basename] of [sys.argv[0]] (run,
    line 156) and makes the home absolute with [os.path.isabs] and
    [os.path.abspath] (run, lines 167-168).  The definitions follow
    CPython's [posixpath] on [str] paths. *)

From Stdlib Require Import ZArith String Ascii List Lia.
From stdpp Require Import base list.
From S2P Require Import Prelude PyStr.

Local Open Scope string_scope.

Definition slash : ascii := "/"%char.

(** [s.endswith('/')]. *)
Fixpoint ends_with_slash (s : string) : bool :=
  match s with
  | EmptyString => false
  | String c EmptyString => Ascii.eqb c slash
  | String _ s' => ends_with_slash s'
  end.

(** [os.path.isabs(s)]: [s.startswith('/')]. *)
Definition isabs (s : string) : bool := starts_with_char slash s.

(** [os.path.join(a, b)]: an absolute [b] replaces [a]; otherwise a
    slash is put between them unless [a] is empty or ends in one. *)
Definition path_join (a b : string) : string :=
  if isabs b then b
  else if (a =? "") || ends_with_slash a then a ++ b
  else a ++ "/" ++ b.

(** The loop of [makedir] over its arguments (lines 221-223): [path = ""], then
    [path = os.path.join(path, arg)] for each argument. *)
Definition join_all (args : list string) : string :=
  fold_left path_join args "".

(** [p[:i], p[i:]] with [i = p.rfind('/') + 1]: everything up to and
    including the last slash, and the rest. *)
Fixpoint split_last (p : string) : string * string :=
  match p with
  | EmptyString => (EmptyString, EmptyString)
  | String c p' =>
      let (h, t) := split_last p' in
      match h with
      | EmptyString =>
          if Ascii.eqb c slash then (str1 c, t) else (EmptyString, String c t)
      | _ => (String c h, t)
      end
  end.

(** [s.rstrip('/')]. *)
Fixpoint rstrip_slash (s : string) : string :=
  match s with
  | EmptyString => EmptyString
  | String c s' =>
      match rstrip_slash s' with
      | EmptyString => if Ascii.eqb c slash then EmptyString else str1 c
      | r => String c r
      end
  end.

(** [os.path.split(p)]: the head loses its trailing slashes unless it
    is made of slashes only. *)
Definition path_split (p : string) : string * string :=
  let (h, t) := split_last p in
  if negb (h =? "") && negb (all_chars (fun c => Ascii.eqb c slash) h)
  then (rstrip_slash h, t) else (h, t).

(** [os.path.basename(p)]. *)
Definition basename (p : string) : string := snd (split_last p).

(** The component loop of [os.path.normpath]: [.] and empty
    components go, [..] removes the previous component unless there is
    none (an absolute path) or it is itself [..]. *)
Definition norm_step (absolute : bool) (acc : list string) (comp : string) : list string :=
  if (comp =? "") || (comp =? ".") then acc
  else if negb (comp =? "..") || (negb absolute && bool_decide (acc = []))
          || (match last acc with Some x => x =? ".." | None => false end)
  then acc ++ [comp]
  else match acc with [] => [] | _ => removelast acc end.

(** [os.path.normpath(path)]: one leading slash is kept as one, exactly
    two as two, three or more as one. *)
Definition normpath (path : string) : string :=
  if path =? "" then "." else
  let initial :=
    if isabs path then
      match path with
      | String _ (String c (String d _)) =>
          if Ascii.eqb c slash && negb (Ascii.eqb d slash) then "//" else "/"
      | String _ (String c EmptyString) => if Ascii.eqb c slash then "//" else "/"
      | _ => "/"
      end
    else "" in
  let comps := fold_left (norm_step (isabs path)) (split_on slash path) [] in
  let p := initial ++ join_with "/" comps in
  if p =? "" then "." else p.

(** [os.path.abspath(path)] with the working directory [cwd]. *)
Definition abspath (cwd path : string) : string :=
  normpath (if isabs path then path else path_join cwd path).

(** ** Clean absolute paths

    [path_of cs] is the absolute path of the location [cs]: a slash
    before each component.  A component is proper when it is not empty,
    not [.] or [..], and has no slash. *)
Definition path_of (cs : list string) : string := "/" ++ join_with "/" cs.

Definition name_ok (c : string) : bool :=
  negb (c =? "") && negb (c =? ".") && negb (c =? "..") && negb (contains_char slash c).

(** ** Lemmas *)

Lemma split_last_app (p : string) :
  (fst (split_last p) ++ snd (split_last p))%string = p.
Proof.
  induction p as [|c p IH]; [reflexivity|]. simpl.
  destruct (split_last p) as [h t]. simpl in IH.
  unfold str1. destruct h; [destruct (Ascii.eqb c slash)|]; simpl;
    rewrite ?append_cons, ?append_nil_l in *; congruence.
Qed.

Lemma rstrip_slash_length (s : string) :
  String.length (rstrip_slash s) <= String.length s.
Proof.
  induction s as [|c s IH]; simpl; [lia|].
  destruct (rstrip_slash s); [destruct (Ascii.eqb c slash)|]; simpl in *; lia.
Qed.

(** The head [os.path.split] returns is shorter than the path when the
    tail is not empty: the measure of [mkdirs]' recursion. *)
Lemma path_split_shorter (p : string) :
  snd (path_split p) <> "" ->
  String.length (fst (path_split p)) < String.length p.
Proof.
  unfold path_split. pose proof (split_last_app p) as Happ.
  destruct (split_last p) as [h t]. simpl in Happ.
  rewrite <- Happ, string_app_length.
  intros Ht. destruct (negb (h =? "") && _); simpl in Ht |- *;
    (assert (String.length t > 0) by (destruct t; simpl; [congruence|lia]));
    [pose proof (rstrip_slash_length h)|]; lia.
Qed.

Lemma isabs_app (a b : string) : isabs a = true -> isabs (a ++ b) = true.
Proof. destruct a; [discriminate|]. intros H. exact H. Qed.

Lemma path_join_isabs (a b : string) :
  isabs a = true -> isabs (path_join a b) = true.
Proof.
  intros Ha. unfold path_join.
  destruct (isabs b) eqn:Hb; [exact Hb|].
  destruct (_ || _); rewrite ?string_app_assoc; now apply isabs_app.
Qed.

Lemma normpath_isabs (p : string) : isabs p = true -> isabs (normpath p) = true.
Proof.
  intros Hp. unfold normpath. rewrite Hp.
  destruct (p =? "") eqn:E; [apply String.eqb_eq in E; subst; discriminate|].
  set (j := join_with _ _).
  match goal with |- context [(?x ++ j)%string] => set (initial := x) end.
  assert (Hin : initial = "/" \/ initial = "//").
  { unfold initial. repeat case_match; auto. }
  destruct Hin as [-> | ->]; rewrite !append_cons; reflexivity.
Qed.

(** [os.path.abspath] with an absolute working directory is absolute. *)
Lemma abspath_isabs (cwd p : string) :
  isabs cwd = true -> isabs (abspath cwd p) = true.
Proof.
  intros Hc. unfold abspath. apply normpath_isabs.
  destruct (isabs p) eqn:Hp; [exact Hp|]. now apply path_join_isabs.
Qed.

(** *** Clean paths *)

Lemma name_ok_spec (c : string) :
  name_ok c = true ->
  c <> "" /\ c <> "." /\ c <> ".." /\ contains_char slash c = false.
Proof.
  unfold name_ok. intros H. repeat rewrite andb_true_iff in H.
  destruct H as [[[H1 H2] H3] H4]. apply negb_true_iff in H1, H2, H3, H4.
  apply String.eqb_neq in H1, H2, H3. auto.
Qed.

Lemma split_on_no_char (c : ascii) (s : string) :
  contains_char c s = false -> split_on c s = [s].
Proof.
  induction s as [|x s IH]; [reflexivity|]. simpl.
  intros H. apply orb_false_iff in H as [Hx Hs]. rewrite Hx, IH by exact Hs.
  reflexivity.
Qed.

Lemma split_on_app_sep (c : ascii) (x s : string) :
  contains_char c x = false ->
  split_on c (x ++ str1 c ++ s) = x :: split_on c s.
Proof.
  induction x as [|y x IH]; intros H.
  - simpl. now rewrite Ascii.eqb_refl.
  - simpl in H. apply orb_false_iff in H as [Hy Hx].
    rewrite append_cons. simpl. rewrite Hy, IH by exact Hx. reflexivity.
Qed.

Lemma split_on_join (c : ascii) (l : list string) :
  l <> [] -> Forall (fun x => contains_char c x = false) l ->
  split_on c (join_with (str1 c) l) = l.
Proof.
  induction l as [|x [|y l] IH]; intros Hne Hl; [congruence| |].
  - inversion Hl; subst. simpl. now apply split_on_no_char.
  - inversion Hl; subst. rewrite join_with_cons2, split_on_app_sep by assumption.
    rewrite IH; [reflexivity|discriminate|assumption].
Qed.

Lemma names_no_slash (cs : list string) :
  Forall (fun c => name_ok c = true) cs ->
  Forall (fun x => contains_char slash x = false) cs.
Proof. intros H. eapply Forall_impl; [exact H|]. intros c Hc. apply name_ok_spec in Hc. tauto. Qed.

(** [str.split('/')] of a slash followed by names joined with slashes. *)
Lemma split_abs_join (l : list string) :
  l <> [] -> Forall (fun x => contains_char slash x = false) l ->
  split_on slash ("/" ++ join_with "/" l) = "" :: l.
Proof.
  intros Hne Hl. change "/" with (str1 slash).
  change (str1 slash ++ join_with (str1 slash) l)
    with (EmptyString ++ str1 slash ++ join_with (str1 slash) l).
  rewrite split_on_app_sep by reflexivity. now rewrite split_on_join.
Qed.

(** The components of a clean path, as [str.split('/')] and the kernel
    see them: an empty one for the leading slash, then the names. *)
Lemma split_path_of (cs : list string) :
  cs <> [] -> Forall (fun c => name_ok c = true) cs ->
  split_on slash (path_of cs) = "" :: cs.
Proof. intros Hne Hcs. apply split_abs_join; [exact Hne|now apply names_no_slash]. Qed.

Lemma ends_with_slash_cons (c : ascii) (s : string) :
  s <> "" -> ends_with_slash (String c s) = ends_with_slash s.
Proof. destruct s; [congruence|reflexivity]. Qed.

Lemma app_nonempty_r (a b : string) : b <> "" -> (a ++ b)%string <> "".
Proof. destruct a; [auto|]. rewrite append_cons. discriminate. Qed.

Lemma ends_with_slash_app (a b : string) :
  b <> "" -> ends_with_slash (a ++ b) = ends_with_slash b.
Proof.
  intros Hb. induction a as [|x a IH]; [reflexivity|].
  rewrite append_cons, ends_with_slash_cons by (now apply app_nonempty_r).
  exact IH.
Qed.

Lemma ends_with_slash_name (c : string) :
  contains_char slash c = false -> ends_with_slash c = false.
Proof.
  induction c as [|x c IH]; [reflexivity|]. simpl.
  intros H. apply orb_false_iff in H as [Hx Hc]. destruct c; [exact Hx|]. now apply IH.
Qed.

Lemma join_with_cons_ne (sep y : string) (l : list string) :
  l <> [] -> join_with sep (y :: l) = y ++ sep ++ join_with sep l.
Proof. destruct l; [congruence|reflexivity]. Qed.

Lemma join_with_snoc (sep : string) (l : list string) (x : string) :
  l <> [] -> join_with sep (l ++ [x]) = join_with sep l ++ sep ++ x.
Proof.
  induction l as [|y [|z l] IH]; intros Hne; [congruence|reflexivity|].
  change ((y :: z :: l) ++ [x])%list with (y :: ((z :: l) ++ [x]))%list.
  rewrite join_with_cons_ne by (destruct l; discriminate).
  rewrite IH by discriminate. rewrite join_with_cons2.
  now rewrite !string_app_assoc.
Qed.

Lemma join_with_last_name (l : list string) (x : string) :
  contains_char slash x = false -> x <> "" ->
  ends_with_slash (join_with "/" (l ++ [x])) = false.
Proof.
  intros Hx Hne. destruct l as [|y l]; [now apply ends_with_slash_name|].
  rewrite join_with_snoc by discriminate. rewrite !ends_with_slash_app by
    (try (destruct x; [congruence|discriminate]); discriminate).
  now apply ends_with_slash_name.
Qed.

(** [os.path.join(path_of(cs), c)] is [path_of(cs + [c])]. *)
Lemma path_join_path_of (cs : list string) (c : string) :
  Forall (fun c => name_ok c = true) cs -> name_ok c = true ->
  path_join (path_of cs) c = path_of (cs ++ [c]).
Proof.
  intros Hcs Hc. apply name_ok_spec in Hc as (Hc1 & _ & _ & Hc4).
  unfold path_join. assert (Habs : isabs c = false).
  { destruct c as [|x c]; [congruence|]. simpl in *. now apply orb_false_iff in Hc4 as []. }
  rewrite Habs. destruct cs as [|y cs] using rev_ind.
  - reflexivity.
  - assert (Hy : name_ok y = true) by (apply Forall_app in Hcs as [_ H]; now inversion H).
    apply name_ok_spec in Hy as (Hy1 & _ & _ & Hy4).
    assert (Hend : ends_with_slash (path_of (cs ++ [y])) = false).
    { unfold path_of. rewrite ends_with_slash_app by
        (destruct cs; [destruct y; [congruence|discriminate]|];
         rewrite join_with_snoc by discriminate; destruct (join_with _ _); discriminate).
      now apply join_with_last_name. }
    assert (Hne : (path_of (cs ++ [y]) =? "") = false) by reflexivity.
    rewrite Hend, Hne. simpl orb. unfold path_of.
    rewrite (join_with_snoc _ (cs ++ [y])) by (destruct cs; discriminate).
    now rewrite !string_app_assoc.
Qed.

(** [makedir(path_of(cs), d1, ..., dn)] builds [path_of(cs + [d1..dn])]. *)
Lemma join_all_path_of (cs ds : list string) :
  Forall (fun c => name_ok c = true) cs -> Forall (fun c => name_ok c = true) ds ->
  join_all (path_of cs :: ds) = path_of (cs ++ ds).
Proof.
  intros Hcs Hds. unfold join_all. simpl.
  replace (path_join "" (path_of cs)) with (path_of cs) by reflexivity.
  revert cs Hcs. induction ds as [|d ds IH]; intros cs Hcs.
  - now rewrite app_nil_r.
  - inversion Hds as [|? ? Hd Hds']; subst. simpl.
    rewrite path_join_path_of by assumption.
    rewrite IH by (try apply Forall_app; auto).
    now rewrite <- app_assoc.
Qed.

Lemma split_last_no_slash (t : string) :
  contains_char slash t = false -> split_last t = ("", t).
Proof.
  induction t as [|x t IH]; [reflexivity|]. simpl.
  intros H. apply orb_false_iff in H as [Hx Ht]. rewrite IH by exact Ht. rewrite Hx.
  reflexivity.
Qed.

Lemma split_last_sep (s t : string) :
  contains_char slash t = false ->
  split_last (s ++ str1 slash ++ t) = (s ++ str1 slash, t).
Proof.
  intros Ht. induction s as [|x s IH].
  - simpl. rewrite split_last_no_slash by exact Ht. reflexivity.
  - rewrite append_cons. simpl. rewrite IH.
    destruct (s ++ str1 slash)%string eqn:E; [destruct s; discriminate|].
    rewrite <- E, append_cons. reflexivity.
Qed.

Lemma rstrip_slash_cons (c : ascii) (s : string) :
  rstrip_slash (String c s) =
  match rstrip_slash s with
  | EmptyString => if Ascii.eqb c slash then EmptyString else str1 c
  | r => String c r
  end.
Proof. reflexivity. Qed.

Lemma rstrip_slash_snoc (s : string) : rstrip_slash (s ++ str1 slash) = rstrip_slash s.
Proof.
  induction s as [|x s IH]; [reflexivity|].
  rewrite append_cons, !rstrip_slash_cons, IH. reflexivity.
Qed.

Lemma rstrip_slash_id (s : string) : ends_with_slash s = false -> rstrip_slash s = s.
Proof.
  induction s as [|x s IH]; [reflexivity|]. intros H.
  destruct s as [|y s].
  - simpl in *. now rewrite H.
  - rewrite rstrip_slash_cons, IH by exact H. reflexivity.
Qed.

Lemma path_of_snoc (cs : list string) (c : string) :
  cs <> [] -> path_of (cs ++ [c]) = path_of cs ++ str1 slash ++ c.
Proof.
  intros Hne. unfold path_of. rewrite join_with_snoc by exact Hne.
  now rewrite !string_app_assoc.
Qed.

Lemma path_of_ends (cs : list string) :
  cs <> [] -> Forall (fun c => name_ok c = true) cs -> ends_with_slash (path_of cs) = false.
Proof.
  intros Hne Hcs. destruct cs as [|y cs] using rev_ind; [congruence|].
  apply Forall_app in Hcs as [_ Hy]. inversion Hy as [|? ? Hy' _]; subst.
  apply name_ok_spec in Hy' as (Hy1 & _ & _ & Hy4).
  unfold path_of. rewrite ends_with_slash_app.
  - now apply join_with_last_name.
  - destruct cs; [destruct y; [congruence|discriminate]|].
    rewrite join_with_snoc by discriminate. apply app_nonempty_r, app_nonempty_r.
    destruct y; [congruence|discriminate].
Qed.

Lemma all_chars_app (p : ascii -> bool) (s t : string) :
  all_chars p (s ++ t) = all_chars p s && all_chars p t.
Proof.
  induction s as [|x s IH]; [reflexivity|]. rewrite append_cons. simpl.
  now rewrite IH, andb_assoc.
Qed.

Lemma name_not_all_slash (y : string) :
  y <> "" -> contains_char slash y = false ->
  all_chars (fun x => Ascii.eqb x slash) y = false.
Proof.
  destruct y as [|a y]; [congruence|]. simpl. intros _ H.
  apply orb_false_iff in H as [Ha _]. now rewrite Ha.
Qed.

Lemma join_with_head (sep y : string) (l : list string) :
  exists r, join_with sep (y :: l) = y ++ r.
Proof.
  destruct l as [|z l]; [exists ""; now rewrite string_app_nil_r|].
  exists (sep ++ join_with sep (z :: l)). reflexivity.
Qed.

(** [os.path.split] of a clean path followed by a slash and a text
    without one: the path, and that text. *)
Lemma path_split_sep (cs : list string) (t : string) :
  cs <> [] -> Forall (fun c => name_ok c = true) cs -> contains_char slash t = false ->
  path_split (path_of cs ++ str1 slash ++ t) = (path_of cs, t).
Proof.
  intros Hne Hcs Ht. destruct cs as [|y cs']; [congruence|].
  pose proof Hcs as Hcs0. apply Forall_cons in Hcs0 as [Hy _].
  apply name_ok_spec in Hy as (Hy1 & _ & _ & Hy4).
  unfold path_split. rewrite split_last_sep by exact Ht.
  assert (Hns : all_chars (fun x => Ascii.eqb x slash) (path_of (y :: cs') ++ str1 slash) = false).
  { destruct (join_with_head "/" y cs') as [r Hr]. unfold path_of.
    rewrite Hr, !all_chars_app, (name_not_all_slash y) by assumption.
    now rewrite andb_false_r. }
  assert (Hh : (path_of (y :: cs') ++ str1 slash =? "") = false) by reflexivity.
  rewrite Hh, Hns. cbn [negb andb]. rewrite rstrip_slash_snoc, rstrip_slash_id by
    (apply path_of_ends; [discriminate|exact Hcs]).
  reflexivity.
Qed.

(** [os.path.split(path_of(cs + [c]))] is [(path_of(cs), c)]: the
    recursion of [mkdirs] goes to the parent location. *)
Lemma path_split_path_of (cs : list string) (c : string) :
  Forall (fun c => name_ok c = true) (cs ++ [c]) ->
  path_split (path_of (cs ++ [c])) = (path_of cs, c).
Proof.
  intros Hall. apply Forall_app in Hall as [Hcs Hc].
  inversion Hc as [|? ? Hc' _]; subst. apply name_ok_spec in Hc' as (Hc1 & _ & _ & Hc4).
  destruct cs as [|y cs'] eqn:Ecs.
  - unfold path_split, path_of. simpl join_with.
    change ("/" ++ c)%string with (EmptyString ++ str1 slash ++ c)%string.
    rewrite split_last_sep by exact Hc4. reflexivity.
  - rewrite path_of_snoc by discriminate. apply path_split_sep; [discriminate|exact Hcs|exact Hc4].
Qed.

(** A clean path with a trailing slash is its names and an empty last
    component. *)
Lemma path_of_slash_eq (cs : list string) :
  cs <> [] -> path_of cs ++ "/" = "/" ++ join_with "/" (cs ++ [""]).
Proof.
  intros Hne. unfold path_of. rewrite join_with_snoc by exact Hne.
  now rewrite string_app_nil_r, !string_app_assoc.
Qed.

Lemma split_path_of_slash (cs : list string) :
  cs <> [] -> Forall (fun c => name_ok c = true) cs ->
  split_on slash (path_of cs ++ "/") = "" :: (cs ++ [""])%list.
Proof.
  intros Hne Hcs. rewrite path_of_slash_eq by exact Hne. apply split_abs_join.
  - destruct cs; [congruence|discriminate].
  - apply Forall_app. split; [now apply names_no_slash|repeat constructor].
Qed.

(** [os.path.split(path_of(cs) + "/")] has an empty tail: this is why
    [mkdirs] does not make the parent of such a path. *)
Lemma path_split_slash (cs : list string) :
  cs <> [] -> Forall (fun c => name_ok c = true) cs ->
  path_split (path_of cs ++ "/") = (path_of cs, "").
Proof.
  intros Hne Hcs. change (path_of cs ++ "/") with (path_of cs ++ str1 slash ++ "").
  now apply path_split_sep.
Qed.

Lemma path_of_length (cs : list string) :
  Forall (fun c => name_ok c = true) cs -> length cs <= String.length (path_of cs).
Proof.
  induction cs as [|c cs IH] using rev_ind; intros Hcs; [simpl; lia|].
  apply Forall_app in Hcs as [Hcs _]. rewrite length_app.
  destruct (decide (cs = [])) as [->|Hne].
  - simpl. lia.
  - rewrite path_of_snoc by exact Hne. rewrite !string_app_length.
    specialize (IH Hcs). unfold str1. cbn [List.length String.length]. lia.
Qed.

(** ** Relative paths made absolute *)

Lemma join_with_app (sep : string) (l1 l2 : list string) :
  l1 <> [] -> l2 <> [] ->
  join_with sep (l1 ++ l2) = join_with sep l1 ++ sep ++ join_with sep l2.
Proof.
  induction l1 as [|x [|y l1] IH]; intros H1 H2; [congruence| |].
  - cbn [app]. now rewrite join_with_cons_ne.
  - change ((x :: y :: l1) ++ l2)%list with (x :: ((y :: l1) ++ l2))%list.
    rewrite join_with_cons_ne by (destruct l1; discriminate).
    rewrite IH by (discriminate || exact H2). rewrite join_with_cons2.
    now rewrite !string_app_assoc.
Qed.

(** A clean name does not start with a slash. *)
Lemma name_first_char (c : string) :
  name_ok c = true -> exists x r, c = String x r /\ Ascii.eqb x slash = false.
Proof.
  intros Hc. apply name_ok_spec in Hc as (Hne & _ & _ & Hs).
  destruct c as [|x r]; [congruence|]. exists x, r. split; [reflexivity|].
  cbn in Hs. now apply orb_false_iff in Hs as [Hx _].
Qed.

Lemma isabs_join_names (d : string) (ds : list string) :
  Forall (fun c => name_ok c = true) (d :: ds) -> isabs (join_with "/" (d :: ds)) = false.
Proof.
  intros Hall. inversion Hall as [|? ? Hd _]; subst.
  destruct (join_with_head "/" d ds) as [r ->].
  destruct (name_first_char d Hd) as (x & r' & -> & Hx). exact Hx.
Qed.

(** [os.path.join(dir, rel)] of a clean directory and a clean relative
    path is the clean path of both. *)
Lemma path_join_rel (cs : list string) (d : string) (ds : list string) :
  Forall (fun c => name_ok c = true) cs -> Forall (fun c => name_ok c = true) (d :: ds) ->
  path_join (path_of cs) (join_with "/" (d :: ds)) = path_of (cs ++ d :: ds).
Proof.
  intros Hcs Hds. unfold path_join. rewrite isabs_join_names by exact Hds.
  destruct cs as [|c cs]; [reflexivity|].
  rewrite path_of_ends by (discriminate || exact Hcs).
  assert (Hne : (path_of (c :: cs) =? "") = false) by reflexivity. rewrite Hne. simpl orb.
  unfold path_of. rewrite (join_with_app _ (c :: cs)) by discriminate.
  now rewrite !string_app_assoc.
Qed.

Lemma fold_norm_names (acc cs : list string) :
  Forall (fun c => name_ok c = true) cs -> fold_left (norm_step true) cs acc = (acc ++ cs)%list.
Proof.
  revert acc. induction cs as [|c cs IH]; intros acc Hcs; [now rewrite app_nil_r|].
  inversion Hcs as [|? ? Hc Hcs']; subst. cbn [fold_left].
  apply name_ok_spec in Hc as (H1 & H2 & H3 & _).
  unfold norm_step. apply String.eqb_neq in H1, H2, H3. rewrite H1, H2, H3. cbn.
  rewrite IH by exact Hcs'. now rewrite <- app_assoc.
Qed.

(** [os.path.normpath] of an absolute path whose first component is a
    name: one leading slash and the components its loop keeps. *)
Lemma normpath_abs (c : string) (l cs : list string) :
  name_ok c = true -> Forall (fun x => contains_char slash x = false) l ->
  fold_left (norm_step true) (c :: l) [] = cs ->
  normpath ("/" ++ join_with "/" (c :: l)) = path_of cs.
Proof.
  intros Hc Hl Hf. unfold normpath.
  destruct (name_first_char c Hc) as (x & r & -> & Hx).
  destruct (join_with_head "/" (String x r) l) as [r' Hj].
  assert (Hsplit : split_on slash ("/" ++ join_with "/" (String x r :: l)) = "" :: String x r :: l).
  { apply split_abs_join; [discriminate|]. constructor; [|exact Hl].
    apply name_ok_spec in Hc. tauto. }
  rewrite Hsplit.
  assert (HP : "/" ++ join_with "/" (String x r :: l) = String "/" (String x (r ++ r')))
    by (rewrite Hj, !append_cons, append_nil_l; reflexivity).
  rewrite HP.
  replace (isabs (String "/" (String x (r ++ r')))) with true by reflexivity.
  replace (String "/" (String x (r ++ r')) =? "") with false by reflexivity.
  change (fold_left (norm_step true) ("" :: String x r :: l) [])
    with (fold_left (norm_step true) (String x r :: l) (norm_step true [] "")).
  change (norm_step true [] "") with (@nil string). rewrite Hf.
  replace (match String "/" (String x (r ++ r')) with
           | String _ (String c (String d _)) =>
               if Ascii.eqb c slash && negb (Ascii.eqb d slash) then "//" else "/"
           | String _ (String c EmptyString) => if Ascii.eqb c slash then "//" else "/"
           | _ => "/"
           end) with "/" by (cbn; rewrite Hx; destruct (r ++ r'); reflexivity).
  reflexivity.
Qed.

(** [os.path.normpath] leaves a clean absolute path as it is. *)
Lemma normpath_path_of (cs : list string) :
  Forall (fun c => name_ok c = true) cs -> normpath (path_of cs) = path_of cs.
Proof.
  intros Hcs. destruct cs as [|c cs']; [reflexivity|].
  inversion Hcs as [|? ? Hc Hcs']; subst. apply normpath_abs; [exact Hc| |].
  - now apply names_no_slash.
  - rewrite fold_norm_names by exact Hcs. reflexivity.
Qed.

(** ... and a trailing slash disappears below the root (the root
    itself, ["//"], is kept as POSIX allows). *)
Lemma normpath_path_of_slash (cs : list string) :
  cs <> [] -> Forall (fun c => name_ok c = true) cs -> normpath (path_of cs ++ "/") = path_of cs.
Proof.
  intros Hne Hcs. destruct cs as [|c cs']; [congruence|].
  inversion Hcs as [|? ? Hc Hcs']; subst.
  assert (E : path_of (c :: cs') ++ "/" = "/" ++ join_with "/" (c :: cs' ++ [""])).
  { now rewrite path_of_slash_eq by discriminate. }
  rewrite E. apply normpath_abs; [exact Hc| |].
  - apply Forall_app. split; [now apply names_no_slash|]. repeat constructor.
  - change (c :: cs' ++ [""])%list with ((c :: cs') ++ [""])%list.
    rewrite fold_left_app, (fold_norm_names [] (c :: cs')) by exact Hcs. reflexivity.
Qed.

(** [os.path.abspath(rel)] in a clean working directory: the working
    directory followed by the relative path's names. *)
Lemma abspath_rel (cs : list string) (d : string) (ds : list string) :
  Forall (fun c => name_ok c = true) cs -> Forall (fun c => name_ok c = true) (d :: ds) ->
  abspath (path_of cs) (join_with "/" (d :: ds)) = path_of (cs ++ d :: ds).
Proof.
  intros Hcs Hds. unfold abspath. rewrite isabs_join_names by exact Hds.
  rewrite path_join_rel by assumption. apply normpath_path_of.
  apply Forall_app. split; assumption.
Qed.
