(* ===== verification/FileSys.v ===== *)
(** * The operating system the module runs against

    The process state the module reads and changes: the filesystem
    tree, the working directory, the umask and the standard output.
    The tree is a finite map from absolute locations (lists of
    component names) to nodes; a path string is resolved against it the
    way the POSIX kernel resolves it: component by component from the
    root or the working directory, every intermediate component a
    directory ([ENOTDIR] or [ENOENT] otherwise), [.] and empty
    components staying in place, [..] going up.  There are no symbolic
    links and no permission checks: the tree belongs to the user who
    runs the module.

    The operations are the calls the module makes: [os.path.isdir],
    [os.path.exists], [os.mkdir], [open(path).read()],
    [open(path, "w").write(data)], [os.stat], [os.chmod], [os.umask],
    [os.getcwd] and [sys.stdout.write].  For each call the file proves,
    as properties closed under [bind], that it keeps the invariant
    [world_wf], which texts and which locations it may change, and that
    it raises nothing but [OSError]. *)

From Stdlib Require Import ZArith String Ascii List Lia.
From stdpp Require Import base gmap strings list.
From S2P Require Import Prelude PyStr PosixPath.

Local Open Scope string_scope.

(** ** State *)

Inductive node :=
  | NDir (mode : Z)
  | NFile (data : string) (mode : Z).

Definition is_dir (n : node) : bool :=
  match n with NDir _ => true | NFile _ _ => false end.

Record world := mkWorld {
  w_fs : gmap (list string) node;
  w_cwd : list string;
  w_umask : Z;
  w_out : list string
}.

Definition set_fs (w : world) (fs : gmap (list string) node) : world :=
  mkWorld fs (w_cwd w) (w_umask w) (w_out w).

Definition set_umask (w : world) (m : Z) : world :=
  mkWorld (w_fs w) (w_cwd w) m (w_out w).

Definition add_out (w : world) (line : string) : world :=
  mkWorld (w_fs w) (w_cwd w) (w_umask w) (w_out w ++ [line])%list.

(** A node stored at [k] and a line printed: the effect of each
    creation of [create], naming the old world once. *)
Definition put (w : world) (k : list string) (n : node) (line : string) : world :=
  add_out (set_fs w (<[k := n]> (w_fs w))) line.

(** ** Modes: [st_mode], [stat.S_IMODE], the creation modes *)

Definition S_IFDIR : Z := 16384.   (** 0o040000 *)
Definition S_IFREG : Z := 32768.   (** 0o100000 *)

Definition node_perm (n : node) : Z :=
  match n with NDir m => m | NFile _ m => m end.

Definition st_mode (n : node) : Z :=
  match n with
  | NDir m => Z.lor S_IFDIR m
  | NFile _ m => Z.lor S_IFREG m
  end.

(** [stat.S_IMODE(mode)]: [mode & 0o7777]. *)
Definition S_IMODE (m : Z) : Z := Z.land m 4095.

(** [os.mkdir(path)] creates with [0o777 & ~umask], [open(path, "w")]
    with [0o666 & ~umask]. *)
Definition dir_create_mode (umask : Z) : Z := Z.land 511 (Z.lnot umask).
Definition file_create_mode (umask : Z) : Z := Z.land 438 (Z.lnot umask).

Definition with_perm (n : node) (m : Z) : node :=
  match n with NDir _ => NDir m | NFile d _ => NFile d m end.

(** ** Path resolution *)

Definition step_loc (loc : list string) (c : string) : list string :=
  if (c =? "") || (c =? ".") then loc
  else if c =? ".." then removelast loc
  else (loc ++ [c])%list.

(** Before each component the current location must be a directory. *)
Fixpoint walk (fs : gmap (list string) node) (loc : list string) (cs : list string)
  : errno + list string :=
  match cs with
  | [] => inr loc
  | c :: cs' =>
      match fs !! loc with
      | Some (NDir _) => walk fs (step_loc loc c) cs'
      | Some (NFile _ _) => inl ENOTDIR
      | None => inl ENOENT
      end
  end.

Definition start_loc (w : world) (p : string) : list string :=
  if isabs p then [] else w_cwd w.

Definition resolve (w : world) (p : string) : errno + list string :=
  if p =? "" then inl ENOENT
  else walk (w_fs w) (start_loc w p) (split_on slash p).

Definition stat (w : world) (p : string) : errno + node :=
  match resolve w p with
  | inl e => inl e
  | inr loc =>
      match w_fs w !! loc with
      | Some n => inr n
      | None => inl ENOENT
      end
  end.

(** The directory that holds the last component of [p], and that
    component. *)
Definition resolve_parent (w : world) (p : string) : errno + (list string * string) :=
  let cs := split_on slash p in
  match walk (w_fs w) (start_loc w p) (removelast cs) with
  | inl e => inl e
  | inr loc =>
      match w_fs w !! loc with
      | Some (NDir _) => inr (loc, List.last cs "")
      | Some (NFile _ _) => inl ENOTDIR
      | None => inl ENOENT
      end
  end.

(** ** The calls *)

Definition os_error {A} (e : errno) (p : string) : PyM world A :=
  raise (OSError e p).

(** [os.path.isdir(p)]: never raises. *)
Definition os_path_isdir (p : string) : PyM world bool :=
  fun w => (w, Ok (match stat w p with inr (NDir _) => true | _ => false end)).

(** [os.path.exists(p)]: never raises. *)
Definition os_path_exists (p : string) : PyM world bool :=
  fun w => (w, Ok (match stat w p with inr _ => true | inl _ => false end)).

(** [os.mkdir(p)]: trailing slashes are allowed; the parent must be a
    directory and the name free. *)
Definition os_mkdir (p : string) : PyM world unit :=
  fun w =>
    if p =? "" then os_error ENOENT p w else
    let p' := rstrip_slash p in
    if p' =? "" then os_error EEXIST p w else
    match resolve_parent w p' with
    | inl e => os_error e p w
    | inr (loc, name) =>
        if (name =? ".") || (name =? "..") then os_error EEXIST p w
        else match w_fs w !! (loc ++ [name])%list with
             | Some _ => os_error EEXIST p w
             | None =>
                 (set_fs w (<[(loc ++ [name])%list := NDir (dir_create_mode (w_umask w))]> (w_fs w)),
                  Ok tt)
             end
    end.

(** [open(p).read()] in text mode. *)
Definition read_text (p : string) : PyM world string :=
  fun w =>
    match stat w p with
    | inr (NFile d _) => (w, Ok (translate_newlines d))
    | inr (NDir _) => os_error EISDIR p w
    | inl e => os_error e p w
    end.

(** [open(p, "w").write(data)]: an existing file is truncated and keeps
    its mode, a new one gets [0o666 & ~umask]. *)
Definition write_text (p data : string) : PyM world unit :=
  fun w =>
    if p =? "" then os_error ENOENT p w else
    match resolve_parent w p with
    | inl e => os_error e p w
    | inr (loc, name) =>
        if (name =? "") || (name =? ".") || (name =? "..") then os_error EISDIR p w
        else match w_fs w !! (loc ++ [name])%list with
             | Some (NDir _) => os_error EISDIR p w
             | Some (NFile _ m) =>
                 (set_fs w (<[(loc ++ [name])%list := NFile data m]> (w_fs w)), Ok tt)
             | None =>
                 (set_fs w (<[(loc ++ [name])%list := NFile data (file_create_mode (w_umask w))]> (w_fs w)),
                  Ok tt)
             end
    end.

(** [os.stat(p)[stat.ST_MODE]]. *)
Definition os_stat_mode (p : string) : PyM world Z :=
  fun w =>
    match stat w p with
    | inr n => (w, Ok (st_mode n))
    | inl e => os_error e p w
    end.

(** [os.chmod(p, mode)]. *)
Definition os_chmod (p : string) (mode : Z) : PyM world unit :=
  fun w =>
    match resolve w p with
    | inl e => os_error e p w
    | inr loc =>
        match w_fs w !! loc with
        | Some n => (set_fs w (<[loc := with_perm n (Z.land mode 4095)]> (w_fs w)), Ok tt)
        | None => os_error ENOENT p w
        end
    end.

(** [os.umask(mask)]: sets the mask, returns the previous one. *)
Definition os_umask (mask : Z) : PyM world Z :=
  fun w => (set_umask w (Z.land mask 511), Ok (w_umask w)).

(** [os.getcwd()]. *)
Definition os_getcwd : PyM world string :=
  fun w => (w, Ok ("/" ++ join_with "/" (w_cwd w))).

(** [sys.stdout.write(line + '\n')]: the output is kept as its lines. *)
Definition write_line (line : string) : PyM world unit :=
  fun w => (add_out w line, Ok tt).

(** ** The invariant of the process state

    The root is a directory, the parent of every other location is a
    directory, the working directory is a directory, and the umask is
    nine bits. *)

Definition fs_wf (fs : gmap (list string) node) : Prop :=
  (exists m, fs !! [] = Some (NDir m)) /\
  forall k n, fs !! k = Some n -> k <> [] -> exists m, fs !! removelast k = Some (NDir m).

Definition world_wf (w : world) : Prop :=
  fs_wf (w_fs w) /\ (exists m, w_fs w !! w_cwd w = Some (NDir m))
  /\ (0 <= w_umask w <= 511)%Z.

(** The invariant as a boolean test, for concrete worlds. *)
Definition dir_at (fs : gmap (list string) node) (k : list string) : bool :=
  match fs !! k with Some (NDir _) => true | _ => false end.

Definition fs_wfb (fs : gmap (list string) node) : bool :=
  dir_at fs [] &&
  forallb (fun kv => match kv.1 with [] => true | _ => dir_at fs (removelast kv.1) end)
    (map_to_list fs).

Definition world_wfb (w : world) : bool :=
  fs_wfb (w_fs w) && dir_at (w_fs w) (w_cwd w) && (0 <=? w_umask w)%Z && (w_umask w <=? 511)%Z.

(** Every strict prefix of the location [cs], the root included, is a
    directory: the condition for a path to [cs] to resolve. *)
Definition ancestors_dirs (fs : gmap (list string) node) (cs : list string) : Prop :=
  forall i, i < length cs -> exists m, fs !! take i cs = Some (NDir m).

(** No prefix of [cs] is a file: the condition for [mkdirs] to succeed. *)
Definition no_file_on (fs : gmap (list string) node) (cs : list string) : Prop :=
  forall i d m, i <= length cs -> fs !! take i cs <> Some (NFile d m).

(** Every file whose text, read back and stripped, is not empty is
    still there in [fs'] with the same text; only its mode may differ. *)
Definition keeps_texts (fs fs' : gmap (list string) node) : Prop :=
  forall k d m, fs !! k = Some (NFile d m) -> strip (translate_newlines d) <> "" ->
  exists m', fs' !! k = Some (NFile d m').

(** A computation keeps those texts, whatever it returns. *)
Definition keeps {A} (c : PyM world A) : Prop :=
  forall w, keeps_texts (w_fs w) (w_fs (fst (c w))).

(** A computation that changes the tree at most at the locations of
    [S], whatever it returns. *)
Definition touches_only {A} (S : list string -> Prop) (c : PyM world A) : Prop :=
  forall w k, ~ S k -> w_fs (fst (c w)) !! k = w_fs w !! k.

(** A computation keeps the invariant, whatever it returns. *)
Definition preserves {A} (c : PyM world A) : Prop :=
  forall w, world_wf w -> world_wf (fst (c w)).

(** ** Lemmas on the invariant *)

Lemma removelast_snoc {A} (l : list A) (x : A) : removelast (l ++ [x])%list = l.
Proof. apply removelast_last. Qed.

Lemma snoc_not_nil {A} (l : list A) (x : A) : (l ++ [x])%list <> [].
Proof. destruct l; discriminate. Qed.

(** A new location under a directory. *)
Lemma fs_wf_insert_new (fs : gmap (list string) node) (loc : list string)
  (name : string) (n : node) md :
  fs_wf fs -> fs !! loc = Some (NDir md) -> fs !! (loc ++ [name])%list = None ->
  fs_wf (<[(loc ++ [name])%list := n]> fs).
Proof.
  intros [[r Hr] Hp] Hloc Hnew. split.
  - exists r. rewrite lookup_insert_ne by apply snoc_not_nil. exact Hr.
  - intros k n' Hk Hne. destruct (decide (k = (loc ++ [name])%list)) as [->|Hkn].
    + rewrite removelast_snoc, lookup_insert_ne by (intros E; apply (f_equal length) in E;
        rewrite length_app in E; simpl in E; lia).
      eauto.
    + rewrite lookup_insert_ne in Hk by congruence.
      destruct (Hp k n' Hk Hne) as [m Hm].
      destruct (decide (removelast k = (loc ++ [name])%list)) as [E|E];
        [congruence|]. rewrite lookup_insert_ne by congruence. eauto.
Qed.

(** Replacing a node by one of the same kind. *)
Lemma fs_wf_insert_same_kind (fs : gmap (list string) node) (k : list string) (n0 n : node) :
  fs_wf fs -> fs !! k = Some n0 -> is_dir n = is_dir n0 ->
  fs_wf (<[k := n]> fs).
Proof.
  intros [[r Hr] Hp] Hk Hkind. split.
  - destruct (decide (k = [])) as [->|Hne].
    + rewrite Hr in Hk. injection Hk as <-. destruct n; [|discriminate].
      rewrite lookup_insert_eq. eauto.
    + rewrite lookup_insert_ne by congruence. eauto.
  - intros k' n' Hk' Hne. destruct (decide (k' = k)) as [->|Hkk].
    + destruct (Hp k n0 Hk Hne) as [m Hm].
      assert (removelast k <> k) by (intros E; apply (f_equal length) in E;
        destruct k as [|x l] using rev_ind; [congruence|];
        rewrite removelast_snoc, length_app in E; simpl in E; lia).
      rewrite lookup_insert_ne by congruence. eauto.
    + rewrite lookup_insert_ne in Hk' by congruence.
      destruct (Hp k' n' Hk' Hne) as [m Hm].
      destruct (decide (removelast k' = k)) as [E|E].
      * rewrite E in Hm. rewrite Hm in Hk. injection Hk as <-.
        rewrite E, lookup_insert_eq. destruct n; [eauto|discriminate].
      * rewrite lookup_insert_ne by congruence. eauto.
Qed.

Lemma resolve_parent_dir (w : world) (p : string) loc name :
  resolve_parent w p = inr (loc, name) -> exists m, w_fs w !! loc = Some (NDir m).
Proof.
  unfold resolve_parent. destruct (walk _ _ _) as [e|l]; [discriminate|].
  destruct (w_fs w !! l) as [[m|d m]|] eqn:E; try discriminate.
  intros [= <- _]. eauto.
Qed.

(** *** Every call keeps the invariant *)

Lemma preserves_bind {A B} (m : PyM world A) (k : A -> PyM world B) :
  preserves m -> (forall a, preserves (k a)) -> preserves (bind m k).
Proof.
  intros Hm Hk w Hw. unfold bind. specialize (Hm w Hw).
  destruct (m w) as [w' [a|e]]; simpl in *; [apply Hk|]; exact Hm.
Qed.

Lemma preserves_ret {A} (a : A) : preserves (ret a).
Proof. intros w Hw. exact Hw. Qed.

Lemma preserves_raise {A} (e : exn) : preserves (A := A) (raise e).
Proof. intros w Hw. exact Hw. Qed.

Lemma preserves_lift_res {A} (r : res A) : preserves (lift_res r).
Proof. intros w Hw. exact Hw. Qed.

Lemma preserves_isdir (p : string) : preserves (os_path_isdir p).
Proof. intros w Hw. exact Hw. Qed.

Lemma preserves_exists (p : string) : preserves (os_path_exists p).
Proof. intros w Hw. exact Hw. Qed.

Lemma preserves_getcwd : preserves os_getcwd.
Proof. intros w Hw. exact Hw. Qed.

Lemma preserves_read_text (p : string) : preserves (read_text p).
Proof. intros w Hw. unfold read_text. destruct (stat w p) as [e|[m|d m]]; exact Hw. Qed.

Lemma preserves_stat_mode (p : string) : preserves (os_stat_mode p).
Proof. intros w Hw. unfold os_stat_mode. destruct (stat w p); exact Hw. Qed.

Lemma preserves_write_line (l : string) : preserves (write_line l).
Proof. intros w Hw. exact Hw. Qed.

Lemma preserves_umask (m : Z) : preserves (os_umask m).
Proof.
  intros w (Hfs & Hcwd & _). split; [exact Hfs|]. split; [exact Hcwd|]. simpl.
  pose proof (land_ones_range m 9 ltac:(lia)) as Hr. change (Z.ones 9) with 511%Z in Hr. simpl. lia.
Qed.

(** A new node under a directory, at a location that was free. *)
Lemma world_wf_insert_new (w : world) loc name n md :
  world_wf w -> w_fs w !! loc = Some (NDir md) -> w_fs w !! (loc ++ [name])%list = None ->
  world_wf (set_fs w (<[(loc ++ [name])%list := n]> (w_fs w))).
Proof.
  intros (Hfs & [c Hc] & Hu) Hloc Hnew. split; [|split]; simpl; [eapply fs_wf_insert_new; eauto| |exact Hu].
  exists c. rewrite lookup_insert_ne; [exact Hc|congruence].
Qed.

Lemma world_wf_insert_same_kind (w : world) k n0 n :
  world_wf w -> w_fs w !! k = Some n0 -> is_dir n = is_dir n0 ->
  world_wf (set_fs w (<[k := n]> (w_fs w))).
Proof.
  intros (Hfs & [c Hc] & Hu) Hk Hkind. split; [|split]; simpl;
    [eapply fs_wf_insert_same_kind; eauto| |exact Hu].
  destruct (decide (k = w_cwd w)) as [->|Hne].
  - rewrite Hc in Hk. injection Hk as <-. destruct n; [|discriminate].
    rewrite lookup_insert_eq. eauto.
  - rewrite lookup_insert_ne by exact Hne. eauto.
Qed.

Lemma preserves_mkdir (p : string) : preserves (os_mkdir p).
Proof.
  intros w Hw. unfold os_mkdir.
  destruct (p =? "") ; [exact Hw|]. destruct (rstrip_slash p =? ""); [exact Hw|].
  destruct (resolve_parent w _) as [e|[loc name]] eqn:Hr; [exact Hw|].
  destruct (_ || _); [exact Hw|].
  destruct (w_fs w !! (loc ++ [name])%list) eqn:Hn; [exact Hw|].
  destruct (resolve_parent_dir _ _ _ _ Hr) as [md Hmd].
  eapply world_wf_insert_new; eauto.
Qed.

Lemma preserves_write_text (p data : string) : preserves (write_text p data).
Proof.
  intros w Hw. unfold write_text.
  destruct (p =? ""); [exact Hw|].
  destruct (resolve_parent w p) as [e|[loc name]] eqn:Hr; [exact Hw|].
  destruct (_ || _ || _); [exact Hw|].
  destruct (resolve_parent_dir _ _ _ _ Hr) as [md Hmd].
  destruct (w_fs w !! (loc ++ [name])%list) as [[m|d m]|] eqn:Hn; [exact Hw| |].
  - eapply world_wf_insert_same_kind; eauto.
  - eapply world_wf_insert_new; eauto.
Qed.

Lemma preserves_chmod (p : string) (mode : Z) : preserves (os_chmod p mode).
Proof.
  intros w Hw. unfold os_chmod.
  destruct (resolve w p) as [e|loc]; [exact Hw|].
  destruct (w_fs w !! loc) as [n|] eqn:Hn; [|exact Hw].
  eapply world_wf_insert_same_kind; eauto. destruct n; reflexivity.
Qed.

#[export] Hint Resolve preserves_bind preserves_ret preserves_raise preserves_lift_res
  preserves_isdir preserves_exists preserves_getcwd preserves_read_text
  preserves_stat_mode preserves_write_line preserves_umask preserves_mkdir
  preserves_write_text preserves_chmod : mkzeo.

(** A composition of calls that each have a property of computations
    closed under [bind] has it: sequence with the property's [bind]
    lemma, split every branch, close the calls with the hints. *)
Ltac seq_tac bind_lemma :=
  repeat first
    [ solve [auto with mkzeo]
    | progress cbv zeta
    | apply bind_lemma; [|intros ?]
    | match goal with |- _ (match ?x with _ => _ end) => destruct x end ].

Ltac preserves_tac := seq_tac @preserves_bind.

(** *** Texts that are kept *)

Lemma keeps_texts_refl (fs : gmap (list string) node) : keeps_texts fs fs.
Proof. intros k d m Hk _. eauto. Qed.

Lemma keeps_texts_trans (fs1 fs2 fs3 : gmap (list string) node) :
  keeps_texts fs1 fs2 -> keeps_texts fs2 fs3 -> keeps_texts fs1 fs3.
Proof.
  intros H12 H23 k d m Hk Hd. destruct (H12 k d m Hk Hd) as [m' Hk']. exact (H23 k d m' Hk' Hd).
Qed.

(** A node stored at a free location keeps every text. *)
Lemma keeps_texts_insert_new (fs : gmap (list string) node) (k : list string) (n : node) :
  fs !! k = None -> keeps_texts fs (<[k := n]> fs).
Proof.
  intros Hn k' d m Hk' _. destruct (decide (k = k')) as [<-|Hne]; [congruence|].
  rewrite lookup_insert_ne by exact Hne. eauto.
Qed.

(** A call that leaves the tree as it is keeps the texts. *)
Lemma keeps_same_fs {A} (c : PyM world A) :
  (forall w, w_fs (fst (c w)) = w_fs w) -> keeps c.
Proof. intros H w. rewrite H. apply keeps_texts_refl. Qed.

(** A first call that keeps the texts in the world [w], followed by
    calls that keep them in every world. *)
Lemma keeps_texts_bind {A B} (m : PyM world A) (k : A -> PyM world B) (w : world) :
  keeps_texts (w_fs w) (w_fs (fst (m w))) -> (forall a, keeps (k a)) ->
  keeps_texts (w_fs w) (w_fs (fst (bind m k w))).
Proof.
  intros Hm Hk. unfold bind.
  destruct (m w) as [w' [a|e]]; simpl in *; [|exact Hm].
  eapply keeps_texts_trans; [exact Hm|apply Hk].
Qed.

Lemma keeps_bind {A B} (m : PyM world A) (k : A -> PyM world B) :
  keeps m -> (forall a, keeps (k a)) -> keeps (bind m k).
Proof. intros Hm Hk w. now apply keeps_texts_bind. Qed.

Lemma keeps_ret {A} (a : A) : keeps (ret a).
Proof. now apply keeps_same_fs. Qed.

Lemma keeps_raise {A} (e : exn) : keeps (A := A) (raise e).
Proof. now apply keeps_same_fs. Qed.

Lemma keeps_lift_res {A} (r : res A) : keeps (lift_res r).
Proof. now apply keeps_same_fs. Qed.

Lemma keeps_isdir (p : string) : keeps (os_path_isdir p).
Proof. now apply keeps_same_fs. Qed.

Lemma keeps_exists (p : string) : keeps (os_path_exists p).
Proof. now apply keeps_same_fs. Qed.

Lemma keeps_getcwd : keeps os_getcwd.
Proof. now apply keeps_same_fs. Qed.

Lemma keeps_read_text (p : string) : keeps (read_text p).
Proof. apply keeps_same_fs. intros w. unfold read_text. now destruct (stat w p) as [e|[m|d m]]. Qed.

Lemma keeps_stat_mode (p : string) : keeps (os_stat_mode p).
Proof. apply keeps_same_fs. intros w. unfold os_stat_mode. now destruct (stat w p). Qed.

Lemma keeps_write_line (l : string) : keeps (write_line l).
Proof. now apply keeps_same_fs. Qed.

Lemma keeps_umask (m : Z) : keeps (os_umask m).
Proof. now apply keeps_same_fs. Qed.

Lemma keeps_mkdir (p : string) : keeps (os_mkdir p).
Proof.
  intros w. unfold os_mkdir.
  destruct (p =? ""); [apply keeps_texts_refl|].
  destruct (rstrip_slash p =? ""); [apply keeps_texts_refl|].
  destruct (resolve_parent w _) as [e|[loc name]]; [apply keeps_texts_refl|].
  destruct (_ || _); [apply keeps_texts_refl|].
  destruct (w_fs w !! (loc ++ [name])%list) eqn:Hn; [apply keeps_texts_refl|].
  now apply keeps_texts_insert_new.
Qed.

(** [os.chmod] changes a mode, never a text. *)
Lemma keeps_chmod (p : string) (mode : Z) : keeps (os_chmod p mode).
Proof.
  intros w. unfold os_chmod.
  destruct (resolve w p) as [e|loc]; [apply keeps_texts_refl|].
  destruct (w_fs w !! loc) as [n|] eqn:Hn; [|apply keeps_texts_refl].
  intros k d m Hk Hd. simpl. destruct (decide (loc = k)) as [<-|Hne].
  - rewrite lookup_insert_eq. rewrite Hn in Hk. injection Hk as ->. eexists. reflexivity.
  - rewrite lookup_insert_ne by exact Hne. eauto.
Qed.

#[export] Hint Resolve keeps_bind keeps_ret keeps_raise keeps_lift_res keeps_isdir
  keeps_exists keeps_getcwd keeps_read_text keeps_stat_mode keeps_write_line
  keeps_umask keeps_mkdir keeps_chmod : mkzeo.

Ltac keeps_tac := seq_tac @keeps_bind.

(** *** Where the calls change the tree *)

Lemma touches_same_fs {A} (S : list string -> Prop) (c : PyM world A) :
  (forall w, w_fs (fst (c w)) = w_fs w) -> touches_only S c.
Proof. intros H w k _. now rewrite H. Qed.

Lemma touches_bind {A B} (S : list string -> Prop) (m : PyM world A) (k : A -> PyM world B) :
  touches_only S m -> (forall a, touches_only S (k a)) -> touches_only S (bind m k).
Proof.
  intros Hm Hk w l Hl. unfold bind. specialize (Hm w l Hl).
  destruct (m w) as [w' [a|e]]; simpl in *; [|exact Hm]. rewrite (Hk a w' l Hl). exact Hm.
Qed.

Lemma touches_weaken {A} (S S' : list string -> Prop) (c : PyM world A) :
  (forall k, S k -> S' k) -> touches_only S c -> touches_only S' c.
Proof. intros HS Hc w k Hk. apply Hc. intros HSk. exact (Hk (HS k HSk)). Qed.

(** A first call whose result, when it returns, is always [v]. *)
Lemma touches_bind_dep {A B} (S : list string -> Prop) (m : PyM world A) (v : A)
  (k : A -> PyM world B) :
  touches_only S m -> returns_in (fun a => a = v) m -> touches_only S (k v) ->
  touches_only S (bind m k).
Proof.
  intros Hm Hv Hk w l Hl. unfold bind. specialize (Hm w l Hl).
  destruct (m w) as [w' [a|e]] eqn:E; simpl in *; [|exact Hm].
  rewrite (Hv _ _ _ E), (Hk w' l Hl). exact Hm.
Qed.

Section Touches.
Context (S : list string -> Prop).

Lemma touches_lift_res {A} (r : res A) : touches_only S (lift_res r).
Proof. now apply touches_same_fs. Qed.

Lemma touches_ret {A} (a : A) : touches_only S (ret a).
Proof. now apply touches_same_fs. Qed.

Lemma touches_raise {A} (e : exn) : touches_only (A := A) S (raise e).
Proof. now apply touches_same_fs. Qed.

Lemma touches_isdir (p : string) : touches_only S (os_path_isdir p).
Proof. now apply touches_same_fs. Qed.

Lemma touches_exists (p : string) : touches_only S (os_path_exists p).
Proof. now apply touches_same_fs. Qed.

Lemma touches_read_text (p : string) : touches_only S (read_text p).
Proof. apply touches_same_fs. intros w. unfold read_text. now destruct (stat w p) as [e|[m|d m]]. Qed.

Lemma touches_stat_mode (p : string) : touches_only S (os_stat_mode p).
Proof. apply touches_same_fs. intros w. unfold os_stat_mode. now destruct (stat w p). Qed.

Lemma touches_write_line (l : string) : touches_only S (write_line l).
Proof. now apply touches_same_fs. Qed.

Lemma touches_umask (m : Z) : touches_only S (os_umask m).
Proof. now apply touches_same_fs. Qed.
End Touches.

#[export] Hint Resolve touches_bind touches_ret touches_raise touches_lift_res touches_isdir touches_exists
  touches_read_text touches_stat_mode touches_write_line touches_umask : mkzeo.

Ltac touches_tac := seq_tac @touches_bind.

(** *** The exceptions of the calls: [OSError] only *)

Section OsErrors.
Context (P : exn -> Prop) (HP : forall e p, P (OSError e p)).

Lemma raises_isdir (p : string) : raises_only P (os_path_isdir p).
Proof. intros w. exact I. Qed.

Lemma raises_exists (p : string) : raises_only P (os_path_exists p).
Proof. intros w. exact I. Qed.

Lemma raises_getcwd : raises_only P os_getcwd.
Proof. intros w. exact I. Qed.

Lemma raises_write_line (l : string) : raises_only P (write_line l).
Proof. intros w. exact I. Qed.

Lemma raises_umask (m : Z) : raises_only P (os_umask m).
Proof. intros w. exact I. Qed.

Lemma raises_mkdir (p : string) : raises_only P (os_mkdir p).
Proof. intros w. unfold os_mkdir, os_error, raise. repeat case_match; simplify_eq/=; auto. Qed.

Lemma raises_read_text (p : string) : raises_only P (read_text p).
Proof. intros w. unfold read_text, os_error, raise. repeat case_match; simplify_eq/=; auto. Qed.

Lemma raises_write_text (p data : string) : raises_only P (write_text p data).
Proof. intros w. unfold write_text, os_error, raise. repeat case_match; simplify_eq/=; auto. Qed.

Lemma raises_stat_mode (p : string) : raises_only P (os_stat_mode p).
Proof. intros w. unfold os_stat_mode, os_error, raise. repeat case_match; simplify_eq/=; auto. Qed.

Lemma raises_chmod (p : string) (mode : Z) : raises_only P (os_chmod p mode).
Proof. intros w. unfold os_chmod, os_error, raise. repeat case_match; simplify_eq/=; auto. Qed.
End OsErrors.

#[export] Hint Resolve raises_only_bind raises_only_ret raises_isdir raises_exists
  raises_getcwd raises_write_line raises_umask raises_mkdir raises_read_text
  raises_write_text raises_stat_mode raises_chmod : mkzeo.

Ltac raises_tac := seq_tac @raises_only_bind.

(** *** Resolving clean paths *)

(** In a well-formed tree every present location has directories as
    ancestors. *)
Lemma wf_ancestors (fs : gmap (list string) node) (cs : list string) (n : node) :
  fs_wf fs -> fs !! cs = Some n -> ancestors_dirs fs cs.
Proof.
  intros Hwf. revert n. induction cs as [|c cs IH] using rev_ind; intros n Hn i Hi.
  - simpl in Hi. lia.
  - destruct Hwf as [Hr Hp].
    destruct (Hp _ _ Hn (snoc_not_nil _ _)) as [m Hm]. rewrite removelast_snoc in Hm.
    rewrite length_app in Hi. simpl in Hi.
    destruct (decide (i = length cs)) as [->|Hne].
    + rewrite take_app_length. eauto.
    + rewrite take_app_le by lia. apply (IH (NDir m) Hm). lia.
Qed.

Lemma step_loc_name (loc : list string) (c : string) :
  name_ok c = true -> step_loc loc c = (loc ++ [c])%list.
Proof.
  intros Hc. apply name_ok_spec in Hc as (H1 & H2 & H3 & _).
  unfold step_loc. apply String.eqb_neq in H1, H2, H3. now rewrite H1, H2, H3.
Qed.

Lemma walk_names (fs : gmap (list string) node) (loc cs : list string) :
  Forall (fun c => name_ok c = true) cs ->
  (forall i, i < length cs -> exists m, fs !! (loc ++ take i cs)%list = Some (NDir m)) ->
  walk fs loc cs = inr (loc ++ cs)%list.
Proof.
  revert loc. induction cs as [|c cs IH]; intros loc Hcs Hd.
  - now rewrite app_nil_r.
  - apply Forall_cons in Hcs as [Hc Hcs]. simpl.
    destruct (Hd 0 ltac:(simpl; lia)) as [m Hm]. rewrite app_nil_r in Hm. rewrite Hm.
    rewrite step_loc_name by exact Hc. rewrite IH by
      (try exact Hcs; intros i Hi; rewrite <- app_assoc;
       apply (Hd (S i)); simpl; lia).
    now rewrite <- app_assoc.
Qed.

Lemma walk_names_inr (fs : gmap (list string) node) (loc cs l : list string) :
  Forall (fun c => name_ok c = true) cs -> walk fs loc cs = inr l -> l = (loc ++ cs)%list.
Proof.
  revert loc. induction cs as [|c cs IH]; intros loc Hcs; simpl.
  - intros [= <-]. now rewrite app_nil_r.
  - apply Forall_cons in Hcs as [Hc Hcs].
    destruct (fs !! loc) as [[m|d m]|]; try discriminate.
    rewrite step_loc_name by exact Hc. intros H. rewrite (IH _ Hcs H).
    now rewrite <- app_assoc.
Qed.

(** The leading empty component of an absolute path stays at the root. *)
Lemma walk_root (fs : gmap (list string) node) (cs : list string) m :
  fs !! [] = Some (NDir m) -> walk fs [] ("" :: cs) = walk fs [] cs.
Proof. intros Hr. simpl. now rewrite Hr. Qed.

Lemma walk_path_of (w : world) (cs : list string) :
  world_wf w -> Forall (fun c => name_ok c = true) cs ->
  walk (w_fs w) [] (split_on slash (path_of cs)) = walk (w_fs w) [] cs.
Proof.
  intros ([[r Hr] _] & _) Hcs. destruct cs as [|c cs].
  - change (split_on slash (path_of [])) with ["";""].
    now rewrite !(walk_root _ _ r Hr).
  - rewrite split_path_of by (try discriminate; exact Hcs). now apply (walk_root _ _ r).
Qed.

Lemma resolve_path_of (w : world) (cs : list string) :
  resolve w (path_of cs) = walk (w_fs w) [] (split_on slash (path_of cs)).
Proof. reflexivity. Qed.

(** A clean path resolves to its location when that location exists. *)
Lemma stat_path_of_some (w : world) (cs : list string) (n : node) :
  world_wf w -> Forall (fun c => name_ok c = true) cs -> w_fs w !! cs = Some n ->
  stat w (path_of cs) = inr n.
Proof.
  intros Hw Hcs Hn. unfold stat. rewrite resolve_path_of, walk_path_of by assumption.
  rewrite walk_names by (try exact Hcs; intros i Hi;
    exact (wf_ancestors _ _ _ (proj1 Hw) Hn i Hi)).
  simpl. now rewrite Hn.
Qed.

(** ... and does not resolve to anything when it does not. *)
Lemma stat_path_of_none (w : world) (cs : list string) :
  world_wf w -> Forall (fun c => name_ok c = true) cs -> w_fs w !! cs = None ->
  exists e, stat w (path_of cs) = inl e.
Proof.
  intros Hw Hcs Hn. unfold stat. rewrite resolve_path_of, walk_path_of by assumption.
  destruct (walk (w_fs w) [] cs) as [e|l] eqn:E; [eauto|].
  apply walk_names_inr in E; [|exact Hcs]. simpl in E. subst l. rewrite Hn. eauto.
Qed.

Lemma isdir_path_of (w : world) (cs : list string) :
  world_wf w -> Forall (fun c => name_ok c = true) cs ->
  os_path_isdir (path_of cs) w =
  (w, Ok (match w_fs w !! cs with Some (NDir _) => true | _ => false end)).
Proof.
  intros Hw Hcs. unfold os_path_isdir.
  destruct (w_fs w !! cs) as [n|] eqn:Hn.
  - now rewrite (stat_path_of_some _ _ n).
  - destruct (stat_path_of_none w cs Hw Hcs Hn) as [e ->]. reflexivity.
Qed.

Lemma exists_path_of (w : world) (cs : list string) :
  world_wf w -> Forall (fun c => name_ok c = true) cs ->
  os_path_exists (path_of cs) w =
  (w, Ok (match w_fs w !! cs with Some _ => true | None => false end)).
Proof.
  intros Hw Hcs. unfold os_path_exists.
  destruct (w_fs w !! cs) as [n|] eqn:Hn.
  - now rewrite (stat_path_of_some _ _ n).
  - destruct (stat_path_of_none w cs Hw Hcs Hn) as [e ->]. reflexivity.
Qed.

Lemma removelast_cons_snoc {A} (x : A) (l : list A) (y : A) :
  removelast (x :: l ++ [y])%list = x :: l.
Proof. rewrite app_comm_cons. apply removelast_snoc. Qed.

Lemma last_cons_snoc {A} (x : A) (l : list A) (y d : A) :
  List.last (x :: l ++ [y])%list d = y.
Proof. rewrite app_comm_cons. apply last_last. Qed.

(** The parent of a clean path to [cs ++ [c]] is [cs] when [cs] is a
    directory. *)
Lemma resolve_parent_path_of (w : world) (cs : list string) (c : string) md :
  world_wf w -> Forall (fun c => name_ok c = true) (cs ++ [c]) ->
  w_fs w !! cs = Some (NDir md) ->
  resolve_parent w (path_of (cs ++ [c])) = inr (cs, c).
Proof.
  intros Hw Hall Hcs. pose proof Hall as Hall'. apply Forall_app in Hall' as [Hcs' _].
  destruct Hw as ([[r Hr] Hp] & Hcwd & Hu).
  unfold resolve_parent. rewrite split_path_of by (try exact Hall; apply snoc_not_nil).
  rewrite removelast_cons_snoc. change (start_loc w (path_of (cs ++ [c]))) with (@nil string).
  rewrite (walk_root _ _ r Hr).
  rewrite walk_names by (try exact Hcs'; intros i Hi;
    exact (wf_ancestors _ _ _ (conj (ex_intro _ r Hr) Hp) Hcs i Hi)).
  cbv beta iota. rewrite app_nil_l, Hcs. rewrite last_cons_snoc. reflexivity.
Qed.

(** Resolving a concatenation of components is resolving the first part,
    then the second from where the first ends. *)
Lemma walk_app (fs : gmap (list string) node) (loc a b : list string) :
  walk fs loc (a ++ b) = match walk fs loc a with inl e => inl e | inr l => walk fs l b end.
Proof.
  revert loc. induction a as [|c a IH]; intros loc; [reflexivity|]. simpl.
  destruct (fs !! loc) as [[m|d m]|]; [apply IH|reflexivity|reflexivity].
Qed.

(** A clean location that is absent, with no file on the way to it: the
    walk to it stops with [ENOENT], or ends at it. *)
Lemma walk_absent (fs : gmap (list string) node) (loc cs : list string) :
  Forall (fun c => name_ok c = true) cs ->
  (forall i d m, i <= length cs -> fs !! (loc ++ take i cs)%list <> Some (NFile d m)) ->
  walk fs loc cs = inl ENOENT \/ walk fs loc cs = inr (loc ++ cs)%list.
Proof.
  revert loc. induction cs as [|c cs IH]; intros loc Hcs Hnf.
  - right. now rewrite app_nil_r.
  - apply Forall_cons in Hcs as [Hc Hcs]. simpl.
    destruct (fs !! loc) as [[m|d m]|] eqn:Hl.
    + rewrite step_loc_name by exact Hc.
      replace (loc ++ c :: cs)%list with ((loc ++ [c]) ++ cs)%list by now rewrite <- app_assoc.
      apply IH; [exact Hcs|].
      intros i d m' Hi. rewrite <- app_assoc. apply (Hnf (S i)). simpl. lia.
    + exfalso. apply (Hnf 0 d m ltac:(lia)). now rewrite app_nil_r.
    + now left.
Qed.

(** Below an absent location with no file on the way, a walk stops
    with [ENOENT]. *)
Lemma walk_below_absent (fs : gmap (list string) node) (cs more : list string) :
  Forall (fun c => name_ok c = true) cs -> no_file_on fs cs -> fs !! cs = None -> more <> [] ->
  walk fs [] (cs ++ more) = inl ENOENT.
Proof.
  intros Hcs Hnf Hn Hm. rewrite walk_app.
  destruct (walk_absent fs [] cs Hcs ltac:(intros i d m Hi; exact (Hnf i d m Hi))) as [->| ->];
    [reflexivity|]. destruct more as [|x more]; [congruence|]. simpl. now rewrite Hn.
Qed.

Lemma step_loc_plain (loc : list string) (c : string) :
  ((c =? "") || (c =? ".") || (c =? "..")) = false -> step_loc loc c = (loc ++ [c])%list.
Proof. unfold step_loc. intros H. apply orb_false_iff in H as [H H3]. now rewrite H, H3. Qed.

(** The location [open(p, "w")] writes is the one [os.stat(p)] reads. *)
Lemma resolve_parent_stat (w : world) (p : string) loc name :
  (p =? "") = false -> resolve_parent w p = inr (loc, name) ->
  ((name =? "") || (name =? ".") || (name =? "..")) = false ->
  stat w p = match w_fs w !! (loc ++ [name])%list with Some n => inr n | None => inl ENOENT end.
Proof.
  intros Hp Hr Hn. unfold resolve_parent in Hr. cbv zeta in Hr. unfold stat, resolve. rewrite Hp.
  rewrite (app_removelast_last "" (split_on_nonempty slash p)), walk_app.
  destruct (walk _ _ (removelast _)) as [e|l]; [discriminate|].
  destruct (w_fs w !! l) as [[md|d m]|] eqn:Hl; try discriminate.
  injection Hr as <- <-. cbn [walk]. rewrite Hl. cbn [walk].
  now rewrite step_loc_plain by exact Hn.
Qed.

(** [open(p, "w").write(data)] keeps every text when the file at [p],
    if there is one, is blank once read back and stripped. *)
Lemma keeps_write_text (p data : string) (w : world) :
  (forall d m, stat w p = inr (NFile d m) -> strip (translate_newlines d) = "") ->
  keeps_texts (w_fs w) (w_fs (fst (write_text p data w))).
Proof.
  intros Hblank. unfold write_text.
  destruct (p =? "") eqn:Hp; [apply keeps_texts_refl|].
  destruct (resolve_parent w p) as [e|[loc name]] eqn:Hr; [apply keeps_texts_refl|].
  destruct (_ || _ || _) eqn:Hn; [apply keeps_texts_refl|].
  pose proof (resolve_parent_stat w p loc name Hp Hr Hn) as Hst.
  destruct (w_fs w !! (loc ++ [name])%list) as [[md|d0 m0]|] eqn:Hk; simpl;
    [apply keeps_texts_refl| |now apply keeps_texts_insert_new].
  intros k d m Hk' Hd. destruct (decide ((loc ++ [name])%list = k)) as [<-|Hne].
  - rewrite Hk in Hk'. injection Hk' as <- <-. exfalso. exact (Hd (Hblank d0 m0 Hst)).
  - rewrite lookup_insert_ne by exact Hne. eauto.
Qed.

Lemma path_of_nonempty (cs : list string) : (path_of cs =? "") = false.
Proof. reflexivity. Qed.

Lemma rstrip_slash_path_of (cs : list string) :
  Forall (fun c => name_ok c = true) cs -> cs <> [] -> rstrip_slash (path_of cs) = path_of cs.
Proof. intros Hcs Hne. apply rstrip_slash_id, path_of_ends; assumption. Qed.

Lemma name_not_dots (c : string) :
  name_ok c = true -> (c =? ".") || (c =? "..") = false.
Proof.
  intros Hc. apply name_ok_spec in Hc as (_ & H2 & H3 & _).
  apply String.eqb_neq in H2, H3. now rewrite H2, H3.
Qed.

Lemma name_ok_last (cs : list string) (c : string) :
  Forall (fun c => name_ok c = true) (cs ++ [c]) -> name_ok c = true.
Proof. intros H. apply Forall_app in H as [_ H]. now inversion H. Qed.

(** [os.mkdir(path_of(cs + [c]))] under the directory [cs]: a new
    directory with [0o777 & ~umask] when the name is free, [EEXIST]
    otherwise. *)
Lemma mkdir_path_of (w : world) (cs : list string) (c : string) md :
  world_wf w -> Forall (fun c => name_ok c = true) (cs ++ [c]) ->
  w_fs w !! cs = Some (NDir md) ->
  os_mkdir (path_of (cs ++ [c])) w =
  match w_fs w !! (cs ++ [c])%list with
  | Some _ => (w, Raise (OSError EEXIST (path_of (cs ++ [c]))))
  | None => (set_fs w (<[(cs ++ [c])%list := NDir (dir_create_mode (w_umask w))]> (w_fs w)), Ok tt)
  end.
Proof.
  intros Hw Hall Hcs. unfold os_mkdir. rewrite path_of_nonempty.
  rewrite rstrip_slash_path_of by (try exact Hall; apply snoc_not_nil).
  rewrite path_of_nonempty, (resolve_parent_path_of _ _ _ md) by assumption.
  rewrite name_not_dots by exact (name_ok_last _ _ Hall).
  destruct (w_fs w !! (cs ++ [c])%list); reflexivity.
Qed.

(** Below an absent directory with no file on the way: [path_of(cs)
    + "/"] does not resolve, and [os.mkdir] on it, which strips the
    slash and looks for the parent, raises [ENOENT]. *)
Lemma stat_slash_absent (w : world) (pcs : list string) (c : string) :
  world_wf w -> Forall (fun c => name_ok c = true) (pcs ++ [c]) ->
  no_file_on (w_fs w) pcs -> w_fs w !! pcs = None ->
  stat w (path_of (pcs ++ [c]) ++ "/") = inl ENOENT.
Proof.
  intros ([[r Hr] _] & _) Hall Hnf Hn. pose proof Hall as Hpcs. apply Forall_app in Hpcs as [Hpcs _].
  unfold stat, resolve. change (path_of (pcs ++ [c]) ++ "/" =? "") with false. cbv iota.
  change (start_loc w (path_of (pcs ++ [c]) ++ "/")) with (@nil string).
  rewrite split_path_of_slash by (try exact Hall; apply snoc_not_nil).
  rewrite (walk_root _ _ r Hr), <- app_assoc.
  now rewrite (walk_below_absent _ pcs [c; ""]).
Qed.

Lemma mkdir_slash_absent (w : world) (pcs : list string) (c : string) :
  world_wf w -> Forall (fun c => name_ok c = true) (pcs ++ [c]) ->
  no_file_on (w_fs w) pcs -> w_fs w !! pcs = None ->
  os_mkdir (path_of (pcs ++ [c]) ++ "/") w = (w, Raise (OSError ENOENT (path_of (pcs ++ [c]) ++ "/"))).
Proof.
  intros Hw Hall Hnf Hn. pose proof Hall as Hpcs. apply Forall_app in Hpcs as [Hpcs _].
  destruct Hw as ([[r Hr] _] & _).
  unfold os_mkdir. change (path_of (pcs ++ [c]) ++ "/" =? "") with false. cbv iota.
  change "/" with (str1 slash) at 2. rewrite rstrip_slash_snoc.
  rewrite rstrip_slash_path_of by (try exact Hall; apply snoc_not_nil).
  rewrite path_of_nonempty. unfold resolve_parent.
  rewrite split_path_of by (try exact Hall; apply snoc_not_nil).
  rewrite removelast_cons_snoc. change (start_loc w (path_of (pcs ++ [c]))) with (@nil string).
  rewrite (walk_root _ _ r Hr).
  destruct (walk_absent (w_fs w) [] pcs Hpcs ltac:(intros i d m Hi; exact (Hnf i d m Hi)))
    as [-> | ->]; [reflexivity|]. cbn [app]. now rewrite Hn.
Qed.

(** [open(path_of(cs + [c]), "w").write(data)] under the directory [cs]. *)
Lemma write_text_path_of (w : world) (cs : list string) (c data : string) md :
  world_wf w -> Forall (fun c => name_ok c = true) (cs ++ [c]) ->
  w_fs w !! cs = Some (NDir md) ->
  write_text (path_of (cs ++ [c])) data w =
  match w_fs w !! (cs ++ [c])%list with
  | Some (NDir _) => (w, Raise (OSError EISDIR (path_of (cs ++ [c]))))
  | Some (NFile _ m) => (set_fs w (<[(cs ++ [c])%list := NFile data m]> (w_fs w)), Ok tt)
  | None => (set_fs w (<[(cs ++ [c])%list := NFile data (file_create_mode (w_umask w))]> (w_fs w)), Ok tt)
  end.
Proof.
  intros Hw Hall Hcs. unfold write_text. rewrite path_of_nonempty.
  rewrite (resolve_parent_path_of _ _ _ md) by assumption.
  pose proof (name_ok_last _ _ Hall) as Hc.
  rewrite <- orb_assoc, name_not_dots by exact Hc.
  apply name_ok_spec in Hc as (Hc1 & _). apply String.eqb_neq in Hc1. rewrite Hc1.
  reflexivity.
Qed.

Lemma read_text_path_of (w : world) (cs : list string) (n : node) :
  world_wf w -> Forall (fun c => name_ok c = true) cs -> w_fs w !! cs = Some n ->
  read_text (path_of cs) w =
  match n with
  | NFile d _ => (w, Ok (translate_newlines d))
  | NDir _ => (w, Raise (OSError EISDIR (path_of cs)))
  end.
Proof.
  intros Hw Hcs Hn. unfold read_text. rewrite (stat_path_of_some _ _ n) by assumption.
  now destruct n.
Qed.

Lemma stat_mode_path_of (w : world) (cs : list string) (n : node) :
  world_wf w -> Forall (fun c => name_ok c = true) cs -> w_fs w !! cs = Some n ->
  os_stat_mode (path_of cs) w = (w, Ok (st_mode n)).
Proof.
  intros Hw Hcs Hn. unfold os_stat_mode. now rewrite (stat_path_of_some _ _ n).
Qed.

Lemma chmod_path_of (w : world) (cs : list string) (n : node) (mode : Z) :
  world_wf w -> Forall (fun c => name_ok c = true) cs -> w_fs w !! cs = Some n ->
  os_chmod (path_of cs) mode w =
  (set_fs w (<[cs := with_perm n (Z.land mode 4095)]> (w_fs w)), Ok tt).
Proof.
  intros Hw Hcs Hn. unfold os_chmod.
  assert (Hr : resolve w (path_of cs) = inr cs).
  { rewrite resolve_path_of, walk_path_of by assumption.
    apply walk_names; [exact Hcs|]. intros i Hi.
    exact (wf_ancestors _ _ _ (proj1 Hw) Hn i Hi). }
  rewrite Hr, Hn. reflexivity.
Qed.

(** *** The locations clean paths name, in any state *)

(** [path_of(cs)] resolves to [cs] when it resolves at all. *)
Lemma resolve_names (w : world) (cs : list string) loc :
  Forall (fun c => name_ok c = true) cs -> resolve w (path_of cs) = inr loc -> loc = cs.
Proof.
  intros Hcs. unfold resolve. rewrite path_of_nonempty.
  change (start_loc w (path_of cs)) with (@nil string).
  destruct cs as [|c cs'].
  - change (split_on slash (path_of [])) with ["";""]. cbn.
    intros H. repeat case_match; simplify_eq; reflexivity.
  - rewrite split_path_of by (discriminate || exact Hcs). cbn [walk].
    destruct (w_fs w !! []) as [[m|d m]|]; try discriminate.
    change (step_loc [] "") with (@nil string). intros H.
    exact (walk_names_inr _ _ _ _ Hcs H).
Qed.

(** The parent [os.mkdir] and [open(.., "w")] find for [path_of(cs)]:
    the location they change is [cs] itself, or the name is empty. *)
Lemma resolve_parent_names (w : world) (cs : list string) loc name :
  Forall (fun c => name_ok c = true) cs -> resolve_parent w (path_of cs) = inr (loc, name) ->
  (loc ++ [name])%list = cs \/ (cs = [] /\ name = "").
Proof.
  intros Hcs. unfold resolve_parent. destruct cs as [|c pcs _] using rev_ind.
  - change (split_on slash (path_of [])) with ["";""]. cbn.
    intros H. right. split; [reflexivity|]. repeat case_match; simplify_eq; reflexivity.
  - pose proof Hcs as Hp. apply Forall_app in Hp as [Hp _].
    rewrite split_path_of by (try exact Hcs; apply snoc_not_nil).
    rewrite removelast_cons_snoc, last_cons_snoc.
    change (start_loc w (path_of (pcs ++ [c]))) with (@nil string). cbn [walk].
    destruct (w_fs w !! []) as [[m|d m]|]; try (intros ?; discriminate).
    change (step_loc [] "") with (@nil string).
    destruct (walk (w_fs w) [] pcs) as [e|l] eqn:Hw; [discriminate|].
    apply walk_names_inr in Hw; [|exact Hp]. subst l.
    rewrite app_nil_l. destruct (w_fs w !! pcs) as [[m'|d m']|]; intros H; simplify_eq. now left.
Qed.

Lemma touches_mkdir (cs : list string) :
  Forall (fun c => name_ok c = true) cs -> touches_only (fun k => k = cs) (os_mkdir (path_of cs)).
Proof.
  intros Hcs w k Hk. unfold os_mkdir. rewrite path_of_nonempty.
  destruct cs as [|c cs']; [reflexivity|].
  rewrite rstrip_slash_path_of by (discriminate || exact Hcs). rewrite path_of_nonempty.
  destruct (resolve_parent w (path_of (c :: cs'))) as [e|[loc name]] eqn:Hr; [reflexivity|].
  destruct (_ || _); [reflexivity|].
  destruct (w_fs w !! (loc ++ [name])%list); [reflexivity|]. cbn.
  destruct (resolve_parent_names w _ _ _ Hcs Hr) as [E|[? _]]; [|discriminate].
  rewrite E. now rewrite lookup_insert_ne by congruence.
Qed.

Lemma touches_write_text (cs : list string) (data : string) :
  Forall (fun c => name_ok c = true) cs ->
  touches_only (fun k => k = cs) (write_text (path_of cs) data).
Proof.
  intros Hcs w k Hk. unfold write_text. rewrite path_of_nonempty.
  destruct (resolve_parent w (path_of cs)) as [e|[loc name]] eqn:Hr; [reflexivity|].
  destruct ((name =? "") || _ || _) eqn:Hn; [reflexivity|].
  destruct (resolve_parent_names w _ _ _ Hcs Hr) as [E|[_ ->]]; [|discriminate Hn].
  destruct (w_fs w !! (loc ++ [name])%list) as [[m|d m]|]; cbn; [reflexivity| |];
    rewrite E; now rewrite lookup_insert_ne by congruence.
Qed.

Lemma touches_chmod (cs : list string) (mode : Z) :
  Forall (fun c => name_ok c = true) cs -> touches_only (fun k => k = cs) (os_chmod (path_of cs) mode).
Proof.
  intros Hcs w k Hk. unfold os_chmod.
  destruct (resolve w (path_of cs)) as [e|loc] eqn:Hr; [reflexivity|].
  apply resolve_names in Hr as ->; [|exact Hcs].
  destruct (w_fs w !! cs); [|reflexivity]. cbn. now rewrite lookup_insert_ne by congruence.
Qed.

(** ** Fresh locations and the creation modes *)

(** Below a file nothing exists. *)
Lemma absent_under_file (fs : gmap (list string) node) (cs x : list string) d m :
  fs_wf fs -> fs !! cs = Some (NFile d m) -> x <> [] -> fs !! (cs ++ x)%list = None.
Proof.
  intros Hwf Hcs Hx. destruct (fs !! (cs ++ x)%list) as [n|] eqn:Hn; [|reflexivity].
  destruct (wf_ancestors _ _ _ Hwf Hn (length cs)) as [m' Hm].
  - rewrite length_app. destruct x; [congruence|simpl; lia].
  - rewrite take_app_length in Hm. congruence.
Qed.

(** Below an absent location nothing exists. *)
Lemma absent_below (fs : gmap (list string) node) (cs x : list string) :
  fs_wf fs -> fs !! cs = None -> x <> [] -> fs !! (cs ++ x)%list = None.
Proof.
  intros Hwf Hcs Hx. destruct (fs !! (cs ++ x)%list) as [n|] eqn:Hn; [|reflexivity].
  destruct (wf_ancestors _ _ _ Hwf Hn (length cs)) as [m Hm].
  - rewrite length_app. destruct x; [congruence|simpl; lia].
  - rewrite take_app_length in Hm. congruence.
Qed.

Lemma world_wf_add_out (w : world) (l : string) : world_wf w -> world_wf (add_out w l).
Proof. destruct w. auto. Qed.

Lemma app_ne_r {A} (l a b : list A) : a <> b -> (l ++ a)%list <> (l ++ b)%list.
Proof. intros Hab E. apply Hab. exact (app_inv_head _ _ _ E). Qed.

Lemma app_ne_self {A} (l a : list A) : a <> [] -> (l ++ a)%list <> l.
Proof. intros Ha E. apply Ha. apply (app_inv_head l). now rewrite app_nil_r. Qed.

(** Distinct locations below one directory. *)
Ltac keys_ne :=
  first [ apply app_ne_r; discriminate
        | apply app_ne_self; discriminate
        | apply not_eq_sym, app_ne_self; discriminate ].

(** The creation modes are permission bits: [& 0o7777] keeps them. *)
Lemma dir_create_mode_perm (u : Z) : Z.land (dir_create_mode u) 4095 = dir_create_mode u.
Proof.
  unfold dir_create_mode. rewrite Z.land_comm, Z.land_assoc. reflexivity.
Qed.

Lemma file_create_mode_perm (u : Z) : Z.land (file_create_mode u) 4095 = file_create_mode u.
Proof.
  unfold file_create_mode. rewrite Z.land_comm, Z.land_assoc. reflexivity.
Qed.

(** A new file two levels below [loc], in the existing directory [loc/d]. *)
Lemma world_wf_insert_new2 (w : world) loc d name n md :
  world_wf w -> w_fs w !! (loc ++ [d])%list = Some (NDir md) ->
  w_fs w !! (loc ++ [d; name])%list = None ->
  world_wf (set_fs w (<[(loc ++ [d; name])%list := n]> (w_fs w))).
Proof.
  change [d; name] with ([d] ++ [name])%list. rewrite app_assoc.
  apply world_wf_insert_new.
Qed.

(** The fields of an updated world, without unfolding the update (which
    would copy the world once per field). *)
Lemma world_ext (a b : world) :
  w_fs a = w_fs b -> w_cwd a = w_cwd b -> w_umask a = w_umask b -> w_out a = w_out b -> a = b.
Proof. destruct a, b; simpl; intros -> -> -> ->; reflexivity. Qed.

Lemma w_fs_add_out (w : world) l : w_fs (add_out w l) = w_fs w.
Proof. reflexivity. Qed.
Lemma w_cwd_add_out (w : world) l : w_cwd (add_out w l) = w_cwd w.
Proof. reflexivity. Qed.
Lemma w_umask_add_out (w : world) l : w_umask (add_out w l) = w_umask w.
Proof. reflexivity. Qed.
Lemma w_out_add_out (w : world) l : w_out (add_out w l) = (w_out w ++ [l])%list.
Proof. reflexivity. Qed.
Lemma w_fs_set_fs (w : world) fs : w_fs (set_fs w fs) = fs.
Proof. reflexivity. Qed.
Lemma w_cwd_set_fs (w : world) fs : w_cwd (set_fs w fs) = w_cwd w.
Proof. reflexivity. Qed.
Lemma w_umask_set_fs (w : world) fs : w_umask (set_fs w fs) = w_umask w.
Proof. reflexivity. Qed.
Lemma w_out_set_fs (w : world) fs : w_out (set_fs w fs) = w_out w.
Proof. reflexivity. Qed.

#[export] Hint Resolve world_wf_add_out : mkzeo.
Lemma w_fs_put (w : world) k n l : w_fs (put w k n l) = <[k := n]> (w_fs w).
Proof. reflexivity. Qed.
Lemma w_cwd_put (w : world) k n l : w_cwd (put w k n l) = w_cwd w.
Proof. reflexivity. Qed.
Lemma w_umask_put (w : world) k n l : w_umask (put w k n l) = w_umask w.
Proof. reflexivity. Qed.
Lemma w_out_put (w : world) k n l : w_out (put w k n l) = (w_out w ++ [l])%list.
Proof. reflexivity. Qed.

Lemma world_wf_put (w : world) loc name n l md :
  world_wf w -> w_fs w !! loc = Some (NDir md) -> w_fs w !! (loc ++ [name])%list = None ->
  world_wf (put w (loc ++ [name])%list n l).
Proof. intros. apply world_wf_add_out. eapply world_wf_insert_new; eassumption. Qed.

Lemma world_wf_put2 (w : world) loc d name n l md :
  world_wf w -> w_fs w !! (loc ++ [d])%list = Some (NDir md) ->
  w_fs w !! (loc ++ [d; name])%list = None ->
  world_wf (put w (loc ++ [d; name])%list n l).
Proof. intros. apply world_wf_add_out. eapply world_wf_insert_new2; eassumption. Qed.

(** The fields of an updated world, rewritten without unfolding it. *)
Create Rewrite HintDb world_rw.
#[export] Hint Rewrite w_fs_add_out w_cwd_add_out w_umask_add_out w_out_add_out
  w_fs_set_fs w_cwd_set_fs w_umask_set_fs w_out_set_fs
  w_fs_put w_cwd_put w_umask_put w_out_put : world_rw.
#[export] Hint Rewrite dir_create_mode_perm file_create_mode_perm : mkzeo_rw.

(** ** The boolean invariant *)

Lemma dir_at_spec (fs : gmap (list string) node) (k : list string) :
  dir_at fs k = true -> exists m, fs !! k = Some (NDir m).
Proof. unfold dir_at. destruct (fs !! k) as [[m|d m]|]; eauto; discriminate. Qed.

Lemma fs_wfb_sound (fs : gmap (list string) node) : fs_wfb fs = true -> fs_wf fs.
Proof.
  unfold fs_wfb. intros [Hr Hall]%andb_prop. split; [now apply dir_at_spec|].
  intros k n Hk Hne. rewrite forallb_forall in Hall.
  assert (Hin : In (k, n) (map_to_list fs))
    by (apply list_elem_of_In, elem_of_map_to_list, Hk).
  specialize (Hall _ Hin). cbn in Hall. destruct k; [congruence|]. now apply dir_at_spec.
Qed.

Lemma world_wfb_sound (w : world) : world_wfb w = true -> world_wf w.
Proof.
  unfold world_wfb. intros H.
  apply andb_prop in H as [[[H1 H2]%andb_prop H3]%andb_prop H4].
  apply Z.leb_le in H3, H4.
  split; [now apply fs_wfb_sound|]. split; [now apply dir_at_spec|]. lia.
Qed.

(** ** The creation modes are nine-bit permissions *)

(** [0o666 & ~umask] and [0o777 & ~umask] are permission bits below
    [0o777], and every bit of the file mode is a bit of the directory
    mode, for every umask the invariant allows. *)
Lemma create_modes_bounds (u : Z) :
  (0 <= u <= 511)%Z ->
  (0 <= file_create_mode u <= dir_create_mode u)%Z /\ (dir_create_mode u <= 511)%Z /\
  Z.land (file_create_mode u) (dir_create_mode u) = file_create_mode u.
Proof.
  intros Hu.
  pose proof (Z_range_check
    (fun u => (0 <=? file_create_mode u) && (file_create_mode u <=? dir_create_mode u)
              && (dir_create_mode u <=? 511)
              && (Z.land (file_create_mode u) (dir_create_mode u) =? file_create_mode u))%Z
    512 ltac:(vm_compute; reflexivity) u ltac:(lia)) as H.
  cbn beta in H. repeat rewrite andb_true_iff in H. rewrite !Z.leb_le, Z.eqb_eq in H.
  lia.
Qed.

(** The file mode and the directory mode differ exactly when the umask
    leaves one of the three execute bits ([0o111 = 73]) unmasked. *)
Lemma create_modes_differ (u : Z) :
  (0 <= u <= 511)%Z ->
  (file_create_mode u =? dir_create_mode u)%Z = (Z.land u 73 =? 73)%Z.
Proof.
  intros Hu. apply Bool.eqb_prop.
  exact (Z_range_check
    (fun u => Bool.eqb (file_create_mode u =? dir_create_mode u) (Z.land u 73 =? 73))%Z
    512 ltac:(vm_compute; reflexivity) u ltac:(lia)).
Qed.
