(* ===== verification/Templates.v ===== *)
(** * The templates, the help text and the parameter dict

    [zeo_conf_template], [zeoctl_template] and [runzeo_template] are the
    module's constants of lines 47-89, 91-115 and 117-133, line for
    line; [doc_template] is the module docstring (lines 14-30), which
    [run] formats as the help text.  A double quote inside a line is
    written [dq].  [get_params] is [ZEOInstanceBuilder.get_params]
    (lines 198-207). *)

From Stdlib Require Import ZArith String Ascii List Lia.
From stdpp Require Import base gmap strings list.
From S2P Require Import Prelude PyStr PyFormat.

Local Open Scope string_scope.

Definition zeo_conf_template : string := lines [
    "# ZEO configuration file";
    "";
    "%%define INSTANCE %(instance_home)s";
    "";
    "<zeo>";
    "  address %(address)s";
    "  read-only false";
    "  invalidation-queue-size 100";
    "  # pid-filename $INSTANCE/var/ZEO.pid";
    "  # monitor-address PORT";
    "  # transaction-timeout SECONDS";
    "</zeo>";
    "";
    "<filestorage 1>";
    "  path $INSTANCE/var/Data.fs";
    "</filestorage>";
    "";
    "<eventlog>";
    "  level info";
    "  <logfile>";
    "    path $INSTANCE/log/zeo.log";
    "  </logfile>";
    "</eventlog>";
    "";
    "<runner>";
    "  program $INSTANCE/bin/runzeo";
    "  socket-name $INSTANCE/var/%(package)s.zdsock";
    "  daemon true";
    "  forever false";
    "  backoff-limit 10";
    "  exit-codes 0, 2";
    "  directory $INSTANCE";
    "  default-to-interactive true";
    "  # user zope";
    "  python %(python)s";
    "  zdrun %(zdaemon_home)s/zdaemon/zdrun.py";
    "";
    "  # This logfile should match the one in the %(package)s.conf file.";
    "  # It is used by zdctl's logtail command, zdrun/zdctl doesn't write it.";
    "  logfile $INSTANCE/log/%(package)s.log";
    "</runner>"].

Definition zeoctl_template : string := lines [
    "#!/bin/sh";
    "# %(PACKAGE)s instance control script";
    "";
    "# The following two lines are for chkconfig.  On Red Hat Linux (and";
    "# some other systems), you can copy or symlink this script into";
    "# /etc/rc.d/init.d/ and then use chkconfig(8) to automatically start";
    "# %(PACKAGE)s at boot time.";
    "";
    "# chkconfig: 345 90 10";
    "# description: start a %(PACKAGE)s server";
    "";
    "PYTHON=" ++ dq ++ "%(python)s" ++ dq;
    "INSTANCE_HOME=" ++ dq ++ "%(instance_home)s" ++ dq;
    "ZODB3_HOME=" ++ dq ++ "%(zodb3_home)s" ++ dq;
    "";
    "CONFIG_FILE=" ++ dq ++ "%(instance_home)s/etc/%(package)s.conf" ++ dq;
    "";
    "PYTHONPATH=" ++ dq ++ "$ZODB3_HOME" ++ dq;
    "export PYTHONPATH INSTANCE_HOME";
    "";
    "ZEOCTL=" ++ dq ++ "$ZODB3_HOME/ZEO/zeoctl.py" ++ dq;
    "";
    "exec " ++ dq ++ "$PYTHON" ++ dq ++ " " ++ dq ++ "$ZEOCTL" ++ dq ++ " -C "
      ++ dq ++ "$CONFIG_FILE" ++ dq ++ " ${1+" ++ dq ++ "$@" ++ dq ++ "}"].

Definition runzeo_template : string := lines [
    "#!/bin/sh";
    "# %(PACKAGE)s instance start script";
    "";
    "PYTHON=" ++ dq ++ "%(python)s" ++ dq;
    "INSTANCE_HOME=" ++ dq ++ "%(instance_home)s" ++ dq;
    "ZODB3_HOME=" ++ dq ++ "%(zodb3_home)s" ++ dq;
    "";
    "CONFIG_FILE=" ++ dq ++ "%(instance_home)s/etc/%(package)s.conf" ++ dq;
    "";
    "PYTHONPATH=" ++ dq ++ "$ZODB3_HOME" ++ dq;
    "export PYTHONPATH INSTANCE_HOME";
    "";
    "RUNZEO=" ++ dq ++ "$ZODB3_HOME/ZEO/runzeo.py" ++ dq;
    "";
    "exec " ++ dq ++ "$PYTHON" ++ dq ++ " " ++ dq ++ "$RUNZEO" ++ dq ++ " -C "
      ++ dq ++ "$CONFIG_FILE" ++ dq ++ " ${1+" ++ dq ++ "$@" ++ dq ++ "}"].

Definition doc_template : string := lines [
    "%(program)s -- create a ZEO instance.";
    "";
    "Usage: %(program)s home [[host:]port]";
    "";
    "Given an " ++ dq ++ "instance home directory" ++ dq ++ " <home> and some configuration";
    "options (all of which have default values), create the following:";
    "";
    "<home>/etc/zeo.conf     -- ZEO config file";
    "<home>/var/             -- Directory for data files: Data.fs etc.";
    "<home>/log/             -- Directory for log files: zeo.log and zeoctl.log";
    "<home>/bin/runzeo       -- the zeo server runner";
    "<home>/bin/zeoctl       -- start/stop script (a shim for zeoctl.py)";
    "";
    "The script will not overwrite existing files; instead, it will issue a";
    "warning if an existing file is found that differs from the file that";
    "would be written if it didn't exist."].

(** [get_params]: [sys.executable] is the interpreter path [python]. *)
Definition get_params (zodb3_home zdaemon_home instance_home : string)
  (address : pyval) (python : string) : gmap string pyval :=
  <["package" := PStr "zeo"]> (
  <["PACKAGE" := PStr "ZEO"]> (
  <["zodb3_home" := PStr zodb3_home]> (
  <["zdaemon_home" := PStr zdaemon_home]> (
  <["instance_home" := PStr instance_home]> (
  <["address" := address]> (
  <["python" := PStr python]> ∅)))))).

(** ** The rendered configuration

    The text [test_zeo_conf_content] expects: the template with its
    four values substituted. *)
Definition zeo_conf_text (instance_home address python zdaemon_home : string) : string := lines [
    "# ZEO configuration file";
    "";
    "%define INSTANCE " ++ instance_home;
    "";
    "<zeo>";
    "  address " ++ address;
    "  read-only false";
    "  invalidation-queue-size 100";
    "  # pid-filename $INSTANCE/var/ZEO.pid";
    "  # monitor-address PORT";
    "  # transaction-timeout SECONDS";
    "</zeo>";
    "";
    "<filestorage 1>";
    "  path $INSTANCE/var/Data.fs";
    "</filestorage>";
    "";
    "<eventlog>";
    "  level info";
    "  <logfile>";
    "    path $INSTANCE/log/zeo.log";
    "  </logfile>";
    "</eventlog>";
    "";
    "<runner>";
    "  program $INSTANCE/bin/runzeo";
    "  socket-name $INSTANCE/var/zeo.zdsock";
    "  daemon true";
    "  forever false";
    "  backoff-limit 10";
    "  exit-codes 0, 2";
    "  directory $INSTANCE";
    "  default-to-interactive true";
    "  # user zope";
    "  python " ++ python;
    "  zdrun " ++ zdaemon_home ++ "/zdaemon/zdrun.py";
    "";
    "  # This logfile should match the one in the zeo.conf file.";
    "  # It is used by zdctl's logtail command, zdrun/zdctl doesn't write it.";
    "  logfile $INSTANCE/log/zeo.log";
    "</runner>"].

(** The help text: the docstring with the program's name. *)
Definition help_text (program : string) : string := lines [
    program ++ " -- create a ZEO instance.";
    "";
    "Usage: " ++ program ++ " home [[host:]port]";
    "";
    "Given an " ++ dq ++ "instance home directory" ++ dq ++ " <home> and some configuration";
    "options (all of which have default values), create the following:";
    "";
    "<home>/etc/zeo.conf     -- ZEO config file";
    "<home>/var/             -- Directory for data files: Data.fs etc.";
    "<home>/log/             -- Directory for log files: zeo.log and zeoctl.log";
    "<home>/bin/runzeo       -- the zeo server runner";
    "<home>/bin/zeoctl       -- start/stop script (a shim for zeoctl.py)";
    "";
    "The script will not overwrite existing files; instead, it will issue a";
    "warning if an existing file is found that differs from the file that";
    "would be written if it didn't exist."].

(** ** Lemmas *)

(** The parameter dict has every key any template names. *)
Lemma get_params_keys (zodb3_home zdaemon_home instance_home python : string) (address : pyval) :
  forall t, t = zeo_conf_template \/ t = zeoctl_template \/ t = runzeo_template ->
  first_missing (get_params zodb3_home zdaemon_home instance_home address python)
    (template_keys t) = None.
Proof. intros t [-> | [-> | ->]]; vm_compute; reflexivity. Qed.

(** The three templates render with the parameter dict. *)
Lemma templates_format (zodb3_home zdaemon_home instance_home python : string)
  (address : pyval) (t : string) :
  t = zeo_conf_template \/ t = zeoctl_template \/ t = runzeo_template ->
  let params := get_params zodb3_home zdaemon_home instance_home address python in
  py_format t params = Ok (expand params (fst (parse_fmt PText t))).
Proof.
  intros Ht params. unfold params. rewrite template_format_eq.
  - now rewrite get_params_keys.
  - destruct Ht as [-> | [-> | ->]]; reflexivity.
Qed.

(** C30: The three templates never raise [KeyError] with the dict of
    [get_params]: every key they use is one of its keys. *)
Theorem templates_render (zodb3_home zdaemon_home instance_home python : string)
  (address : pyval) (t : string) :
  t = zeo_conf_template \/ t = zeoctl_template \/ t = runzeo_template ->
  let params := get_params zodb3_home zdaemon_home instance_home address python in
  py_format t params = Ok (expand params (fst (parse_fmt PText t))).
Proof. apply templates_format. Qed.

(** C29: [zeo_conf_template % params] is the configuration text
    [test_zeo_conf_content] expects, for every value of the parameters. *)
Theorem zeo_conf_render (zodb3_home zdaemon_home instance_home python : string)
  (address : pyval) :
  py_format zeo_conf_template
    (get_params zodb3_home zdaemon_home instance_home address python) =
  Ok (zeo_conf_text instance_home (py_str address) python zdaemon_home).
Proof.
  rewrite template_format_eq by reflexivity. vm_compute.
  repeat rewrite string_app_assoc. reflexivity.
Qed.

(** [__doc__ % {"program": program}] is the help text, whatever the
    program's name (a [%] in it is not interpreted again). *)
Theorem doc_format (program : string) :
  py_format doc_template (<["program" := PStr program]> ∅) = Ok (help_text program).
Proof.
  rewrite template_format_eq by reflexivity. vm_compute.
  repeat rewrite string_app_assoc. reflexivity.
Qed.

(** C31: [__doc__ % {'program': p}] is the help text with [p] substituted,
    whatever [p] holds. *)
Theorem doc_render (program : string) :
  py_format doc_template (<["program" := PStr program]> ∅) = Ok (help_text program).
Proof. apply doc_format. Qed.

(** ** Witnesses *)

Lemma templates_render_witness :
  py_format zeoctl_template (get_params "/opt/zodb" "/opt/zdaemon" "/tmp/inst" (PInt 9999%Z)
                               "/usr/bin/python3") =
  Ok (expand (get_params "/opt/zodb" "/opt/zdaemon" "/tmp/inst" (PInt 9999%Z) "/usr/bin/python3")
         (fst (parse_fmt PText zeoctl_template))).
Proof.
  exact (templates_render "/opt/zodb" "/opt/zdaemon" "/tmp/inst" "/usr/bin/python3" (PInt 9999%Z)
           zeoctl_template (or_intror (or_introl eq_refl))).
Defined.
