(* ===== verification/Materializer.v ===== *)
(** * The instance materializer: [print_], [mkdirs], [makedir], [makefile], [makexfile], [create]

    The functions of lines 135-142 and 209-260 of
    [src/src/zope/mkzeoinstance/__init__.py], as computations of the
    process state of [FileSys]: each Python statement is one call of
    that file, in the order the source makes them, with the guards of
    the source.  [mkdirs] recurses on the head of [os.path.split]; it is
    written with fuel, and [mkdirs] gives it one more than the length of
    the path, which [mkdirs_fuel_enough] and [mkdirs_outcome] show is
    never exhausted.  Besides the refinements of these functions, the
    file proves where [create] may change the file system
    ([create_frame]), that [makefile] never overwrites a non-blank text,
    and what each function may raise. *)

From Stdlib Require Import ZArith String Ascii List Lia.
From stdpp Require Import base gmap strings list.
From S2P Require Import Prelude PyStr PyFormat PosixPath FileSys Templates.

Local Open Scope string_scope.
Local Open Scope py_scope.

(** [print_(msg, *args, **kw)] (lines 135-142): [msg % args] when
    there are positional arguments, [msg % kw] when there are keyword
    arguments, then a non-[str] message is decoded, which only [bytes]
    can be; the line goes to the standard output. *)
Definition print_ (msg : pyval) (args : list pyval) (kw : gmap string pyval) : PyM world unit :=
  m1 <- (match args with
         | [] => ret msg
         | _ :: _ =>
             match msg with
             | PStr s => lift_res (res_map PStr (py_format s args))
             | _ => raise (TypeError "unsupported operand type(s) for %")
             end
         end) ;;
  m2 <- (if bool_decide (kw = ∅) then ret m1
         else match m1 with
              | PStr s => lift_res (res_map PStr (py_format s kw))
              | _ => raise (TypeError "unsupported operand type(s) for %")
              end) ;;
  match m2 with
  | PStr s => write_line s
  | _ => raise (AttributeError "object has no attribute 'decode'")
  end.

(** [mkdirs(path)] (lines 227-234). *)
Fixpoint mkdirs_fuel (fuel : nat) (path : string) : PyM world unit :=
  match fuel with
  | O => raise (Unmodelled "recursion depth")
  | S f =>
      d <- os_path_isdir path ;;
      if d then ret tt else
      let (head, tail) := path_split path in
      (if negb (head =? "") && negb (tail =? "") then
         hd <- os_path_isdir head ;;
         if hd then ret tt else mkdirs_fuel f head
       else ret tt) ;;
      os_mkdir path ;;
      print_ (PStr "Created directory %s") [PStr path] ∅
  end.

Definition mkdirs (path : string) : PyM world unit :=
  mkdirs_fuel (S (String.length path)) path.

(** [makedir] (lines 220-225). *)
Definition makedir (args : list string) : PyM world string :=
  let path := join_all args in
  mkdirs path ;;
  ret path.

(** [makefile(template, *args, **kwds)] (lines 236-250): [args[:-1]]
    is [removelast args] and [args[-1]] its last element; [makedir]
    raises before [args[-1]] is read when [args] is empty. *)
Definition makefile (template : string) (args : list string) (kwds : gmap string pyval)
  : PyM world string :=
  dir <- makedir (removelast args) ;;
  let path := path_join dir (List.last args "") in
  data <- lift_res (py_format template kwds) ;;
  ex <- os_path_exists path ;;
  r <- (if ex then
     old <- read_text path ;;
     let olddata := strip old in
     if negb (olddata =? "") then
       (if negb (olddata =? strip data) then
          print_ (PStr "Warning: not overwriting existing file %r") [PStr path] ∅
        else ret tt) ;;
       ret (Some path)
     else ret None
   else ret None) ;;
  match r with
  | Some p => ret p
  | None =>
      write_text path data ;;
      print_ (PStr "Wrote file %s") [PStr path] ∅ ;;
      ret path
  end.

(** [makexfile(template, *args, **kwds)] (lines 252-260). *)
Definition makexfile (template : string) (args : list string) (kwds : gmap string pyval)
  : PyM world string :=
  path <- makefile template args kwds ;;
  umask <- os_umask 18 ;;
  os_umask umask ;;
  let mode := Z.land 511 (Z.lnot umask) in
  st <- os_stat_mode path ;;
  (if negb (S_IMODE st =? mode)%Z then
     os_chmod path mode ;;
     print_ (PStr "Changed mode for %s to %o") [PStr path; PInt mode] ∅
   else ret tt) ;;
  ret path.

(** [ZEOInstanceBuilder.create(home, params)] (lines 209-217). *)
Definition create (home : string) (params : gmap string pyval) : PyM world unit :=
  makedir [home] ;;
  makedir [home; "etc"] ;;
  makedir [home; "var"] ;;
  makedir [home; "log"] ;;
  makedir [home; "bin"] ;;
  makefile zeo_conf_template [home; "etc"; "zeo.conf"] params ;;
  makexfile zeoctl_template [home; "bin"; "zeoctl"] params ;;
  makexfile runzeo_template [home; "bin"; "runzeo"] params ;;
  ret tt.

(** ** What [mkdirs] promises: the missing prefixes, shortest first

    The abstract effect of [mkdirs(path_of(cs))]: every prefix of [cs]
    that is missing becomes a directory with [0o777 & ~umask], and one
    line [Created directory <path>] is printed per prefix created, the
    shortest first. *)

Definition prefixes (cs : list string) : list (list string) :=
  map (fun i => take i cs) (seq 1 (length cs)).

Definition missing_prefixes (fs : gmap (list string) node) (cs : list string)
  : list (list string) :=
  List.filter (fun p => match fs !! p with None => true | Some _ => false end) (prefixes cs).

Definition create_dirs (mode : Z) (ps : list (list string))
  (fs : gmap (list string) node) : gmap (list string) node :=
  fold_left (fun fs p => <[p := NDir mode]> fs) ps fs.

Definition created_line (p : list string) : string := "Created directory " ++ path_of p.

Definition mkdirs_post (w : world) (cs : list string) : world :=
  let ps := missing_prefixes (w_fs w) cs in
  mkWorld (create_dirs (dir_create_mode (w_umask w)) ps (w_fs w)) (w_cwd w) (w_umask w)
    (w_out w ++ map created_line ps).

Definition no_file_onb (fs : gmap (list string) node) (cs : list string) : bool :=
  forallb (fun i => match fs !! take i cs with Some (NFile _ _) => false | _ => true end)
    (seq 0 (S (length cs))).

(** ** What [makefile] promises

    The file is written when it is absent or when its text, read back
    and stripped, is empty; otherwise it is left as it is, with a
    warning when its stripped text differs from the stripped new text.
    A directory in its place makes the read raise [EISDIR]. *)
Definition makefile_post (w : world) (loc : list string) (data : string) : world * res string :=
  let path := path_of loc in
  match w_fs w !! loc with
  | Some (NDir _) => (w, Raise (OSError EISDIR path))
  | Some (NFile d m) =>
      let old := strip (translate_newlines d) in
      if old =? "" then
        (add_out (set_fs w (<[loc := NFile data m]> (w_fs w))) ("Wrote file " ++ path), Ok path)
      else if old =? strip data then (w, Ok path)
      else (add_out w ("Warning: not overwriting existing file " ++ py_repr path), Ok path)
  | None =>
      (add_out (set_fs w (<[loc := NFile data (file_create_mode (w_umask w))]> (w_fs w)))
         ("Wrote file " ++ path), Ok path)
  end.

(** What [makexfile] adds: the mode of the file becomes
    [0o777 & ~umask], with a message when it was not. *)
Definition xmode_post (w : world) (loc : list string) : world * res string :=
  let mode := Z.land 511 (Z.lnot (w_umask w)) in
  let path := path_of loc in
  match w_fs w !! loc with
  | Some n =>
      if (S_IMODE (st_mode n) =? mode)%Z then (w, Ok path)
      else (add_out (set_fs w (<[loc := with_perm n (Z.land mode 4095)]> (w_fs w)))
              ("Changed mode for " ++ path ++ " to " ++ oct_of_Z mode), Ok path)
  | None => (w, Raise (OSError ENOENT path))
  end.

Definition makexfile_post (w : world) (loc : list string) (data : string) : world * res string :=
  match makefile_post w loc data with
  | (w', Ok _) => xmode_post w' loc
  | r => r
  end.

(** What [create] promises: the five [makedir] calls, then the three
    files, each [makefile] and [makexfile] making its directory again
    first; the first error stops the rest. *)
Definition create_post (w : world) (hcs : list string) (conf ctl run : string)
  : world * res unit :=
  let w5 := mkdirs_post (mkdirs_post (mkdirs_post (mkdirs_post (mkdirs_post w hcs)
              (hcs ++ ["etc"])) (hcs ++ ["var"])) (hcs ++ ["log"])) (hcs ++ ["bin"]) in
  match makefile_post (mkdirs_post w5 (hcs ++ ["etc"])) (hcs ++ ["etc"; "zeo.conf"]) conf with
  | (w6, Raise e) => (w6, Raise e)
  | (w6, Ok _) =>
      match makexfile_post (mkdirs_post w6 (hcs ++ ["bin"])) (hcs ++ ["bin"; "zeoctl"]) ctl with
      | (w7, Raise e) => (w7, Raise e)
      | (w7, Ok _) =>
          match makexfile_post (mkdirs_post w7 (hcs ++ ["bin"])) (hcs ++ ["bin"; "runzeo"]) run with
          | (w8, Raise e) => (w8, Raise e)
          | (w8, Ok _) => (w8, Ok tt)
          end
      end
  end.

(** A text that reads back as written and is not blank: no carriage
    return (which universal newlines would translate) and something
    left after [strip]. *)
Definition stable_text (s : string) : Prop :=
  contains_char cr_char s = false /\ strip s <> "".

(** The five directories of the instance home, for [no_file_on]. *)
Definition home_dirs_ok (fs : gmap (list string) node) (hcs : list string) : Prop :=
  no_file_on fs (hcs ++ ["etc"]) /\ no_file_on fs (hcs ++ ["var"]) /\
  no_file_on fs (hcs ++ ["log"]) /\ no_file_on fs (hcs ++ ["bin"]).

(** The world after [create] on a fresh home [hcs]: the five
    directories with [0o777 & ~umask], [etc/zeo.conf] with
    [0o666 & ~umask], the two scripts with [0o777 & ~umask], and the ten
    lines of [test_create_folders_and_files] printed in that order. *)
Definition fresh_lines (hcs : list string) (xm : Z) : list string :=
  [created_line hcs; created_line (hcs ++ ["etc"])%list;
   created_line (hcs ++ ["var"])%list; created_line (hcs ++ ["log"])%list;
   created_line (hcs ++ ["bin"])%list;
   ("Wrote file " ++ path_of (hcs ++ ["etc"; "zeo.conf"])%list)%string;
   ("Wrote file " ++ path_of (hcs ++ ["bin"; "zeoctl"])%list)%string;
   ("Changed mode for " ++ path_of (hcs ++ ["bin"; "zeoctl"])%list ++ " to " ++ oct_of_Z xm)%string;
   ("Wrote file " ++ path_of (hcs ++ ["bin"; "runzeo"])%list)%string;
   ("Changed mode for " ++ path_of (hcs ++ ["bin"; "runzeo"])%list ++ " to " ++ oct_of_Z xm)%string].

Definition fresh_world (hcs : list string) (conf ctl run : string) (w : world) : world :=
  let dm := dir_create_mode (w_umask w) in
  mkWorld
    (<[(hcs ++ ["bin"; "runzeo"])%list := NFile run dm]>
    (<[(hcs ++ ["bin"; "zeoctl"])%list := NFile ctl dm]>
    (<[(hcs ++ ["etc"; "zeo.conf"])%list := NFile conf (file_create_mode (w_umask w))]>
    (<[(hcs ++ ["bin"])%list := NDir dm]> (<[(hcs ++ ["log"])%list := NDir dm]>
    (<[(hcs ++ ["var"])%list := NDir dm]> (<[(hcs ++ ["etc"])%list := NDir dm]>
    (<[hcs := NDir dm]> (w_fs w)))))))))
    (w_cwd w) (w_umask w) (w_out w ++ fresh_lines hcs dm)%list.

(** The file system with only the root directory, umask [0o022]. *)
Definition root_world : world := mkWorld (<[[] := NDir 493%Z]> ∅) [] 18%Z [].

(** Concrete worlds and parameters: [/tmp] and, for [conf_world d],
    an instance whose [etc/zeo.conf] holds [d]. *)
Definition tmp_world : world :=
  mkWorld (<[["tmp"] := NDir 1023%Z]> (<[[] := NDir 493%Z]> ∅)) [] 18%Z [].

Definition conf_world (d : string) : world :=
  mkWorld (<[["tmp"; "inst"; "etc"; "zeo.conf"] := NFile d 420%Z]>
           (<[["tmp"; "inst"; "etc"] := NDir 493%Z]>
           (<[["tmp"; "inst"] := NDir 493%Z]> (w_fs tmp_world)))) [] 18%Z [].

Definition demo_params : gmap string pyval :=
  get_params "/opt/zodb" "/opt/zdaemon" "/tmp/inst" (PInt 9999%Z) "/usr/bin/python3".

Definition rendered (t : string) : string :=
  match py_format t demo_params with Ok s => s | Raise _ => "" end.

(** The seven locations of an instance below its home [hcs]: the four
    directories and the three files [create] makes. *)
Definition instance_paths (hcs : list string) : list (list string) :=
  [hcs ++ ["etc"]; hcs ++ ["var"]; hcs ++ ["log"]; hcs ++ ["bin"];
   hcs ++ ["etc"; "zeo.conf"]; hcs ++ ["bin"; "zeoctl"]; hcs ++ ["bin"; "runzeo"]]%list.

(** The outcomes [mkdirs] can have in Python: it returns, or an
    [OSError] of [os.mkdir] escapes. *)
Definition os_outcome {A} (r : res A) : Prop :=
  match r with Ok _ => True | Raise (OSError _ _) => True | Raise _ => False end.

(** ** Lemmas *)

(** *** Messages *)

Lemma print_ok (f s : string) (args : list pyval) (w : world) :
  args <> [] -> py_format f args = Ok s ->
  print_ (PStr f) args ∅ w = (add_out w s, Ok tt).
Proof.
  intros Hne Hf. unfold print_. destruct args as [|a args]; [congruence|].
  unfold bind. cbn [lift_res]. rewrite Hf. reflexivity.
Qed.

Lemma fmt_created (p : string) :
  py_format "Created directory %s" [PStr p] = Ok ("Created directory " ++ p).
Proof. vm_compute. now rewrite string_app_nil_r. Qed.

Lemma fmt_wrote (p : string) :
  py_format "Wrote file %s" [PStr p] = Ok ("Wrote file " ++ p).
Proof. vm_compute. now rewrite string_app_nil_r. Qed.

Lemma fmt_warning (p : string) :
  py_format "Warning: not overwriting existing file %r" [PStr p] =
  Ok ("Warning: not overwriting existing file " ++ py_repr p).
Proof. vm_compute. now rewrite string_app_nil_r. Qed.

Lemma fmt_mode (p : string) (m : Z) :
  py_format "Changed mode for %s to %o" [PStr p; PInt m] =
  Ok ("Changed mode for " ++ p ++ " to " ++ oct_of_Z m).
Proof. vm_compute. now rewrite string_app_nil_r. Qed.

Lemma print_created (p : string) (w : world) :
  print_ (PStr "Created directory %s") [PStr p] ∅ w = (add_out w ("Created directory " ++ p), Ok tt).
Proof. apply print_ok; [discriminate|apply fmt_created]. Qed.

Lemma print_wrote (p : string) (w : world) :
  print_ (PStr "Wrote file %s") [PStr p] ∅ w = (add_out w ("Wrote file " ++ p), Ok tt).
Proof. apply print_ok; [discriminate|apply fmt_wrote]. Qed.

Lemma print_warning (p : string) (w : world) :
  print_ (PStr "Warning: not overwriting existing file %r") [PStr p] ∅ w =
  (add_out w ("Warning: not overwriting existing file " ++ py_repr p), Ok tt).
Proof. apply print_ok; [discriminate|apply fmt_warning]. Qed.

Lemma print_mode (p : string) (m : Z) (w : world) :
  print_ (PStr "Changed mode for %s to %o") [PStr p; PInt m] ∅ w =
  (add_out w ("Changed mode for " ++ p ++ " to " ++ oct_of_Z m), Ok tt).
Proof. apply print_ok; [discriminate|apply fmt_mode]. Qed.

(** *** The invariant *)

Lemma preserves_print (msg : pyval) (args : list pyval) (kw : gmap string pyval) :
  preserves (print_ msg args kw).
Proof. unfold print_. preserves_tac. Qed.

#[export] Hint Resolve preserves_print : mkzeo.

Lemma preserves_mkdirs_fuel (f : nat) (p : string) : preserves (mkdirs_fuel f p).
Proof.
  revert p. induction f as [|f IH]; intros p; cbn [mkdirs_fuel]; preserves_tac.
Qed.

#[export] Hint Resolve preserves_mkdirs_fuel : mkzeo.

Lemma preserves_makedir (args : list string) : preserves (makedir args).
Proof. unfold makedir, mkdirs. auto with mkzeo. Qed.

#[export] Hint Resolve preserves_makedir : mkzeo.

Lemma preserves_makefile (t : string) (args : list string) (kw : gmap string pyval) :
  preserves (makefile t args kw).
Proof. unfold makefile. preserves_tac. Qed.

#[export] Hint Resolve preserves_makefile : mkzeo.

Lemma preserves_makexfile (t : string) (args : list string) (kw : gmap string pyval) :
  preserves (makexfile t args kw).
Proof. unfold makexfile. preserves_tac. Qed.

#[export] Hint Resolve preserves_makexfile : mkzeo.

(** [create] keeps the invariant of the process state, whether it
    succeeds or raises. *)
Lemma create_preserves (home : string) (params : gmap string pyval) :
  preserves (create home params).
Proof. unfold create. preserves_tac. Qed.

(** *** Texts that are never overwritten *)

Lemma keeps_print (msg : pyval) (args : list pyval) (kw : gmap string pyval) :
  keeps (print_ msg args kw).
Proof. unfold print_. keeps_tac. Qed.

#[export] Hint Resolve keeps_print : mkzeo.

Lemma keeps_mkdirs_fuel (f : nat) (p : string) : keeps (mkdirs_fuel f p).
Proof. revert p. induction f as [|f IH]; intros p; cbn [mkdirs_fuel]; keeps_tac. Qed.

#[export] Hint Resolve keeps_mkdirs_fuel : mkzeo.

Lemma keeps_makedir (args : list string) : keeps (makedir args).
Proof. unfold makedir, mkdirs. auto with mkzeo. Qed.

#[export] Hint Resolve keeps_makedir : mkzeo.

(** [makefile] writes only where [os.path.exists] saw nothing or where
    the text it read back, stripped, was empty. *)
Lemma keeps_makefile (t : string) (args : list string) (kw : gmap string pyval) :
  keeps (makefile t args kw).
Proof.
  intros w. unfold makefile. unfold bind at 1. pose proof (keeps_makedir (removelast args) w) as H1.
  destruct (makedir (removelast args) w) as [w1 [dir|ex]]; [|exact H1]. cbn [fst snd] in H1 |- *.
  eapply keeps_texts_trans; [exact H1|]. clear H1 w. cbv beta zeta.
  set (path := path_join dir (List.last args "")).
  destruct (py_format t kw) as [data|ex]; [|apply keeps_texts_refl].
  rewrite (bind_lift_ok (Ok data) data _ _ eq_refl).
  assert (Hw : forall w, (forall d m, stat w path = inr (NFile d m) ->
                                      strip (translate_newlines d) = "") ->
    keeps_texts (w_fs w) (w_fs (fst ((write_text path data ;;
      print_ (PStr "Wrote file %s") [PStr path] ∅ ;; ret path) w))))
    by (intros w Hb; apply keeps_texts_bind; [now apply keeps_write_text|auto with mkzeo]).
  destruct (stat w1 path) as [e|n] eqn:Hst.
  - assert (He : os_path_exists path w1 = (w1, Ok false)) by (unfold os_path_exists; now rewrite Hst).
    step_ok He. rewrite bind_ret. apply Hw. congruence.
  - assert (He : os_path_exists path w1 = (w1, Ok true)) by (unfold os_path_exists; now rewrite Hst).
    step_ok He. rewrite bind_assoc. destruct n as [md|d m].
    + assert (Hr : read_text path w1 = (w1, Raise (OSError EISDIR path)))
        by (unfold read_text; now rewrite Hst).
      step_raise Hr. apply keeps_texts_refl.
    + assert (Hr : read_text path w1 = (w1, Ok (translate_newlines d)))
        by (unfold read_text; now rewrite Hst).
      step_ok Hr. cbv zeta. destruct (negb (strip (translate_newlines d) =? "")) eqn:Hb.
      * rewrite bind_assoc. apply keeps_texts_bind.
        -- destruct (negb (_ =? strip data)); [exact (keeps_print _ _ _ w1)|exact (keeps_ret _ w1)].
        -- intros _ w'. rewrite bind_ret. apply keeps_texts_refl.
      * apply negb_false_iff, String.eqb_eq in Hb. rewrite bind_ret. apply Hw.
        intros d' m' Hst'. rewrite Hst in Hst'. now injection Hst' as <- _.
Qed.

Lemma keeps_makexfile (t : string) (args : list string) (kw : gmap string pyval) :
  keeps (makexfile t args kw).
Proof. unfold makexfile. apply keeps_bind; [apply keeps_makefile|intros ?]. keeps_tac. Qed.

Lemma keeps_create (home : string) (params : gmap string pyval) : keeps (create home params).
Proof. pose proof keeps_makefile. pose proof keeps_makexfile. unfold create. keeps_tac. Qed.

(** *** The prefixes of a location *)

Local Close Scope string_scope.

Lemma prefixes_snoc (cs : list string) (c : string) :
  prefixes (cs ++ [c])%list = (prefixes cs ++ [cs ++ [c]])%list.
Proof.
  unfold prefixes. rewrite length_app, Nat.add_1_r, seq_S, map_app. simpl.
  f_equal.
  - apply map_ext_in. intros i Hi. apply in_seq in Hi. apply take_app_le. lia.
  - f_equal. apply take_ge. rewrite length_app. simpl. lia.
Qed.

Lemma prefixes_length (cs p : list string) : In p (prefixes cs) -> length p <= length cs.
Proof.
  unfold prefixes. intros Hp. apply in_map_iff in Hp as (i & <- & _).
  rewrite length_take. lia.
Qed.

Lemma missing_prefixes_snoc (fs : gmap (list string) node) (cs : list string) (c : string) :
  missing_prefixes fs (cs ++ [c])%list =
  (missing_prefixes fs cs ++
   match fs !! (cs ++ [c])%list with None => [cs ++ [c]] | Some _ => [] end)%list.
Proof.
  unfold missing_prefixes. rewrite prefixes_snoc, List.filter_app. simpl.
  destruct (fs !! (cs ++ [c])); reflexivity.
Qed.

(** A location that exists has all its prefixes: none is missing. *)
Lemma missing_prefixes_present (fs : gmap (list string) node) (cs : list string) (n : node) :
  fs_wf fs -> fs !! cs = Some n -> missing_prefixes fs cs = [].
Proof.
  intros Hwf Hn. unfold missing_prefixes.
  rewrite <- (List.filter_false (prefixes cs)). apply List.filter_ext_in. intros p Hp.
  unfold prefixes in Hp. apply in_map_iff in Hp as (i & <- & Hi). apply in_seq in Hi.
  destruct (decide (i = length cs)) as [->|Hne].
  - rewrite take_ge by lia. now rewrite Hn.
  - destruct (wf_ancestors fs cs n Hwf Hn i ltac:(lia)) as [m ->]. reflexivity.
Qed.

Lemma create_dirs_lookup (mode : Z) (ps : list (list string)) (fs : gmap (list string) node)
  (k : list string) :
  create_dirs mode ps fs !! k = if decide (k ∈ ps) then Some (NDir mode) else fs !! k.
Proof.
  unfold create_dirs. revert fs. induction ps as [|p ps IH] using rev_ind; intros fs.
  - reflexivity.
  - rewrite fold_left_app. simpl. destruct (decide (p = k)) as [->|Hne].
    + rewrite lookup_insert_eq. rewrite decide_True by set_solver. reflexivity.
    + rewrite lookup_insert_ne by exact Hne. rewrite IH.
      destruct (decide (k ∈ ps)); [rewrite decide_True by set_solver|];
        [reflexivity|]. rewrite decide_False by set_solver. reflexivity.
Qed.

Lemma prefixes_self (cs : list string) : cs <> [] -> In cs (prefixes cs).
Proof.
  intros Hne. unfold prefixes. apply in_map_iff. exists (length cs).
  split; [apply take_ge; lia|]. apply in_seq. destruct cs; [congruence|simpl; lia].
Qed.

Lemma mkdirs_post_lookup (w : world) (cs k : list string) :
  w_fs (mkdirs_post w cs) !! k =
  if decide (k ∈ missing_prefixes (w_fs w) cs) then Some (NDir (dir_create_mode (w_umask w)))
  else w_fs w !! k.
Proof. apply create_dirs_lookup. Qed.

Lemma mkdirs_post_present (w : world) (cs : list string) (n : node) :
  world_wf w -> w_fs w !! cs = Some n -> mkdirs_post w cs = w.
Proof.
  intros [Hwf _] Hn. unfold mkdirs_post. rewrite (missing_prefixes_present _ _ n Hwf Hn).
  destruct w; simpl. now rewrite app_nil_r.
Qed.

Lemma no_file_on_init (fs : gmap (list string) node) (cs : list string) (c : string) :
  no_file_on fs (cs ++ [c]) -> no_file_on fs cs.
Proof.
  intros H i d m Hi. rewrite <- (take_app_le cs [c]) by lia.
  apply H. rewrite length_app. lia.
Qed.

Lemma no_file_on_last (fs : gmap (list string) node) (cs : list string) d m :
  no_file_on fs cs -> fs !! cs <> Some (NFile d m).
Proof. intros H. rewrite <- (take_ge cs (length cs)) by lia. now apply H. Qed.

(** The missing prefixes of the parent, then the location itself. *)
Lemma mkdirs_post_snoc (w : world) (cs : list string) (c : string) :
  w_fs w !! (cs ++ [c]) = None ->
  mkdirs_post w (cs ++ [c]) =
  add_out (set_fs (mkdirs_post w cs)
             (<[cs ++ [c] := NDir (dir_create_mode (w_umask w))]> (w_fs (mkdirs_post w cs))))
    (created_line (cs ++ [c])).
Proof.
  intros Hn. unfold mkdirs_post. rewrite missing_prefixes_snoc, Hn.
  unfold create_dirs. rewrite fold_left_app. unfold add_out, set_fs. simpl.
  now rewrite map_app, app_assoc.
Qed.

(** [mkdirs(path_of(cs))] creates exactly the missing prefixes of [cs],
    shortest first, and prints one line for each, when no prefix is a
    file; it is given one more step of fuel than [cs] has components. *)
Lemma mkdirs_fuel_spec (cs : list string) (f : nat) (w : world) :
  world_wf w -> Forall (fun c => name_ok c = true) cs -> no_file_on (w_fs w) cs ->
  length cs < f ->
  mkdirs_fuel f (path_of cs) w = (mkdirs_post w cs, Ok tt).
Proof.
  revert f w. induction cs as [|c cs0 IH] using rev_ind; intros f w Hw Hcs Hnf Hf;
    (destruct f as [|f]; [simpl in Hf; lia|]); cbn [mkdirs_fuel];
    step_ok (isdir_path_of w _ Hw Hcs); cbv beta.
  - destruct Hw as ([[r Hr] Hp] & Hc & Hu). rewrite Hr. destruct w. unfold mkdirs_post. simpl.
    now rewrite app_nil_r.
  - pose proof Hcs as Hcs0. apply Forall_app in Hcs0 as [Hcs0 _].
    pose proof (name_ok_last _ _ Hcs) as Hc. pose proof Hc as Hc'.
    apply name_ok_spec in Hc' as (Hc1 & _). apply String.eqb_neq in Hc1.
    destruct (w_fs w !! (cs0 ++ [c])) as [[m|d m]|] eqn:Hn.
    + now rewrite (mkdirs_post_present w _ _ Hw Hn).
    + exfalso. exact (no_file_on_last _ _ d m Hnf Hn).
    + rewrite path_split_path_of by exact Hcs. rewrite path_of_nonempty, Hc1. cbn [negb andb].
      pose proof (no_file_on_init _ _ _ Hnf) as Hnf0.
      destruct (w_fs w !! cs0) as [[md|d m]|] eqn:Hp.
      * rewrite bind_assoc. step_ok (isdir_path_of w _ Hw Hcs0). rewrite Hp. cbv beta.
        rewrite bind_ret. pose proof (mkdir_path_of w cs0 c md Hw Hcs Hp) as Hm.
        rewrite Hn in Hm. step_ok Hm.
        rewrite print_created.
        rewrite mkdirs_post_snoc by exact Hn. rewrite (mkdirs_post_present w cs0 _ Hw Hp).
        reflexivity.
      * exfalso. exact (no_file_on_last _ _ d m Hnf0 Hp).
      * assert (Hrec : mkdirs_fuel f (path_of cs0) w = (mkdirs_post w cs0, Ok tt))
          by (apply IH; auto; rewrite length_app in Hf; simpl in Hf; lia).
        assert (Hw1 : world_wf (mkdirs_post w cs0))
          by (pose proof (preserves_mkdirs_fuel f (path_of cs0) w Hw) as H;
              rewrite Hrec in H; exact H).
        assert (Hne : cs0 <> []) by (intros ->; destruct Hw as ([[r Hr] _] & _); congruence).
        assert (Hp1 : w_fs (mkdirs_post w cs0) !! cs0 = Some (NDir (dir_create_mode (w_umask w)))).
        { rewrite mkdirs_post_lookup, decide_True; [reflexivity|].
          apply list_elem_of_In, List.filter_In. rewrite Hp. split; [|reflexivity].
          now apply prefixes_self. }
        assert (Hn1 : w_fs (mkdirs_post w cs0) !! (cs0 ++ [c]) = None).
        { rewrite mkdirs_post_lookup, decide_False; [exact Hn|].
          intros Hin. apply list_elem_of_In, List.filter_In in Hin as [Hin _].
          apply prefixes_length in Hin. rewrite length_app in Hin. simpl in Hin. lia. }
        rewrite bind_assoc. step_ok (isdir_path_of w _ Hw Hcs0). rewrite Hp. cbv beta.
        step_ok Hrec. pose proof (mkdir_path_of _ cs0 c _ Hw1 Hcs Hp1) as Hm.
        rewrite Hn1 in Hm. step_ok Hm.
        rewrite print_created.
        rewrite mkdirs_post_snoc by exact Hn. reflexivity.
Qed.

(** [mkdirs(path_of(cs))] with the fuel [mkdirs] gives it. *)
Theorem mkdirs_refines (cs : list string) (w : world) :
  world_wf w -> Forall (fun c => name_ok c = true) cs -> no_file_on (w_fs w) cs ->
  mkdirs (path_of cs) w = (mkdirs_post w cs, Ok tt).
Proof.
  intros Hw Hcs Hnf. apply mkdirs_fuel_spec; try assumption.
  pose proof (path_of_length cs Hcs). lia.
Qed.

(** C10: [mkdirs(path)] on a clean absolute path whose prefixes are no files
    creates exactly the missing prefixes, shortest first, each with [0o777 &
    ~umask], printing [Created directory] for each. *)
Theorem mkdirs_spec (cs : list string) (w : world) :
  world_wf w -> Forall (fun c => name_ok c = true) cs -> no_file_on (w_fs w) cs ->
  mkdirs (path_of cs) w = (mkdirs_post w cs, Ok tt).
Proof. apply mkdirs_refines. Qed.

(** The recursion of [mkdirs] ends within [len(path) + 1] calls: any
    fuel above the path's length gives the same result, so the fuel [mkdirs]
    is given is never exhausted. *)
Lemma mkdirs_fuel_enough (f g : nat) (p : string) (w : world) :
  String.length p < f -> String.length p < g -> mkdirs_fuel f p w = mkdirs_fuel g p w.
Proof.
  revert g p w. induction f as [|f IH]; intros g p w Hf Hg; [lia|].
  destruct g as [|g]; [lia|]. cbn [mkdirs_fuel]. unfold bind.
  destruct (os_path_isdir p w) as [w1 [d|e]]; [|reflexivity].
  destruct d; [reflexivity|].
  pose proof (path_split_shorter p) as Hshort.
  destruct (path_split p) as [h t]. simpl in Hshort.
  destruct (negb (h =? "")%string && negb (t =? "")%string) eqn:Hc; [|reflexivity].
  apply andb_true_iff in Hc as [_ Ht]. apply negb_true_iff, String.eqb_neq in Ht.
  specialize (Hshort Ht).
  destruct (os_path_isdir h w1) as [w2 [hd|e]]; [|reflexivity].
  destruct hd; [reflexivity|].
  rewrite (IH g h w2) by lia. reflexivity.
Qed.

Lemma makedir_path_of (hcs ds : list string) (w : world) :
  world_wf w -> Forall (fun c => name_ok c = true) (hcs ++ ds) ->
  no_file_on (w_fs w) (hcs ++ ds) ->
  makedir (path_of hcs :: ds) w = (mkdirs_post w (hcs ++ ds), Ok (path_of (hcs ++ ds))).
Proof.
  intros Hw Hall Hnf. unfold makedir.
  apply Forall_app in Hall as Hs. destruct Hs as [Hh Hd].
  rewrite join_all_path_of by assumption.
  step_ok (mkdirs_refines _ w Hw Hall Hnf). reflexivity.
Qed.

(** *** [makefile] *)

Lemma no_file_on_mkdirs_post (w : world) (cs cs' : list string) :
  no_file_on (w_fs w) cs' -> no_file_on (w_fs (mkdirs_post w cs)) cs'.
Proof.
  intros H i d m Hi. rewrite mkdirs_post_lookup. destruct (decide _); [discriminate|].
  now apply H.
Qed.

(** After [mkdirs] the location is a directory. *)
Lemma mkdirs_post_dir (w : world) (cs : list string) :
  world_wf w -> no_file_on (w_fs w) cs ->
  exists md, w_fs (mkdirs_post w cs) !! cs = Some (NDir md).
Proof.
  intros Hw Hnf. rewrite mkdirs_post_lookup.
  destruct (w_fs w !! cs) as [[m|d m]|] eqn:Hn.
  - rewrite (missing_prefixes_present _ _ _ (proj1 Hw) Hn).
    rewrite decide_False by set_solver. eauto.
  - exfalso. exact (no_file_on_last _ _ d m Hnf Hn).
  - destruct (decide (cs = [])) as [->|Hne].
    + destruct Hw as ([[r Hr] _] & _). congruence.
    + rewrite decide_True; [eauto|]. apply list_elem_of_In, List.filter_In.
      rewrite Hn. split; [now apply prefixes_self|reflexivity].
Qed.

Lemma mkdirs_post_child (w : world) (cs : list string) (c : string) :
  w_fs (mkdirs_post w cs) !! (cs ++ [c]) = w_fs w !! (cs ++ [c]).
Proof.
  rewrite mkdirs_post_lookup, decide_False; [reflexivity|].
  intros Hin. apply list_elem_of_In, List.filter_In in Hin as [Hin _].
  apply prefixes_length in Hin. rewrite length_app in Hin. simpl in Hin. lia.
Qed.

Lemma mkdirs_post_wf (w : world) (cs : list string) :
  world_wf w -> Forall (fun c => name_ok c = true) cs -> no_file_on (w_fs w) cs ->
  world_wf (mkdirs_post w cs).
Proof.
  intros Hw Hcs Hnf.
  pose proof (preserves_mkdirs_fuel (S (String.length (path_of cs))) (path_of cs) w Hw) as H.
  fold (mkdirs (path_of cs)) in H. now rewrite mkdirs_refines in H.
Qed.

Lemma mkdirs_post_umask (w : world) (cs : list string) :
  w_umask (mkdirs_post w cs) = w_umask w.
Proof. reflexivity. Qed.

Lemma removelast_last_args (h : string) (ds : list string) (f : string) :
  removelast (h :: ds ++ [f]) = h :: ds /\ List.last (h :: ds ++ [f]) "" = f.
Proof. split; [apply removelast_cons_snoc|apply last_cons_snoc]. Qed.

(** [makefile(template, home, d1, ..., dn, name, **kwds)] refines
    [makefile_post]: the directories first, then the file. *)
Theorem makefile_refines (t : string) (kw : gmap string pyval) (data : string)
  (hcs ds : list string) (fname : string) (w : world) :
  world_wf w -> Forall (fun c => name_ok c = true) (hcs ++ ds ++ [fname]) ->
  no_file_on (w_fs w) (hcs ++ ds) -> py_format t kw = Ok data ->
  makefile t (path_of hcs :: ds ++ [fname]) kw w =
  makefile_post (mkdirs_post w (hcs ++ ds)) (hcs ++ ds ++ [fname]) data.
Proof.
  intros Hw Hall Hnf Hfmt. rewrite app_assoc in Hall |- *.
  pose proof Hall as Hd. apply Forall_app in Hd as [Hd _].
  destruct (removelast_last_args (path_of hcs) ds fname) as [Hrl Hl].
  unfold makefile. rewrite Hrl, Hl.
  step_ok (makedir_path_of hcs ds w Hw Hd Hnf). cbv beta.
  rewrite path_join_path_of by (exact Hd || exact (name_ok_last _ _ Hall)).
  set (w1 := mkdirs_post w (hcs ++ ds)).
  assert (Hw1 : world_wf w1) by (apply mkdirs_post_wf; assumption).
  destruct (mkdirs_post_dir w (hcs ++ ds) Hw Hnf) as [md Hmd]. fold w1 in Hmd.
  rewrite (bind_lift_ok _ data _ _ Hfmt).
  step_ok (exists_path_of w1 _ Hw1 Hall). cbv beta. unfold makefile_post.
  destruct (w_fs w1 !! ((hcs ++ ds) ++ [fname])%list) as [n|] eqn:Hn.
  - pose proof (read_text_path_of w1 _ n Hw1 Hall Hn) as Hr.
    rewrite bind_assoc. destruct n as [m|d m].
    + step_raise Hr. reflexivity.
    + step_ok Hr. cbv beta. destruct (strip (translate_newlines d) =? "")%string; simpl.
      * rewrite bind_ret. pose proof (write_text_path_of w1 _ fname data md Hw1 Hall Hmd) as Hwr.
        rewrite Hn in Hwr. step_ok Hwr. step_ok (print_wrote _ _).
        reflexivity.
      * destruct (strip (translate_newlines d) =? strip data)%string; simpl.
        -- reflexivity.
        -- rewrite bind_assoc. step_ok (print_warning _ _). reflexivity.
  - rewrite bind_ret.
    pose proof (write_text_path_of w1 _ fname data md Hw1 Hall Hmd) as Hwr.
    rewrite Hn in Hwr. step_ok Hwr. step_ok (print_wrote _ _).
    reflexivity.
Qed.

(** C13: [makefile(template, home, *dirs, name, **kw)] makes the directory
    with [mkdirs] and then behaves as [makefile_post]: a new file is written
    with [0o666 & ~umask]; an existing one is kept, warned about or
    overwritten by its stripped text; a directory raises [EISDIR]. *)
Theorem makefile_spec (t : string) (kw : gmap string pyval) (data : string)
  (hcs ds : list string) (fname : string) (w : world) :
  world_wf w -> Forall (fun c => name_ok c = true) (hcs ++ ds ++ [fname]) ->
  no_file_on (w_fs w) (hcs ++ ds) -> py_format t kw = Ok data ->
  makefile t (path_of hcs :: ds ++ [fname]) kw w =
  makefile_post (mkdirs_post w (hcs ++ ds)) (hcs ++ ds ++ [fname]) data.
Proof. apply makefile_refines. Qed.

(** *** [makexfile] *)

(** [umask = os.umask(0o022); os.umask(umask)] leaves the process
    state as it was: the umask is nine bits, so setting it back is
    exact. *)
Lemma umask_dance {A} (w : world) (k : Z -> PyM world A) :
  world_wf w ->
  (um <- os_umask 18 ;; os_umask um ;; k um) w = k (w_umask w) w.
Proof.
  intros (_ & _ & Hu). unfold bind, os_umask. simpl.
  rewrite (land_511_small (w_umask w)) by exact Hu.
  destruct w. reflexivity.
Qed.

Lemma makefile_post_ok (w : world) (loc : list string) (data : string) w' p :
  makefile_post w loc data = (w', Ok p) ->
  p = path_of loc /\ exists d m, w_fs w' !! loc = Some (NFile d m).
Proof.
  unfold makefile_post.
  destruct (w_fs w !! loc) as [[m|d m]|] eqn:Hn; [discriminate| |].
  - destruct (_ =? "")%string; [|destruct (_ =? _)%string];
      intros [= <- <-]; split; try reflexivity; simpl; rewrite ?lookup_insert_eq; eauto.
  - intros [= <- <-]. split; [reflexivity|]. simpl. rewrite lookup_insert_eq. eauto.
Qed.

Lemma S_IMODE_st_mode (n : node) :
  S_IMODE (st_mode n) = Z.land (node_perm n) 4095.
Proof.
  unfold S_IMODE. destruct n; simpl; rewrite Z.land_lor_distr_l; reflexivity.
Qed.

(** [makexfile(template, home, d1, ..., dn, name, **kwds)] refines
    [makexfile_post]. *)
Theorem makexfile_refines (t : string) (kw : gmap string pyval) (data : string)
  (hcs ds : list string) (fname : string) (w : world) :
  world_wf w -> Forall (fun c => name_ok c = true) (hcs ++ ds ++ [fname]) ->
  no_file_on (w_fs w) (hcs ++ ds) -> py_format t kw = Ok data ->
  makexfile t (path_of hcs :: ds ++ [fname]) kw w =
  makexfile_post (mkdirs_post w (hcs ++ ds)) (hcs ++ ds ++ [fname]) data.
Proof.
  intros Hw Hall Hnf Hfmt. unfold makexfile, makexfile_post.
  pose proof (preserves_makefile t (path_of hcs :: ds ++ [fname]) kw w Hw) as Hw2.
  pose proof (makefile_refines t kw data hcs ds fname w Hw Hall Hnf Hfmt) as Hmf.
  rewrite Hmf in Hw2.
  destruct (makefile_post _ _ data) as [w2 [p|e]] eqn:E; simpl in Hw2.
  - apply makefile_post_ok in E as [-> (d & m & Hf)].
    step_ok Hmf. cbv beta. rewrite umask_dance by exact Hw2.
    step_ok (stat_mode_path_of w2 _ _ Hw2 Hall Hf). cbv beta.
    unfold xmode_post. rewrite Hf.
    destruct (S_IMODE _ =? _)%Z; simpl.
    + reflexivity.
    + rewrite bind_assoc. step_ok (chmod_path_of w2 _ _ _ Hw2 Hall Hf). step_ok (print_mode _ _ _). reflexivity.
  - step_raise Hmf. reflexivity.
Qed.

(** C14: [makexfile] is [makefile] followed by the mode check: when the
    permission bits differ from [0o777 & ~umask] it calls [chmod] and prints
    [Changed mode for <path> to <octal>]; the umask probe leaves the umask
    as it was. *)
Theorem makexfile_spec (t : string) (kw : gmap string pyval) (data : string)
  (hcs ds : list string) (fname : string) (w : world) :
  world_wf w -> Forall (fun c => name_ok c = true) (hcs ++ ds ++ [fname]) ->
  no_file_on (w_fs w) (hcs ++ ds) -> py_format t kw = Ok data ->
  makexfile t (path_of hcs :: ds ++ [fname]) kw w =
  makexfile_post (mkdirs_post w (hcs ++ ds)) (hcs ++ ds ++ [fname]) data.
Proof. apply makexfile_refines. Qed.

(** *** [create] *)

Lemma no_file_on_insert (fs : gmap (list string) node) (cs k : list string) (n : node) :
  no_file_on fs cs -> length cs < length k -> no_file_on (<[k := n]> fs) cs.
Proof.
  intros H Hk i d m Hi. rewrite lookup_insert_ne; [now apply H|].
  intros E. subst k. rewrite length_take in Hk. lia.
Qed.

Lemma makefile_post_no_file (w : world) (loc cs : list string) (data : string) :
  no_file_on (w_fs w) cs -> length cs < length loc ->
  no_file_on (w_fs (fst (makefile_post w loc data))) cs.
Proof.
  intros H Hl. unfold makefile_post.
  destruct (w_fs w !! loc) as [[m|d m]|]; [exact H| |];
    [destruct (_ =? "")%string; [|destruct (_ =? _)%string]|]; simpl;
    try exact H; now apply no_file_on_insert.
Qed.

Lemma xmode_post_no_file (w : world) (loc cs : list string) :
  no_file_on (w_fs w) cs -> length cs < length loc ->
  no_file_on (w_fs (fst (xmode_post w loc))) cs.
Proof.
  intros H Hl. unfold xmode_post.
  destruct (w_fs w !! loc); [destruct (_ =? _)%Z|]; simpl; try exact H.
  now apply no_file_on_insert.
Qed.

Lemma makexfile_post_no_file (w : world) (loc cs : list string) (data : string) :
  no_file_on (w_fs w) cs -> length cs < length loc ->
  no_file_on (w_fs (fst (makexfile_post w loc data))) cs.
Proof.
  intros H Hl. pose proof (makefile_post_no_file w loc cs data H Hl) as H1.
  unfold makexfile_post. destruct (makefile_post w loc data) as [w' [p|e]]; [|exact H1].
  now apply xmode_post_no_file.
Qed.

Lemma mkdirs_post_step (w : world) (cs cs' : list string) :
  world_wf w -> Forall (fun c => name_ok c = true) cs -> no_file_on (w_fs w) cs ->
  no_file_on (w_fs w) cs' ->
  world_wf (mkdirs_post w cs) /\ no_file_on (w_fs (mkdirs_post w cs)) cs'.
Proof.
  intros Hw Hcs Hnf Hnf'. split; [now apply mkdirs_post_wf|].
  now apply no_file_on_mkdirs_post.
Qed.

Lemma Forall_name_snoc (hcs : list string) (ds : list string) :
  Forall (fun c => name_ok c = true) hcs -> forallb name_ok ds = true ->
  Forall (fun c => name_ok c = true) (hcs ++ ds).
Proof.
  intros H Hd. apply Forall_app. split; [exact H|].
  apply List.Forall_forall. intros x Hx. rewrite forallb_forall in Hd. now apply Hd.
Qed.

Lemma home_dirs_ok_mkdirs (w : world) (hcs cs : list string) :
  home_dirs_ok (w_fs w) hcs -> home_dirs_ok (w_fs (mkdirs_post w cs)) hcs.
Proof. intros (H1 & H2 & H3 & H4). repeat split; now apply no_file_on_mkdirs_post. Qed.

(** The three files of [create], once the directories are made. *)
Lemma create_files_spec (hcs : list string) (params : gmap string pyval)
  (conf ctl run : string) (w5 : world) :
  world_wf w5 -> Forall (fun c => name_ok c = true) hcs -> home_dirs_ok (w_fs w5) hcs ->
  py_format zeo_conf_template params = Ok conf ->
  py_format zeoctl_template params = Ok ctl ->
  py_format runzeo_template params = Ok run ->
  (makefile zeo_conf_template [path_of hcs; "etc"; "zeo.conf"] params;;
   makexfile zeoctl_template [path_of hcs; "bin"; "zeoctl"] params;;
   makexfile runzeo_template [path_of hcs; "bin"; "runzeo"] params;; ret ()) w5 =
  match makefile_post (mkdirs_post w5 (hcs ++ ["etc"])) (hcs ++ ["etc"; "zeo.conf"]) conf with
  | (w6, Raise e) => (w6, Raise e)
  | (w6, Ok _) =>
      match makexfile_post (mkdirs_post w6 (hcs ++ ["bin"])) (hcs ++ ["bin"; "zeoctl"]) ctl with
      | (w7, Raise e) => (w7, Raise e)
      | (w7, Ok _) =>
          match makexfile_post (mkdirs_post w7 (hcs ++ ["bin"])) (hcs ++ ["bin"; "runzeo"]) run with
          | (w8, Raise e) => (w8, Raise e)
          | (w8, Ok _) => (w8, Ok tt)
          end
      end
  end.
Proof.
  intros Hw5 Hh (Hde & _ & _ & Hdb) Hconf Hctl Hrun.
  pose proof (makefile_refines zeo_conf_template params conf hcs ["etc"] "zeo.conf" w5 Hw5
                (Forall_name_snoc hcs ["etc"; "zeo.conf"] Hh eq_refl) Hde Hconf) as E6.
  pose proof (preserves_makefile zeo_conf_template [path_of hcs; "etc"; "zeo.conf"] params w5 Hw5)
    as Hw6.
  cbn [app] in E6. rewrite E6 in Hw6.
  pose proof (makefile_post_no_file (mkdirs_post w5 (hcs ++ ["etc"])) (hcs ++ ["etc"; "zeo.conf"])
                (hcs ++ ["bin"]) conf (no_file_on_mkdirs_post _ _ _ Hdb)
                ltac:(rewrite !length_app; simpl; lia)) as Hb6.
  destruct (makefile_post _ _ conf) as [w6 [p6|e6]]; simpl in Hw6, Hb6;
    [step_ok E6 | step_raise E6; reflexivity]. cbv beta.
  pose proof (makexfile_refines zeoctl_template params ctl hcs ["bin"] "zeoctl" w6 Hw6
                (Forall_name_snoc hcs ["bin"; "zeoctl"] Hh eq_refl) Hb6 Hctl) as E7.
  pose proof (preserves_makexfile zeoctl_template [path_of hcs; "bin"; "zeoctl"] params w6 Hw6)
    as Hw7.
  cbn [app] in E7. rewrite E7 in Hw7.
  pose proof (makexfile_post_no_file (mkdirs_post w6 (hcs ++ ["bin"])) (hcs ++ ["bin"; "zeoctl"])
                (hcs ++ ["bin"]) ctl (no_file_on_mkdirs_post _ _ _ Hb6)
                ltac:(rewrite !length_app; simpl; lia)) as Hb7.
  destruct (makexfile_post _ _ ctl) as [w7 [p7|e7]]; simpl in Hw7, Hb7;
    [step_ok E7 | step_raise E7; reflexivity]. cbv beta.
  pose proof (makexfile_refines runzeo_template params run hcs ["bin"] "runzeo" w7 Hw7
                (Forall_name_snoc hcs ["bin"; "runzeo"] Hh eq_refl) Hb7 Hrun) as E8.
  cbn [app] in E8.
  destruct (makexfile_post _ _ run) as [w8 [p8|e8]];
    [step_ok E8 | step_raise E8]; reflexivity.
Qed.

(** [create(home, params)] refines [create_post] when the home is a
    clean absolute path, none of its four directories or their prefixes
    is a file, and the templates render. *)
Theorem create_refines (hcs : list string) (params : gmap string pyval)
  (conf ctl run : string) (w : world) :
  world_wf w -> Forall (fun c => name_ok c = true) hcs -> home_dirs_ok (w_fs w) hcs ->
  py_format zeo_conf_template params = Ok conf ->
  py_format zeoctl_template params = Ok ctl ->
  py_format runzeo_template params = Ok run ->
  create (path_of hcs) params w = create_post w hcs conf ctl run.
Proof.
  intros Hw Hh Hd Hconf Hctl Hrun. unfold create, create_post.
  assert (Hnh : no_file_on (w_fs w) hcs) by exact (no_file_on_init _ _ _ (proj1 Hd)).
  pose proof (makedir_path_of hcs [] w Hw) as E1. rewrite app_nil_r in E1.
  step_ok (E1 Hh Hnh). cbv beta. clear E1.
  pose proof (mkdirs_post_wf w hcs Hw Hh Hnh) as Hw1.
  pose proof (home_dirs_ok_mkdirs w hcs hcs Hd) as Hd1.
  set (w1 := mkdirs_post w hcs) in *. clearbody w1.
  step_ok (makedir_path_of hcs ["etc"] w1 Hw1 (Forall_name_snoc hcs ["etc"] Hh eq_refl) (proj1 Hd1)).
  cbv beta.
  pose proof (mkdirs_post_wf w1 _ Hw1 (Forall_name_snoc hcs ["etc"] Hh eq_refl) (proj1 Hd1)) as Hw2.
  pose proof (home_dirs_ok_mkdirs w1 hcs (hcs ++ ["etc"]) Hd1) as Hd2.
  set (w2 := mkdirs_post w1 (hcs ++ ["etc"])) in *. clearbody w2.
  step_ok (makedir_path_of hcs ["var"] w2 Hw2 (Forall_name_snoc hcs ["var"] Hh eq_refl) (proj1 (proj2 Hd2))).
  cbv beta.
  pose proof (mkdirs_post_wf w2 _ Hw2 (Forall_name_snoc hcs ["var"] Hh eq_refl) (proj1 (proj2 Hd2))) as Hw3.
  pose proof (home_dirs_ok_mkdirs w2 hcs (hcs ++ ["var"]) Hd2) as Hd3.
  set (w3 := mkdirs_post w2 (hcs ++ ["var"])) in *. clearbody w3.
  step_ok (makedir_path_of hcs ["log"] w3 Hw3 (Forall_name_snoc hcs ["log"] Hh eq_refl)
             (proj1 (proj2 (proj2 Hd3)))).
  cbv beta.
  pose proof (mkdirs_post_wf w3 _ Hw3 (Forall_name_snoc hcs ["log"] Hh eq_refl)
                (proj1 (proj2 (proj2 Hd3)))) as Hw4.
  pose proof (home_dirs_ok_mkdirs w3 hcs (hcs ++ ["log"]) Hd3) as Hd4.
  set (w4 := mkdirs_post w3 (hcs ++ ["log"])) in *. clearbody w4.
  step_ok (makedir_path_of hcs ["bin"] w4 Hw4 (Forall_name_snoc hcs ["bin"] Hh eq_refl)
             (proj2 (proj2 (proj2 Hd4)))).
  cbv beta.
  pose proof (mkdirs_post_wf w4 _ Hw4 (Forall_name_snoc hcs ["bin"] Hh eq_refl)
                (proj2 (proj2 (proj2 Hd4)))) as Hw5.
  pose proof (home_dirs_ok_mkdirs w4 hcs (hcs ++ ["bin"]) Hd4) as Hd5.
  set (w5 := mkdirs_post w4 (hcs ++ ["bin"])) in *. clearbody w5.
  exact (create_files_spec hcs params conf ctl run w5 Hw5 Hh Hd5 Hconf Hctl Hrun).
Qed.

(** C1: [create(home, params)] refines [create_post]: for a clean absolute
    home whose four directories and their prefixes are no files, and
    templates that render, it makes the missing directories of each
    [makedir] call in turn, then writes the three files with the policy of
    [makefile] and [makexfile]. *)
Theorem create_spec (hcs : list string) (params : gmap string pyval)
  (conf ctl run : string) (w : world) :
  world_wf w -> Forall (fun c => name_ok c = true) hcs -> home_dirs_ok (w_fs w) hcs ->
  py_format zeo_conf_template params = Ok conf ->
  py_format zeoctl_template params = Ok ctl ->
  py_format runzeo_template params = Ok run ->
  create (path_of hcs) params w = create_post w hcs conf ctl run.
Proof. apply create_refines. Qed.

(** *** The conflict policy of [makefile] *)

(** When the file already exists its directory does, so [makefile]
    creates nothing and only the comparison of texts remains. *)
(** A directory and all its prefixes are no files. *)
Lemma no_file_on_dir (fs : gmap (list string) node) (cs : list string) md :
  fs_wf fs -> fs !! cs = Some (NDir md) -> no_file_on fs cs.
Proof.
  intros Hwf Hmd i d' m' Hi. destruct (decide (i = length cs)) as [->|Hlt].
  - rewrite take_ge by lia. now rewrite Hmd.
  - destruct (wf_ancestors _ _ _ Hwf Hmd i ltac:(lia)) as [m'' ->]. discriminate.
Qed.

Lemma makefile_existing (t : string) (kw : gmap string pyval) (data : string)
  (hcs ds : list string) (fname : string) (w : world) (d : string) (m : Z) :
  world_wf w -> Forall (fun c => name_ok c = true) (hcs ++ ds ++ [fname]) ->
  py_format t kw = Ok data ->
  w_fs w !! (hcs ++ ds ++ [fname]) = Some (NFile d m) ->
  makefile t (path_of hcs :: ds ++ [fname]) kw w =
  makefile_post w (hcs ++ ds ++ [fname]) data.
Proof.
  intros Hw Hall Hfmt Hf.
  assert (Hdir : exists md, w_fs w !! (hcs ++ ds) = Some (NDir md)).
  { destruct (proj2 (proj1 Hw) _ _ Hf ltac:(rewrite app_assoc; apply snoc_not_nil)) as [md Hmd].
    rewrite app_assoc, removelast_snoc in Hmd. eauto. }
  destruct Hdir as [md Hmd].
  rewrite makefile_refines with (data := data) by (assumption || exact (no_file_on_dir _ _ _ (proj1 Hw) Hmd)).
  now rewrite (mkdirs_post_present w _ _ Hw Hmd).
Qed.

Section ExistingFile.
Context (t : string) (kw : gmap string pyval) (data : string)
  (hcs ds : list string) (fname : string) (w : world) (d : string) (m : Z).
Hypothesis (Hw : world_wf w).
Hypothesis (Hall : Forall (fun c => name_ok c = true) (hcs ++ ds ++ [fname])).
Hypothesis (Hfmt : py_format t kw = Ok data).
Hypothesis (Hf : w_fs w !! (hcs ++ ds ++ [fname]) = Some (NFile d m)).

(** C7: An existing file whose stripped text is not empty and differs from
    the stripped new text is not modified: [makefile] prints one warning
    naming it with [%r] and returns its path. *)
Theorem makefile_conflict :
  strip (translate_newlines d) <> "" -> strip (translate_newlines d) <> strip data ->
  makefile t (path_of hcs :: ds ++ [fname]) kw w =
  (add_out w ("Warning: not overwriting existing file " ++ py_repr (path_of (hcs ++ ds ++ [fname]))),
   Ok (path_of (hcs ++ ds ++ [fname]))).
Proof.
  intros Hne Hdiff. rewrite (makefile_existing t kw data hcs ds fname w d m Hw Hall Hfmt Hf).
  unfold makefile_post. rewrite Hf.
  apply String.eqb_neq in Hne, Hdiff. now rewrite Hne, Hdiff.
Qed.

(** C8: An existing file with the same stripped, non-empty text is left as
    it is and nothing is printed. *)
Theorem makefile_same :
  strip (translate_newlines d) <> "" -> strip (translate_newlines d) = strip data ->
  makefile t (path_of hcs :: ds ++ [fname]) kw w = (w, Ok (path_of (hcs ++ ds ++ [fname]))).
Proof.
  intros Hne Heq. rewrite (makefile_existing t kw data hcs ds fname w d m Hw Hall Hfmt Hf).
  unfold makefile_post. rewrite Hf.
  apply String.eqb_neq in Hne. rewrite Hne, Heq, String.eqb_refl. reflexivity.
Qed.

(** An existing file that is empty or only whitespace is overwritten
    with the new text, its permission bits kept, and [Wrote file] is
    printed. *)
Lemma makefile_blank_overwritten :
  strip (translate_newlines d) = "" ->
  makefile t (path_of hcs :: ds ++ [fname]) kw w =
  (add_out (set_fs w (<[hcs ++ ds ++ [fname] := NFile data m]> (w_fs w)))
     ("Wrote file " ++ path_of (hcs ++ ds ++ [fname])),
   Ok (path_of (hcs ++ ds ++ [fname]))).
Proof.
  intros Hb. rewrite (makefile_existing t kw data hcs ds fname w d m Hw Hall Hfmt Hf).
  unfold makefile_post. rewrite Hf, Hb. reflexivity.
Qed.

End ExistingFile.

(** *** A fresh instance *)

(** A new directory below an existing one: [mkdirs] makes just it.
    The umask is passed as [u] so that the result names [w] once. *)
Lemma mkdirs_post_new (w : world) (cs : list string) (c : string) md u :
  world_wf w -> w_fs w !! cs = Some (NDir md) -> w_fs w !! (cs ++ [c]) = None ->
  w_umask w = u ->
  mkdirs_post w (cs ++ [c]) = put w (cs ++ [c]) (NDir (dir_create_mode u)) (created_line (cs ++ [c])).
Proof.
  intros Hw Hcs Hn <-. rewrite mkdirs_post_snoc by exact Hn.
  now rewrite (mkdirs_post_present w cs _ Hw Hcs).
Qed.

Lemma makefile_post_new (w : world) (loc : list string) (data : string) u :
  w_fs w !! loc = None -> w_umask w = u ->
  makefile_post w loc data =
  (put w loc (NFile data (file_create_mode u)) ("Wrote file " ++ path_of loc), Ok (path_of loc)).
Proof. intros Hn <-. unfold makefile_post. now rewrite Hn. Qed.

(** A new script is written with [0o666 & ~umask] and then, when that
    differs, changed to [0o777 & ~umask]. *)
Lemma makexfile_post_new (w : world) (loc : list string) (data : string) u :
  w_fs w !! loc = None -> w_umask w = u -> file_create_mode u <> dir_create_mode u ->
  makexfile_post w loc data =
  (add_out (put w loc (NFile data (dir_create_mode u)) ("Wrote file " ++ path_of loc))
     ("Changed mode for " ++ path_of loc ++ " to " ++ oct_of_Z (dir_create_mode u)),
   Ok (path_of loc)).
Proof.
  intros Hn Hu Hne. unfold makexfile_post. rewrite (makefile_post_new _ _ _ u Hn Hu).
  subst u. unfold xmode_post, put. cbn [w_fs w_umask add_out set_fs]. rewrite lookup_insert_eq.
  rewrite S_IMODE_st_mode. cbn [node_perm with_perm].
  fold (dir_create_mode (w_umask w)). autorewrite with mkzeo_rw.
  apply Z.eqb_neq in Hne. rewrite Hne, insert_insert_eq. reflexivity.
Qed.

(** When the umask masks every execute bit the two creation modes agree
    and [makexfile] leaves the new script as [makefile] wrote it. *)
Lemma makexfile_post_new_same (w : world) (loc : list string) (data : string) u :
  w_fs w !! loc = None -> w_umask w = u -> file_create_mode u = dir_create_mode u ->
  makexfile_post w loc data =
  (put w loc (NFile data (dir_create_mode u)) ("Wrote file " ++ path_of loc), Ok (path_of loc)).
Proof.
  intros Hn Hu Heq. unfold makexfile_post. rewrite (makefile_post_new _ _ _ u Hn Hu).
  subst u. unfold xmode_post, put. cbn [w_fs w_umask add_out set_fs]. rewrite lookup_insert_eq.
  rewrite S_IMODE_st_mode. cbn [node_perm with_perm].
  fold (dir_create_mode (w_umask w)). autorewrite with mkzeo_rw.
  rewrite Heq, Z.eqb_refl. reflexivity.
Qed.

(** Below a fresh home every prefix is a directory or absent. *)
Lemma no_file_on_fresh (fs : gmap (list string) node) (pcs : list string) (h : string) x md :
  fs_wf fs -> fs !! pcs = Some (NDir md) -> fs !! (pcs ++ [h]) = None ->
  no_file_on fs ((pcs ++ [h]) ++ x).
Proof.
  intros Hwf Hp Hh i d m Hi.
  destruct (decide (i <= length pcs)) as [Hle|Hgt].
  - rewrite <- app_assoc, take_app_le by lia.
    destruct (decide (i = length pcs)) as [->|Hlt].
    + rewrite take_ge by lia. now rewrite Hp.
    + destruct (wf_ancestors _ _ _ Hwf Hp i ltac:(lia)) as [m' ->]. discriminate.
  - rewrite take_app_ge by (rewrite length_app; simpl; lia).
    rewrite <- (app_nil_r (pcs ++ [h])) in Hh.
    destruct (take (i - length (pcs ++ [h])) x) as [|y ys].
    + now rewrite app_nil_r, <- (app_nil_r (pcs ++ [h])), Hh.
    + now rewrite app_nil_r in Hh; rewrite (absent_below _ _ _ Hwf Hh).
Qed.

Ltac fresh_lookup Hwf Hh :=
  autorewrite with world_rw;
  repeat (rewrite lookup_insert_ne by keys_ne);
  first [ eassumption | apply lookup_insert_eq | apply (absent_below _ _ _ Hwf Hh); discriminate ].

Ltac fresh_wf Hwf Hh :=
  lazymatch goal with
  | |- world_wf (add_out _ _) => apply world_wf_add_out; fresh_wf Hwf Hh
  | |- world_wf (put _ (_ ++ [_; _]) _ _) =>
      eapply world_wf_put2; [fresh_wf Hwf Hh | fresh_lookup Hwf Hh | fresh_lookup Hwf Hh]
  | |- world_wf (put _ (_ ++ [_]) _ _) =>
      eapply world_wf_put; [fresh_wf Hwf Hh | fresh_lookup Hwf Hh | fresh_lookup Hwf Hh]
  | |- world_wf _ => eassumption
  end.

Ltac fresh_side Hwf Hh :=
  first [ fresh_wf Hwf Hh | fresh_lookup Hwf Hh | autorewrite with world_rw; reflexivity ].

Section Fresh.
Context (pcs : list string) (h : string) (w : world) (md : Z).
Hypothesis (Hw : world_wf w).
Hypothesis (Hp : w_fs w !! pcs = Some (NDir md)).
Hypothesis (Hh : w_fs w !! (pcs ++ [h]) = None).

(** The five directories of a fresh home, each created once. *)
Lemma fresh_dirs_phase :
  mkdirs_post (mkdirs_post (mkdirs_post (mkdirs_post (mkdirs_post w (pcs ++ [h]))
    ((pcs ++ [h]) ++ ["etc"])) ((pcs ++ [h]) ++ ["var"])) ((pcs ++ [h]) ++ ["log"]))
    ((pcs ++ [h]) ++ ["bin"]) =
  let step w' k := put w' k (NDir (dir_create_mode (w_umask w))) (created_line k) in
  step (step (step (step (step w (pcs ++ [h])) ((pcs ++ [h]) ++ ["etc"]))
    ((pcs ++ [h]) ++ ["var"])) ((pcs ++ [h]) ++ ["log"])) ((pcs ++ [h]) ++ ["bin"]).
Proof.
  pose proof (proj1 Hw) as Hwf.
  rewrite (mkdirs_post_new w pcs h md (w_umask w) Hw Hp Hh eq_refl).
  erewrite (mkdirs_post_new _ (pcs ++ [h]) "etc" _ (w_umask w)) by fresh_side Hwf Hh.
  erewrite (mkdirs_post_new _ (pcs ++ [h]) "var" _ (w_umask w)) by fresh_side Hwf Hh.
  erewrite (mkdirs_post_new _ (pcs ++ [h]) "log" _ (w_umask w)) by fresh_side Hwf Hh.
  erewrite (mkdirs_post_new _ (pcs ++ [h]) "bin" _ (w_umask w)) by fresh_side Hwf Hh.
  reflexivity.
Qed.

End Fresh.

(** On a fresh home whose parent is a directory, [create] builds
    [fresh_world]: every directory and file is new, and the scripts are
    changed to [0o777 & ~umask] when [0o666 & ~umask] differs from it. *)
Theorem create_fresh_eq (pcs : list string) (h : string) (params : gmap string pyval)
  (conf ctl run : string) (w : world) md :
  world_wf w -> Forall (fun c => name_ok c = true) (pcs ++ [h]) ->
  w_fs w !! pcs = Some (NDir md) -> w_fs w !! (pcs ++ [h]) = None ->
  py_format zeo_conf_template params = Ok conf ->
  py_format zeoctl_template params = Ok ctl ->
  py_format runzeo_template params = Ok run ->
  file_create_mode (w_umask w) <> dir_create_mode (w_umask w) ->
  create (path_of (pcs ++ [h])) params w = (fresh_world (pcs ++ [h]) conf ctl run w, Ok tt).
Proof.
  intros Hw Hn Hp Hh Hconf Hctl Hrun Hmode. pose proof (proj1 Hw) as Hwf.
  assert (Hd : home_dirs_ok (w_fs w) (pcs ++ [h]))
    by (repeat split; eapply no_file_on_fresh; eassumption).
  rewrite (create_refines _ _ _ _ _ _ Hw Hn Hd Hconf Hctl Hrun). unfold create_post.
  rewrite (fresh_dirs_phase pcs h w md Hw Hp Hh). cbv zeta.
  erewrite (mkdirs_post_present _ ((pcs ++ [h]) ++ ["etc"])) by fresh_side Hwf Hh.
  rewrite (makefile_post_new _ _ _ (w_umask w)) by fresh_side Hwf Hh. cbv beta iota.
  erewrite (mkdirs_post_present _ ((pcs ++ [h]) ++ ["bin"])) by fresh_side Hwf Hh.
  rewrite (makexfile_post_new _ _ _ (w_umask w)) by (exact Hmode || fresh_side Hwf Hh).
  cbv beta iota.
  erewrite (mkdirs_post_present _ ((pcs ++ [h]) ++ ["bin"])) by fresh_side Hwf Hh.
  rewrite (makexfile_post_new _ _ _ (w_umask w)) by (exact Hmode || fresh_side Hwf Hh).
  cbv beta iota.
  f_equal. unfold fresh_world, fresh_lines.
  apply world_ext; autorewrite with world_rw; cbn [w_fs w_cwd w_umask w_out]; [reflexivity..|].
  now rewrite <- !app_assoc.
Qed.

(** C4: On a fresh home below an existing directory, [create] produces
    exactly the five directories with [0o777 & ~umask], [etc/zeo.conf] with
    [0o666 & ~umask] and the two scripts changed to [0o777 & ~umask], and
    prints the ten lines of [test_create_folders_and_files] in order. *)
Theorem create_fresh (pcs : list string) (h : string) (params : gmap string pyval)
  (conf ctl run : string) (w : world) md :
  world_wf w -> Forall (fun c => name_ok c = true) (pcs ++ [h]) ->
  w_fs w !! pcs = Some (NDir md) -> w_fs w !! (pcs ++ [h]) = None ->
  py_format zeo_conf_template params = Ok conf ->
  py_format zeoctl_template params = Ok ctl ->
  py_format runzeo_template params = Ok run ->
  file_create_mode (w_umask w) <> dir_create_mode (w_umask w) ->
  create (path_of (pcs ++ [h])) params w = (fresh_world (pcs ++ [h]) conf ctl run w, Ok tt).
Proof. apply create_fresh_eq. Qed.

(** *** Running [create] again *)

Lemma makefile_post_same (w : world) (loc : list string) (d : string) (m : Z) :
  w_fs w !! loc = Some (NFile d m) -> stable_text d ->
  makefile_post w loc d = (w, Ok (path_of loc)).
Proof.
  intros Hf [Hcr Hne]. unfold makefile_post. rewrite Hf, translate_newlines_id by exact Hcr.
  apply String.eqb_neq in Hne. now rewrite Hne, String.eqb_refl.
Qed.

Lemma makexfile_post_same (w : world) (loc : list string) (d : string) :
  w_fs w !! loc = Some (NFile d (dir_create_mode (w_umask w))) -> stable_text d ->
  makexfile_post w loc d = (w, Ok (path_of loc)).
Proof.
  intros Hf Hs. unfold makexfile_post. rewrite (makefile_post_same _ _ _ _ Hf Hs).
  unfold xmode_post. rewrite Hf, S_IMODE_st_mode. cbn [node_perm].
  fold (dir_create_mode (w_umask w)). now rewrite dir_create_mode_perm, Z.eqb_refl.
Qed.

Ltac fresh_world_lookup :=
  cbn [fresh_world w_fs w_umask];
  repeat (rewrite lookup_insert_ne by keys_ne); apply lookup_insert_eq.

(** C5: Running [create] again on the instance it has just made changes
    nothing and prints nothing, when the rendered texts hold no carriage
    return and are not blank. *)
Theorem create_idempotent (pcs : list string) (h : string) (params : gmap string pyval)
  (conf ctl run : string) (w : world) md :
  world_wf w -> Forall (fun c => name_ok c = true) (pcs ++ [h]) ->
  w_fs w !! pcs = Some (NDir md) -> w_fs w !! (pcs ++ [h]) = None ->
  py_format zeo_conf_template params = Ok conf ->
  py_format zeoctl_template params = Ok ctl ->
  py_format runzeo_template params = Ok run ->
  file_create_mode (w_umask w) <> dir_create_mode (w_umask w) ->
  stable_text conf -> stable_text ctl -> stable_text run ->
  let w1 := fresh_world (pcs ++ [h]) conf ctl run w in
  create (path_of (pcs ++ [h])) params w1 = (w1, Ok tt).
Proof.
  intros Hw Hn Hp Hh Hconf Hctl Hrun Hmode Sc St Sr w1.
  assert (Hw1 : world_wf w1).
  { pose proof (create_preserves (path_of (pcs ++ [h])) params w Hw) as P.
    now rewrite (create_fresh_eq pcs h params conf ctl run w md) in P. }
  assert (Hd : home_dirs_ok (w_fs w1) (pcs ++ [h]))
    by (repeat split; apply (no_file_on_dir _ _ (dir_create_mode (w_umask w)) (proj1 Hw1));
        unfold w1; fresh_world_lookup).
  rewrite (create_refines _ _ _ _ _ _ Hw1 Hn Hd Hconf Hctl Hrun). unfold create_post.
  repeat (erewrite (mkdirs_post_present w1) by (exact Hw1 || (unfold w1; fresh_world_lookup))).
  rewrite (makefile_post_same _ _ conf (file_create_mode (w_umask w))) by
    (exact Sc || (unfold w1; fresh_world_lookup)). cbv beta iota.
  erewrite (mkdirs_post_present w1) by (exact Hw1 || (unfold w1; fresh_world_lookup)).
  rewrite makexfile_post_same by (exact St || (unfold w1; fresh_world_lookup)). cbv beta iota.
  erewrite (mkdirs_post_present w1) by (exact Hw1 || (unfold w1; fresh_world_lookup)).
  rewrite makexfile_post_same by (exact Sr || (unfold w1; fresh_world_lookup)).
  reflexivity.
Qed.

(** *** A home with a trailing slash *)

(** A location whose parent is absent, with no file on the way, has no
    file on its own way either. *)
Lemma no_file_on_snoc_absent (fs : gmap (list string) node) (pcs : list string) (c : string) :
  fs_wf fs -> no_file_on fs pcs -> fs !! pcs = None -> no_file_on fs (pcs ++ [c]).
Proof.
  intros Hwf Hnf Hn i d m Hi. rewrite length_app in Hi. simpl in Hi.
  destruct (decide (i = S (length pcs))) as [->|Hne].
  - rewrite firstn_all2 by (rewrite length_app; simpl; lia).
    now rewrite (absent_below _ _ [c] Hwf Hn ltac:(discriminate)).
  - rewrite take_app_le by lia. apply Hnf. lia.
Qed.

(** C21: A home given with a trailing slash, whose parent is missing,
    cannot be created: [os.path.split] gives an empty tail, so [mkdirs]
    does not make the parent and [os.mkdir] raises [ENOENT]; without
    the slash, [mkdirs] makes the parent and then the home. *)
Theorem mkdirs_trailing_slash (pcs : list string) (c : string) (w : world) :
  world_wf w -> Forall (fun c => name_ok c = true) (pcs ++ [c]) ->
  no_file_on (w_fs w) pcs -> w_fs w !! pcs = None ->
  mkdirs (path_of (pcs ++ [c]) ++ "/") w =
    (w, Raise (OSError ENOENT (path_of (pcs ++ [c]) ++ "/"))) /\
  mkdirs (path_of (pcs ++ [c])) w = (mkdirs_post w (pcs ++ [c]), Ok tt).
Proof.
  intros Hw Hall Hnf Hn. split.
  - assert (Hd : os_path_isdir (path_of (pcs ++ [c]) ++ "/") w = (w, Ok false))
      by (unfold os_path_isdir; now rewrite (stat_slash_absent w pcs c Hw Hall Hnf Hn)).
    unfold mkdirs. cbn [mkdirs_fuel]. step_ok Hd. cbv beta iota.
    rewrite path_split_slash by (try exact Hall; apply snoc_not_nil). cbv beta iota.
    cbn [String.eqb negb]. rewrite andb_false_r, bind_ret.
    step_raise (mkdir_slash_absent w pcs c Hw Hall Hnf Hn). reflexivity.
  - apply mkdirs_refines; [exact Hw|exact Hall|].
    exact (no_file_on_snoc_absent _ pcs c (proj1 Hw) Hnf Hn).
Qed.

(** *** Concrete checks *)

Lemma no_file_onb_sound (fs : gmap (list string) node) (cs : list string) :
  no_file_onb fs cs = true -> no_file_on fs cs.
Proof.
  unfold no_file_onb. rewrite forallb_forall. intros H i d m Hi Hf.
  specialize (H i ltac:(apply in_seq; lia)). now rewrite Hf in H.
Qed.

(** *** A home below a file *)

(** The location [cs] is not a directory when it is a file or lies
    below one. *)
Lemma not_dir_under_file (w : world) (fcs rest : list string) d m :
  world_wf w -> w_fs w !! fcs = Some (NFile d m) ->
  match w_fs w !! (fcs ++ rest) with Some (NDir _) => true | _ => false end = false.
Proof.
  intros Hw Hf. destruct rest as [|x rest]; [now rewrite app_nil_r, Hf|].
  now rewrite (absent_under_file _ _ _ d m (proj1 Hw) Hf).
Qed.

Lemma name_nonempty (c : string) : name_ok c = true -> (c =? "")%string = false.
Proof. intros Hc. apply name_ok_spec in Hc as [Hc _]. now apply String.eqb_neq. Qed.

(** [mkdirs] on a path through the file [fcs] climbs up to it, and
    [os.mkdir] on the file raises [EEXIST]; nothing is created. *)
Lemma mkdirs_fuel_under_file (f : nat) (fcs rest : list string) (w : world) d m :
  world_wf w -> Forall (fun c => name_ok c = true) (fcs ++ rest) -> fcs <> [] ->
  w_fs w !! fcs = Some (NFile d m) -> String.length (path_of (fcs ++ rest)) < f ->
  mkdirs_fuel f (path_of (fcs ++ rest)) w = (w, Raise (OSError EEXIST (path_of fcs))).
Proof.
  intros Hw Hall Hne Hf. revert f Hall.
  induction rest as [|c rest IH] using rev_ind; intros f Hall Hlen; (destruct f as [|f]; [lia|]).
  - rewrite app_nil_r in *. destruct (exists_last Hne) as (pre & c & ->).
    destruct (proj2 (proj1 Hw) _ _ Hf (snoc_not_nil _ _)) as [md Hmd].
    rewrite removelast_snoc in Hmd.
    pose proof Hall as Hpre. apply Forall_app in Hpre as [Hpre _].
    cbn [mkdirs_fuel]. step_ok (isdir_path_of w _ Hw Hall). rewrite Hf. cbv beta iota.
    rewrite path_split_path_of by exact Hall. cbv beta iota.
    rewrite path_of_nonempty, (name_nonempty c (name_ok_last _ _ Hall)). cbn [negb andb].
    rewrite bind_assoc. step_ok (isdir_path_of w _ Hw Hpre). rewrite Hmd. cbv beta iota.
    rewrite bind_ret. pose proof (mkdir_path_of w pre c md Hw Hall Hmd) as Hm.
    rewrite Hf in Hm. step_raise Hm. reflexivity.
  - rewrite app_assoc in Hall, Hlen |- *.
    pose proof (path_split_shorter (path_of ((fcs ++ rest) ++ [c]))) as Hs.
    rewrite path_split_path_of in Hs by exact Hall. cbn [fst snd] in Hs.
    specialize (Hs ltac:(apply String.eqb_neq, (name_nonempty c (name_ok_last _ _ Hall)))).
    pose proof Hall as Hfr. apply Forall_app in Hfr as [Hfr _].
    cbn [mkdirs_fuel]. step_ok (isdir_path_of w _ Hw Hall).
    rewrite <- app_assoc, (not_dir_under_file w fcs (rest ++ [c]) d m Hw Hf). cbv beta iota.
    rewrite app_assoc, path_split_path_of by exact Hall. cbv beta iota.
    rewrite path_of_nonempty, (name_nonempty c (name_ok_last _ _ Hall)). cbn [negb andb].
    rewrite bind_assoc. step_ok (isdir_path_of w _ Hw Hfr).
    rewrite (not_dir_under_file w fcs rest d m Hw Hf). cbv beta iota.
    step_raise (IH f Hfr ltac:(lia)). reflexivity.
Qed.

(** C22: A home at or below an existing file cannot be created: [create]
    stops at its first [makedir], where [mkdirs] climbs to the file and
    [os.mkdir] raises [OSError(EEXIST)] naming it; no directory or file
    is made and nothing is printed, so [main] ends with a traceback. *)
Theorem create_under_file (fcs rest : list string) (params : gmap string pyval)
  (w : world) d m :
  world_wf w -> Forall (fun c => name_ok c = true) (fcs ++ rest) -> fcs <> [] ->
  w_fs w !! fcs = Some (NFile d m) ->
  create (path_of (fcs ++ rest)) params w = (w, Raise (OSError EEXIST (path_of fcs))).
Proof.
  intros Hw Hall Hne Hf. unfold create, makedir.
  pose proof Hall as Hs. apply Forall_app in Hs as [Hh Hr].
  rewrite (join_all_path_of (fcs ++ rest) []) by (exact Hall || constructor).
  rewrite app_nil_r, !bind_assoc. unfold mkdirs.
  step_raise (mkdirs_fuel_under_file (S (String.length (path_of (fcs ++ rest)))) fcs rest w d m
                Hw Hall Hne Hf ltac:(lia)).
  reflexivity.
Qed.

(** *** [mkdirs] always reaches a Python outcome *)

Lemma os_mkdir_outcome (p : string) (w : world) : os_outcome (snd (os_mkdir p w)).
Proof.
  unfold os_mkdir, os_error, raise.
  destruct (p =? "")%string; [exact I|]. destruct (rstrip_slash p =? "")%string; [exact I|].
  destruct (resolve_parent w (rstrip_slash p)) as [e|[loc name]]; [exact I|].
  destruct ((name =? ".") || (name =? ".."))%string; [exact I|].
  destruct (w_fs w !! (loc ++ [name])%list); exact I.
Qed.

Lemma mkdirs_fuel_outcome (f : nat) (p : string) (w : world) :
  String.length p < f -> os_outcome (snd (mkdirs_fuel f p w)).
Proof.
  revert p w. induction f as [|f IH]; intros p w Hf; [lia|].
  cbn [mkdirs_fuel]. unfold bind. unfold os_path_isdir at 1. cbv beta iota.
  destruct (match stat w p with inr (NDir _) => true | _ => false end); [exact I|].
  pose proof (path_split_shorter p) as Hshort.
  destruct (path_split p) as [h t]. simpl in Hshort.
  assert (Hk : forall w', os_outcome (snd ((os_mkdir p ;;
            print_ (PStr "Created directory %s") [PStr p] ∅) w'))).
  { intros w'. unfold bind. pose proof (os_mkdir_outcome p w') as Ho.
    destruct (os_mkdir p w') as [w2 [[]|e]]; [|exact Ho].
    now rewrite print_created. }
  destruct (negb (h =? "")%string && negb (t =? "")%string) eqn:Hc; [|apply Hk].
  apply andb_true_iff in Hc as [_ Ht]. apply negb_true_iff, String.eqb_neq in Ht.
  specialize (Hshort Ht).
  unfold os_path_isdir at 1. cbv beta iota.
  destruct (match stat w h with inr (NDir _) => true | _ => false end); [apply Hk|].
  pose proof (IH h w ltac:(lia)) as Hh.
  destruct (mkdirs_fuel f h w) as [w3 [[]|e]]; [apply Hk|exact Hh].
Qed.

(** C12: [mkdirs(path)] always ends in a Python outcome, on every path
    and in every state: it returns, or raises the [OSError] of an
    [os.mkdir]; its recursion never reaches the end of the fuel
    [len(path) + 1] it is given, so no other outcome is possible. *)
Theorem mkdirs_outcome (p : string) (w : world) : os_outcome (snd (mkdirs p w)).
Proof. apply mkdirs_fuel_outcome. lia. Qed.

(** *** Where [create] changes the file system *)

Lemma touches_print (S : list string -> Prop) (msg : pyval) (args : list pyval)
  (kw : gmap string pyval) : touches_only S (print_ msg args kw).
Proof. unfold print_. touches_tac. Qed.

#[local] Hint Resolve touches_print : mkzeo.

(** [os.mkdir] on a clean path changes at most its own location. *)
Lemma touches_mkdir_prefix (cs : list string) :
  Forall (fun c => name_ok c = true) cs ->
  touches_only (fun k => k `prefix_of` cs) (os_mkdir (path_of cs)).
Proof. intros Hcs. eapply touches_weaken; [|exact (touches_mkdir cs Hcs)]. now intros k ->. Qed.

(** [mkdirs(path_of(cs))] changes at most the prefixes of [cs]. *)
Lemma touches_mkdirs_fuel (f : nat) (cs : list string) :
  Forall (fun c => name_ok c = true) cs ->
  touches_only (fun k => k `prefix_of` cs) (mkdirs_fuel f (path_of cs)).
Proof.
  revert cs. induction f as [|f IH]; intros cs Hcs; cbn [mkdirs_fuel]; [auto with mkzeo|].
  apply touches_bind; [auto with mkzeo|intros [|]]; [auto with mkzeo|].
  destruct cs as [|c pcs _] using rev_ind.
  - change (path_split (path_of [])) with ("/", ""). cbv beta iota. cbn [String.eqb negb andb].
    apply touches_bind; [auto with mkzeo|intros _].
    apply touches_bind; [now apply touches_mkdir_prefix|auto with mkzeo].
  - rewrite path_split_path_of by exact Hcs. cbv beta iota.
    pose proof Hcs as Hp. apply Forall_app in Hp as [Hp _].
    apply touches_bind; [|intros _; apply touches_bind; [now apply touches_mkdir_prefix|auto with mkzeo]].
    destruct (_ && _); [|auto with mkzeo].
    apply touches_bind; [auto with mkzeo|intros [|]]; [auto with mkzeo|].
    eapply touches_weaken; [|exact (IH pcs Hp)]. intros k Hk. now apply prefix_app_r.
Qed.

Lemma makedir_result (args : list string) : returns_in (fun p => p = join_all args) (makedir args).
Proof. unfold makedir. apply returns_in_seq. intros _. now apply returns_in_ret. Qed.

Lemma touches_makedir (hcs ds : list string) :
  Forall (fun c => name_ok c = true) (hcs ++ ds) ->
  touches_only (fun k => k `prefix_of` (hcs ++ ds)) (makedir (path_of hcs :: ds)).
Proof.
  intros Hall. pose proof Hall as H. apply Forall_app in H as [Hh Hd].
  unfold makedir. rewrite join_all_path_of by assumption. unfold mkdirs.
  apply touches_bind; [now apply touches_mkdirs_fuel|auto with mkzeo].
Qed.

(** [makefile] returns the path it was given. *)
Lemma makefile_result (t : string) (args : list string) (kw : gmap string pyval) :
  returns_in (fun p => p = path_join (join_all (removelast args)) (List.last args ""))
    (makefile t args kw).
Proof.
  unfold makefile. apply (returns_in_bind _ _ _ _ (makedir_result _)). intros dir ->. cbv zeta.
  do 2 (apply returns_in_seq; intros ?).
  apply (returns_in_bind (fun r => r = Some (path_join (join_all (removelast args))
                                                  (List.last args "")) \/ r = None)).
  - destruct (_ : bool); [|apply returns_in_ret; now right].
    apply returns_in_seq. intros old. cbv zeta.
    destruct (negb _); [|apply returns_in_ret; now right].
    apply returns_in_seq. intros _. apply returns_in_ret. now left.
  - intros r [-> | ->]; [now apply returns_in_ret|].
    do 2 (apply returns_in_seq; intros _). now apply returns_in_ret.
Qed.

Lemma touches_makefile (t : string) (hcs ds : list string) (f : string) (kw : gmap string pyval) :
  Forall (fun c => name_ok c = true) (hcs ++ ds ++ [f]) ->
  touches_only (fun k => k `prefix_of` (hcs ++ ds) \/ k = (hcs ++ ds ++ [f])%list)
    (makefile t (path_of hcs :: ds ++ [f]) kw).
Proof.
  intros Hall. rewrite app_assoc in Hall. pose proof Hall as H. apply Forall_app in H as [Hhd Hf].
  inversion Hf as [|? ? Hf' _]; subst. pose proof Hhd as H. apply Forall_app in H as [Hh Hd].
  unfold makefile. destruct (removelast_last_args (path_of hcs) ds f) as [-> ->].
  apply (touches_bind_dep _ _ (join_all (path_of hcs :: ds))).
  - eapply touches_weaken; [|exact (touches_makedir hcs ds Hhd)]. now left.
  - apply makedir_result.
  - rewrite join_all_path_of, path_join_path_of by assumption. cbv zeta.
    touches_tac. eapply touches_weaken; [|exact (touches_write_text _ _ Hall)].
    intros k ->. right. now rewrite app_assoc.
Qed.

Lemma touches_makexfile (t : string) (hcs ds : list string) (f : string) (kw : gmap string pyval) :
  Forall (fun c => name_ok c = true) (hcs ++ ds ++ [f]) ->
  touches_only (fun k => k `prefix_of` (hcs ++ ds) \/ k = (hcs ++ ds ++ [f])%list)
    (makexfile t (path_of hcs :: ds ++ [f]) kw).
Proof.
  intros Hall. pose proof Hall as H. rewrite app_assoc in H. apply Forall_app in H as [Hhd Hf].
  inversion Hf as [|? ? Hf' _]; subst. pose proof Hhd as H. apply Forall_app in H as [Hh Hd].
  unfold makexfile. apply (touches_bind_dep _ _ (path_of (hcs ++ ds ++ [f]))).
  - now apply touches_makefile.
  - intros w w' p Hp. apply makefile_result in Hp as ->.
    destruct (removelast_last_args (path_of hcs) ds f) as [-> ->].
    rewrite join_all_path_of, path_join_path_of by assumption.
    now rewrite <- app_assoc.
  - touches_tac.
    eapply touches_weaken; [|exact (touches_chmod _ _ Hall)]. now right.
Qed.

Lemma prefix_of_snoc (k l : list string) (x : string) :
  k `prefix_of` (l ++ [x]) -> k `prefix_of` l \/ k = (l ++ [x])%list.
Proof.
  intros [r Hr]. destruct r as [|y r _] using rev_ind.
  - right. now rewrite app_nil_r in Hr.
  - left. exists r. rewrite app_assoc in Hr. now apply app_inj_tail in Hr as [-> _].
Qed.

(** The locations [create] may change below [hcs]: its prefixes and the
    seven locations of the instance. *)
Lemma touches_subdir (hcs : list string) (x : string) :
  Forall (fun c => name_ok c = true) (hcs ++ [x]) -> (hcs ++ [x])%list ∈ instance_paths hcs ->
  touches_only (fun k => k `prefix_of` hcs \/ k ∈ instance_paths hcs) (makedir [path_of hcs; x]).
Proof.
  intros Hall Hin. eapply touches_weaken; [|exact (touches_makedir hcs [x] Hall)].
  intros k Hk. destruct (prefix_of_snoc _ _ _ Hk) as [? | ->]; [now left|now right].
Qed.

Lemma instance_file_sub (hcs : list string) (x f : string) (k : list string) :
  (hcs ++ [x])%list ∈ instance_paths hcs -> (hcs ++ [x; f])%list ∈ instance_paths hcs ->
  k `prefix_of` (hcs ++ [x]) \/ k = (hcs ++ [x] ++ [f])%list ->
  k `prefix_of` hcs \/ k ∈ instance_paths hcs.
Proof.
  intros H1 H2 [Hk | ->]; [|now right].
  destruct (prefix_of_snoc _ _ _ Hk) as [? | ->]; [now left|now right].
Qed.

Ltac instance_names Hh := apply Forall_app; split; [exact Hh|repeat constructor].

Lemma touches_create (hcs : list string) (params : gmap string pyval) :
  Forall (fun c => name_ok c = true) hcs ->
  touches_only (fun k => k `prefix_of` hcs \/ k ∈ instance_paths hcs) (create (path_of hcs) params).
Proof.
  intros Hh. unfold create. apply touches_bind; [|intros _].
  { eapply touches_weaken; [|exact (touches_makedir hcs [] ltac:(now rewrite app_nil_r))].
    intros k Hk. left. now rewrite app_nil_r in Hk. }
  do 4 (apply touches_bind; [apply touches_subdir; [instance_names Hh|set_solver]|intros _]).
  apply touches_bind; [|intros _].
  { eapply touches_weaken; [|exact (touches_makefile zeo_conf_template hcs ["etc"] "zeo.conf" params
                                      ltac:(instance_names Hh))].
    intros k. apply instance_file_sub; set_solver. }
  apply touches_bind; [|intros _].
  { eapply touches_weaken; [|exact (touches_makexfile zeoctl_template hcs ["bin"] "zeoctl" params
                                      ltac:(instance_names Hh))].
    intros k. apply instance_file_sub; set_solver. }
  apply touches_bind; [|intros _; auto with mkzeo].
  eapply touches_weaken; [|exact (touches_makexfile runzeo_template hcs ["bin"] "runzeo" params
                                    ltac:(instance_names Hh))].
  intros k. apply instance_file_sub; set_solver.
Qed.

(** C11: [create(path_of(hcs), params)] changes the file system at
    most at the home and its ancestors and at the seven locations of the
    instance ([etc], [var], [log], [bin], [etc/zeo.conf], [bin/zeoctl],
    [bin/runzeo]): every other location, outside the home or inside it,
    is as it was, whatever [create] returns. *)
Theorem create_frame (hcs : list string) (params : gmap string pyval) (w : world) (k : list string) :
  Forall (fun c => name_ok c = true) hcs -> ~ k `prefix_of` hcs -> k ∉ instance_paths hcs ->
  w_fs (fst (create (path_of hcs) params w)) !! k = w_fs w !! k.
Proof. intros Hh Hp Hi. apply (touches_create hcs params Hh w k). tauto. Qed.

(** *** The exceptions of the materializer

    With templates that render, the functions of the materializer raise
    nothing but the [OSError]s of the calls they make: every message
    they print formats, and [mkdirs] never exhausts its fuel. *)

Section Raises.
Context (P : exn -> Prop) (HP : forall e p, P (OSError e p)).

Lemma raises_print_fmt (f s : string) (args : list pyval) :
  args <> [] -> py_format f args = Ok s -> raises_only P (print_ (PStr f) args ∅).
Proof. intros Hne Hf w. now rewrite (print_ok f s args w Hne Hf). Qed.

Lemma raises_print_plain (s : string) : raises_only P (print_ (PStr s) [] ∅).
Proof. intros w. unfold print_, bind. cbn. now rewrite bool_decide_true. Qed.

Lemma raises_print_created (p : string) :
  raises_only P (print_ (PStr "Created directory %s") [PStr p] ∅).
Proof. eapply raises_print_fmt; [discriminate|apply fmt_created]. Qed.

Lemma raises_print_wrote (p : string) : raises_only P (print_ (PStr "Wrote file %s") [PStr p] ∅).
Proof. eapply raises_print_fmt; [discriminate|apply fmt_wrote]. Qed.

Lemma raises_print_warning (p : string) :
  raises_only P (print_ (PStr "Warning: not overwriting existing file %r") [PStr p] ∅).
Proof. eapply raises_print_fmt; [discriminate|apply fmt_warning]. Qed.

Lemma raises_print_mode (p : string) (m : Z) :
  raises_only P (print_ (PStr "Changed mode for %s to %o") [PStr p; PInt m] ∅).
Proof. eapply raises_print_fmt; [discriminate|apply fmt_mode]. Qed.

Lemma raises_mkdirs (p : string) : raises_only P (mkdirs p).
Proof.
  intros w. pose proof (mkdirs_fuel_outcome (S (String.length p)) p w ltac:(lia)) as H.
  unfold mkdirs. destruct (snd (mkdirs_fuel _ p w)) as [a|[]]; simpl in *; auto; contradiction.
Qed.

#[local] Hint Resolve raises_print_plain raises_print_created raises_print_wrote
  raises_print_warning raises_print_mode raises_mkdirs : mkzeo.

Lemma raises_makedir (args : list string) : raises_only P (makedir args).
Proof. unfold makedir. raises_tac. Qed.

#[local] Hint Resolve raises_makedir : mkzeo.

Lemma raises_makefile (t : string) (args : list string) (kw : gmap string pyval) s :
  py_format t kw = Ok s -> raises_only P (makefile t args kw).
Proof.
  intros Hs. unfold makefile. rewrite Hs.
  apply raises_only_bind; [auto with mkzeo|intros dir].
  apply raises_only_bind; [now apply (raises_only_lift_ok _ _ s)|intros data]. raises_tac.
Qed.

Lemma raises_makexfile (t : string) (args : list string) (kw : gmap string pyval) s :
  py_format t kw = Ok s -> raises_only P (makexfile t args kw).
Proof.
  intros Hs. unfold makexfile.
  apply raises_only_bind; [exact (raises_makefile t args kw s Hs)|intros path]. raises_tac.
Qed.

(** [create] with parameters under which the three templates render. *)
Lemma raises_create (home : string) (params : gmap string pyval) conf ctl run :
  py_format zeo_conf_template params = Ok conf -> py_format zeoctl_template params = Ok ctl ->
  py_format runzeo_template params = Ok run -> raises_only P (create home params).
Proof.
  intros Hc Hl Hr. unfold create. do 5 (apply raises_only_bind; [auto with mkzeo|intros _]).
  apply raises_only_bind; [exact (raises_makefile _ _ _ _ Hc)|intros _].
  apply raises_only_bind; [exact (raises_makexfile _ _ _ _ Hl)|intros _].
  apply raises_only_bind; [exact (raises_makexfile _ _ _ _ Hr)|intros _]. auto with mkzeo.
Qed.
End Raises.

(** *** The mode of a new script *)

(** C15: A new script in an existing directory ends with the permission
    bits [0o777 & ~umask] whatever the umask: [makexfile] writes it,
    and prints [Changed mode for <path> to <octal>] exactly when the
    umask leaves one of the execute bits [0o111] unmasked, that is, when
    [0o666 & ~umask] differs from [0o777 & ~umask]. *)
Theorem makexfile_new_script (t : string) (kw : gmap string pyval) (data : string)
  (hcs ds : list string) (fname : string) (w : world) md :
  world_wf w -> Forall (fun c => name_ok c = true) (hcs ++ ds ++ [fname]) ->
  w_fs w !! (hcs ++ ds) = Some (NDir md) -> w_fs w !! (hcs ++ ds ++ [fname]) = None ->
  py_format t kw = Ok data ->
  let loc := hcs ++ ds ++ [fname] in
  makexfile t (path_of hcs :: ds ++ [fname]) kw w =
  (mkWorld (<[loc := NFile data (dir_create_mode (w_umask w))]> (w_fs w)) (w_cwd w) (w_umask w)
     (w_out w ++ [("Wrote file " ++ path_of loc)%string] ++
      if (Z.land (w_umask w) 73 =? 73)%Z then []
      else [("Changed mode for " ++ path_of loc ++ " to " ++ oct_of_Z (dir_create_mode (w_umask w)))%string]),
   Ok (path_of loc)).
Proof.
  intros Hw Hall Hd Hn Hfmt loc.
  rewrite (makexfile_refines t kw data hcs ds fname w Hw Hall
             (no_file_on_dir _ _ _ (proj1 Hw) Hd) Hfmt).
  rewrite (mkdirs_post_present w _ _ Hw Hd).
  pose proof (create_modes_differ (w_umask w) (proj2 (proj2 Hw))) as Hm.
  destruct (Z.land (w_umask w) 73 =? 73)%Z.
  - rewrite (makexfile_post_new_same _ _ _ (w_umask w) Hn eq_refl (proj1 (Z.eqb_eq _ _) Hm)).
    reflexivity.
  - rewrite (makexfile_post_new _ _ _ (w_umask w) Hn eq_refl (proj1 (Z.eqb_neq _ _) Hm)).
    unfold put, add_out, set_fs. cbn. now rewrite <- app_assoc.
Qed.

(** ** Witnesses: the theorems at concrete instances *)

Ltac concrete :=
  lazymatch goal with
  | |- world_wf _ => apply world_wfb_sound; vm_compute; reflexivity
  | |- no_file_on _ _ => apply no_file_onb_sound; vm_compute; reflexivity
  | |- home_dirs_ok _ _ => repeat split; apply no_file_onb_sound; vm_compute; reflexivity
  | |- Forall _ _ => repeat constructor
  | |- stable_text _ => split; [vm_compute; reflexivity | vm_compute; discriminate]
  | |- _ <> _ => vm_compute; discriminate
  | |- _ => vm_compute; reflexivity
  end.

Lemma create_spec_witness :
  create (path_of ["tmp"; "inst"]) demo_params tmp_world =
  create_post tmp_world ["tmp"; "inst"] (rendered zeo_conf_template)
    (rendered zeoctl_template) (rendered runzeo_template).
Proof.
  apply create_spec; concrete.
Defined.

Lemma create_fresh_witness :
  create (path_of (["tmp"] ++ ["inst"])) demo_params tmp_world =
  (fresh_world (["tmp"] ++ ["inst"]) (rendered zeo_conf_template)
     (rendered zeoctl_template) (rendered runzeo_template) tmp_world, Ok tt).
Proof. apply (create_fresh _ _ _ _ _ _ _ 1023%Z); concrete. Defined.

Lemma create_idempotent_witness :
  let w1 := fresh_world (["tmp"] ++ ["inst"]) (rendered zeo_conf_template)
              (rendered zeoctl_template) (rendered runzeo_template) tmp_world in
  create (path_of (["tmp"] ++ ["inst"])) demo_params w1 = (w1, Ok tt).
Proof. apply (create_idempotent _ _ _ _ _ _ _ 1023%Z); concrete. Defined.

Lemma makefile_conflict_witness :
  let w := conf_world "old text" in
  makefile zeo_conf_template (path_of ["tmp"; "inst"] :: ["etc"] ++ ["zeo.conf"]) demo_params w =
  (add_out w ("Warning: not overwriting existing file "
                ++ py_repr (path_of (["tmp"; "inst"] ++ ["etc"] ++ ["zeo.conf"])))%string,
   Ok (path_of (["tmp"; "inst"] ++ ["etc"] ++ ["zeo.conf"]))).
Proof.
  apply (makefile_conflict _ _ (rendered zeo_conf_template) _ _ _ _ "old text" 420%Z); concrete.
Defined.

Lemma makefile_same_witness :
  let w := conf_world (rendered zeo_conf_template) in
  makefile zeo_conf_template (path_of ["tmp"; "inst"] :: ["etc"] ++ ["zeo.conf"]) demo_params w =
  (w, Ok (path_of (["tmp"; "inst"] ++ ["etc"] ++ ["zeo.conf"]))).
Proof.
  apply (makefile_same _ _ (rendered zeo_conf_template) _ _ _ _ (rendered zeo_conf_template) 420%Z);
    concrete.
Defined.

Lemma mkdirs_spec_witness :
  mkdirs (path_of ["tmp"; "inst"; "etc"]) tmp_world =
  (mkdirs_post tmp_world ["tmp"; "inst"; "etc"], Ok tt).
Proof. apply mkdirs_spec; concrete. Defined.

Lemma makefile_spec_witness :
  makefile zeo_conf_template (path_of ["tmp"; "inst"] :: ["etc"] ++ ["zeo.conf"]) demo_params tmp_world =
  makefile_post (mkdirs_post tmp_world (["tmp"; "inst"] ++ ["etc"]))
    (["tmp"; "inst"] ++ ["etc"] ++ ["zeo.conf"]) (rendered zeo_conf_template).
Proof. apply makefile_spec; concrete. Defined.

Lemma makexfile_spec_witness :
  makexfile zeoctl_template (path_of ["tmp"; "inst"] :: ["bin"] ++ ["zeoctl"]) demo_params tmp_world =
  makexfile_post (mkdirs_post tmp_world (["tmp"; "inst"] ++ ["bin"]))
    (["tmp"; "inst"] ++ ["bin"] ++ ["zeoctl"]) (rendered zeoctl_template).
Proof. apply makexfile_spec; concrete. Defined.

Lemma makexfile_new_script_witness :
  let w := conf_world "" in
  let loc := ["tmp"; "inst"] ++ ["bin"] ++ ["zeoctl"] in
  makexfile zeoctl_template (path_of ["tmp"; "inst"] :: ["bin"] ++ ["zeoctl"]) demo_params
    (put w (["tmp"; "inst"] ++ ["bin"]) (NDir 493%Z) "") =
  (mkWorld (<[loc := NFile (rendered zeoctl_template) (dir_create_mode 18%Z)]>
              (<[["tmp"; "inst"] ++ ["bin"] := NDir 493%Z]> (w_fs w))) [] 18%Z
     ([""] ++ [("Wrote file " ++ path_of loc)%string] ++
      [("Changed mode for " ++ path_of loc ++ " to " ++ oct_of_Z (dir_create_mode 18%Z))%string]),
   Ok (path_of loc)).
Proof.
  exact (makexfile_new_script zeoctl_template demo_params (rendered zeoctl_template)
           ["tmp"; "inst"] ["bin"] "zeoctl" (put (conf_world "") (["tmp"; "inst"] ++ ["bin"])
           (NDir 493%Z) "") 493%Z ltac:(concrete) ltac:(concrete) ltac:(vm_compute; reflexivity)
           ltac:(vm_compute; reflexivity) ltac:(vm_compute; reflexivity)).
Defined.

Lemma create_under_file_witness :
  let w := mkWorld (<[["tmp"; "inst"] := NFile "x" 420%Z]> (w_fs tmp_world)) [] 18%Z [] in
  create (path_of (["tmp"; "inst"] ++ ["sub"])) demo_params w =
  (w, Raise (OSError EEXIST (path_of ["tmp"; "inst"]))).
Proof.
  exact (create_under_file ["tmp"; "inst"] ["sub"] demo_params
           (mkWorld (<[["tmp"; "inst"] := NFile "x" 420%Z]> (w_fs tmp_world)) [] 18%Z [])
           "x" 420%Z ltac:(concrete) ltac:(concrete) ltac:(discriminate) eq_refl).
Defined.

Lemma mkdirs_trailing_slash_witness :
  mkdirs (path_of (["a"] ++ ["b"]) ++ "/") root_world =
    (root_world, Raise (OSError ENOENT (path_of (["a"] ++ ["b"]) ++ "/"))) /\
  mkdirs (path_of (["a"] ++ ["b"])) root_world = (mkdirs_post root_world (["a"] ++ ["b"]), Ok tt).
Proof.
  exact (mkdirs_trailing_slash ["a"] "b" root_world ltac:(concrete) ltac:(concrete)
           ltac:(concrete) eq_refl).
Defined.

Lemma create_frame_witness :
  w_fs (fst (create (path_of ["tmp"; "inst"]) demo_params tmp_world)) !! ["tmp"; "other"] =
  w_fs tmp_world !! ["tmp"; "other"].
Proof.
  exact (create_frame ["tmp"; "inst"] demo_params tmp_world ["tmp"; "other"] ltac:(concrete)
           ltac:(apply (bool_decide_unpack _); vm_compute; exact I)
           ltac:(apply (bool_decide_unpack _); vm_compute; exact I)).
Defined.
