(* ===== verification/Builder.v ===== *)
(** * The command line: [getopt], the parameter resolution of [run], [main]

    [ZEOInstanceBuilder.run] (lines 150-196) and [main] (lines 144-146):
    the options are parsed by [getopt.getopt(sys.argv[1:], "h", ["help"])],
    the home is made absolute, the ZODB directory is looked up along
    [sys.path], the [[host:]port] argument becomes the address, and
    [create] builds the instance.  What the process reads but does not
    change ([sys.argv], [sys.path], [sys.executable], [zdaemon.__path__])
    is the record [env]; [getopt] is modelled after the standard
    library's [getopt] module, specialised to the options of [run].
    The file ends with the theorems about the whole program: each
    outcome of [main], the texts no run overwrites
    ([main_keeps_files]) and the ways every run ends ([main_outcomes]). *)

From Stdlib Require Import ZArith String Ascii List Lia.
From stdpp Require Import base gmap strings list.
From S2P Require Import Prelude PyStr PyFormat PosixPath FileSys Templates Materializer.

Local Open Scope string_scope.
Local Open Scope py_scope.

Record env := mkEnv {
  argv : list string;            (** [sys.argv] *)
  sys_path : list string;        (** [sys.path] *)
  executable : string;           (** [sys.executable] *)
  zdaemon_path : string          (** [zdaemon.__path__[0]] *)
}.

(** ** [getopt.getopt(args, "h", ["help"])] *)

Definition starts_with (pre s : string) : bool := String.prefix pre s.

(** [do_longs] with the long options [["help"]]: [--name] or
    [--name=value], [name] a prefix of [help]. *)
Definition do_long (opt : string) : res (string * string) :=
  let '(name, optarg) :=
    match split_once "=" opt with
    | Some (n, a) => (n, Some a)
    | None => (opt, None)
    end in
  if negb (starts_with name "help") then
    Raise (GetoptError ("option --" ++ name ++ " not recognized") name)
  else match optarg with
       | Some _ => Raise (GetoptError "option --help must not have an argument" "help")
       | None => Ok ("--help", "")
       end.

(** [do_shorts] with the short options ["h"]: every letter must be [h]. *)
Fixpoint do_shorts (optstring : string) : res (list (string * string)) :=
  match optstring with
  | EmptyString => Ok []
  | String c rest =>
      if Ascii.eqb c "h" then res_map (cons ("-h", "")) (do_shorts rest)
      else Raise (GetoptError ("option -" ++ str1 c ++ " not recognized") (str1 c))
  end.

(** The loop of [getopt.getopt]: options until the first argument that
    does not start with a dash, a lone dash, or after [--]. *)
Fixpoint getopt_h (args : list string) : res (list (string * string) * list string) :=
  match args with
  | a :: rest =>
      if starts_with "-" a && negb (a =? "-") then
        if a =? "--" then Ok ([], rest)
        else
          let r := if starts_with "--" a
                   then res_map (fun o => [o]) (do_long (substring 2 (String.length a - 2)%nat a))
                   else do_shorts (substring 1 (String.length a - 1)%nat a) in
          match r with
          | Raise e => Raise e
          | Ok os =>
              match getopt_h rest with
              | Ok (os', rest') => Ok ((os ++ os')%list, rest')
              | Raise e => Raise e
              end
          end
      else Ok ([], args)
  | [] => Ok ([], [])
  end.

(** ** The address: [[host:]port] (lines 181-192)

    [host] is dropped when it is empty (the test is [if host:]), the
    port goes through [int], so [address] is the integer port alone or
    the text [host:port] with the port printed back by [str]. *)
Definition parse_address (arg : option string) : res pyval :=
  match arg with
  | None => Ok (PInt 9999%Z)
  | Some addr_string =>
      let '(host, port_s) :=
        if contains_char ":" addr_string then
          match split_once ":" addr_string with
          | Some (h, p) => (Some h, p)
          | None => (None, addr_string)
          end
        else (None, addr_string) in
      match py_int port_s with
      | None => Raise (ValueError ("invalid literal for int() with base 10: " ++ py_repr port_s))
      | Some port =>
          match host with
          | Some h => if h =? "" then Ok (PInt port) else Ok (PStr (h ++ ":" ++ str_of_Z port))
          | None => Ok (PInt port)
          end
      end
  end.

(** [for entry in sys.path: if os.path.exists(os.path.join(entry, 'ZODB'))]
    (lines 170-174): the first entry that has a [ZODB] directory. *)
Fixpoint find_zodb (entries : list string) : PyM world (option string) :=
  match entries with
  | [] => ret None
  | e :: es =>
      ex <- os_path_exists (path_join e "ZODB") ;;
      if ex then ret (Some e) else find_zodb es
  end.

(** [ZEOInstanceBuilder.run] (lines 150-196). *)
Definition run (e : env) : PyM world unit :=
  match getopt_h (tl (argv e)) with
  | Raise (GetoptError msg opt) =>
      print_ (PObj "GetoptError" msg) [] ∅ ;;
      raise (SystemExit (Some 2%Z))
  | Raise ex => raise ex
  | Ok (opts, args) =>
      let program := basename (hd "" (argv e)) in
      match opts with
      | _ :: _ =>
          doc <- lift_res (py_format doc_template (<["program" := PStr program]> ∅)) ;;
          print_ (PStr doc) [] ∅ ;;
          raise (SystemExit None)
      | [] =>
          if negb ((length args =? 1)%nat || (length args =? 2)%nat) then
            print_ (PStr "Usage: %s home [[host:]port]") [PStr program] ∅ ;;
            raise (SystemExit (Some 2%Z))
          else
            let home0 := hd "" args in
            home <- (if isabs home0 then ret home0
                     else cwd <- os_getcwd ;; ret (abspath cwd home0)) ;;
            zodb <- find_zodb (sys_path e) ;;
            match zodb with
            | None =>
                print_ (PStr "Can't find ZODB software (not in sys.path)") [] ∅ ;;
                raise (SystemExit (Some 2%Z))
            | Some zodb3_home =>
                let zdaemon_home := fst (path_split (zdaemon_path e)) in
                address <- lift_res (parse_address (nth_error args 1)) ;;
                create home (get_params zodb3_home zdaemon_home home address (executable e))
            end
      end
  end.

(** [main()] (lines 144-146). *)
Definition main (e : env) : PyM world unit :=
  run e ;;
  print_ (PStr "All done.") [] ∅.

(** The exit status of the process: [0] when [main] returns,
    [sys.exit()]'s argument when it raises [SystemExit], [1] for any
    other exception, which Python reports with a traceback. *)
Definition exit_code (r : res unit) : Z :=
  match r with
  | Ok _ => 0%Z
  | Raise (SystemExit None) => 0%Z
  | Raise (SystemExit (Some n)) => n
  | Raise _ => 1%Z
  end.

(** The exceptions that can end the program: an [OSError] of the file
    system, the [ValueError] of [int()], the [AttributeError] of
    [print_] on an exception object, and [sys.exit] with no argument
    or with [2]. *)
Definition escaping_exn (ex : exn) : Prop :=
  match ex with
  | OSError _ _ | ValueError _ | AttributeError _ => True
  | SystemExit o => o = None \/ o = Some 2%Z
  | _ => False
  end.

(** The home after line 168: absolute as given, or joined to the
    working directory and normalised. *)
Definition home_of (w : world) (h : string) : string :=
  if isabs h then h else abspath ("/" ++ join_with "/" (w_cwd w)) h.

(** ** A concrete installation

    The program run as [mkzeoinstance /tmp/inst 127.0.0.1:8100] on a
    system with [/tmp] and a [ZODB] package in
    [/usr/lib/python3/site-packages], under the umask [0o022]. *)
Definition site : list string := ["usr"; "lib"; "python3"; "site-packages"].

Definition demo_env (addr : string) : env :=
  mkEnv ["/usr/bin/mkzeoinstance"; "/tmp/inst"; addr] ["/usr/lib/python3/site-packages"]
    "/usr/bin/python3" "/usr/lib/python3/site-packages/zdaemon".

(** The same system with other command lines. *)
Definition cli_env (args : list string) : env :=
  mkEnv ("/usr/bin/mkzeoinstance" :: args) ["/usr/lib/python3/site-packages"]
    "/usr/bin/python3" "/usr/lib/python3/site-packages/zdaemon".

Definition demo_world : world :=
  mkWorld
    (<[(site ++ ["ZODB"])%list := NDir 493%Z]> (<[site := NDir 493%Z]>
    (<[["usr"; "lib"; "python3"] := NDir 493%Z]> (<[["usr"; "lib"] := NDir 493%Z]>
    (<[["usr"] := NDir 493%Z]> (<[["tmp"] := NDir 1023%Z]> (<[[] := NDir 493%Z]> ∅)))))))
    [] 18%Z [].

(** The same system where [/tmp/inst/etc/zeo.conf] already holds a
    text of its own. *)
Definition kept_world : world :=
  mkWorld (<[["tmp"; "inst"; "etc"; "zeo.conf"] := NFile "address 8000" 384%Z]>
          (<[["tmp"; "inst"; "etc"] := NDir 493%Z]>
          (<[["tmp"; "inst"] := NDir 493%Z]> (w_fs demo_world)))) [] 18%Z [].

(** ** Lemmas *)

(** *** The address *)

Lemma colon_code : (N_of_ascii ":" = 58)%N.
Proof. reflexivity. Qed.

Lemma contains_char_sep (c : ascii) (h t : string) :
  contains_char c (h ++ str1 c ++ t) = true.
Proof.
  rewrite contains_char_app. apply orb_true_iff. right.
  unfold str1. rewrite append_cons. cbn [contains_char]. now rewrite Ascii.eqb_refl.
Qed.

(** C33: A bare decimal port gives the integer address, for every integer:
    [int(port)] checks no range, so a negative port or one above 65535 is
    accepted and handed to the configuration. *)
Theorem parse_address_port (z : Z) :
  parse_address (Some (str_of_Z z)) = Ok (PInt z).
Proof.
  unfold parse_address. rewrite str_of_Z_no_char by (rewrite colon_code; lia).
  now rewrite py_int_of_str.
Qed.

(** C32: [host:port] with a non-empty host without a colon gives the address
    text [host:port], the port printed back by [str(int(port))]. *)
Theorem parse_address_host_port (h : string) (z : Z) :
  h <> "" -> contains_char ":" h = false ->
  parse_address (Some (h ++ ":" ++ str_of_Z z)) = Ok (PStr (h ++ ":" ++ str_of_Z z)).
Proof.
  intros Hne Hh. unfold parse_address.
  change (h ++ ":" ++ str_of_Z z) with (h ++ str1 ":" ++ str_of_Z z).
  rewrite contains_char_sep, split_once_sep by exact Hh. rewrite py_int_of_str.
  apply String.eqb_neq in Hne. now rewrite Hne.
Qed.

(** C34: [:port] drops the empty host: the address is the integer port
    alone. *)
Theorem parse_address_empty_host (z : Z) :
  parse_address (Some (":" ++ str_of_Z z)) = Ok (PInt z).
Proof.
  unfold parse_address.
  change (":" ++ str_of_Z z) with ("" ++ str1 ":" ++ str_of_Z z).
  rewrite contains_char_sep, split_once_sep by reflexivity.
  now rewrite py_int_of_str.
Qed.

(** A port text that [int()] rejects, bare or after a host without a
    colon, makes the parse raise [ValueError] naming that text. *)
Lemma parse_address_bad_port (a p : string) :
  ((a = p /\ contains_char ":" p = false) \/
   (exists h, contains_char ":" h = false /\ a = h ++ ":" ++ p)) ->
  py_int p = None ->
  parse_address (Some a) = Raise (ValueError ("invalid literal for int() with base 10: " ++ py_repr p)).
Proof.
  intros [[-> Hp] | (h & Hh & ->)] Hi; unfold parse_address.
  - rewrite Hp, Hi. reflexivity.
  - change (h ++ ":" ++ p) with (h ++ str1 ":" ++ p).
    rewrite contains_char_sep, split_once_sep by exact Hh. now rewrite Hi.
Qed.

(** *** Messages and the search for ZODB *)

Lemma print_plain (s : string) (w : world) :
  print_ (PStr s) [] ∅ w = (add_out w s, Ok tt).
Proof. unfold print_, bind. cbn. now rewrite bool_decide_true. Qed.

(** Printing an exception object: Python 3 has no [.decode] on it. *)
Lemma print_object (cls msg : string) (w : world) :
  print_ (PObj cls msg) [] ∅ w = (w, Raise (AttributeError "object has no attribute 'decode'")).
Proof. unfold print_, bind. cbn. now rewrite bool_decide_true. Qed.

Definition no_zodb_at (w : world) (entry : string) : Prop :=
  exists err, stat w (path_join entry "ZODB") = inl err.

Lemma find_zodb_none (es : list string) (w : world) :
  Forall (no_zodb_at w) es -> find_zodb es w = (w, Ok None).
Proof.
  induction 1 as [|en es [err Herr] _ IH]; [reflexivity|].
  cbn [find_zodb]. unfold bind, os_path_exists. now rewrite Herr.
Qed.

(** The first entry of [sys.path] with a [ZODB] is the one chosen. *)
Lemma find_zodb_first (pre post : list string) (z : string) (n : node) (w : world) :
  Forall (no_zodb_at w) pre -> stat w (path_join z "ZODB") = inr n ->
  find_zodb (pre ++ z :: post) w = (w, Ok (Some z)).
Proof.
  induction 1 as [|en es [err Herr] _ IH]; intros Hz.
  - cbn [find_zodb app]. unfold bind, os_path_exists. now rewrite Hz.
  - cbn [find_zodb app]. unfold bind, os_path_exists. rewrite Herr. now apply IH.
Qed.

(** Whether [os.path.exists(os.path.join(entry, 'ZODB'))]. *)
Definition has_zodb (w : world) (entry : string) : bool :=
  match stat w (path_join entry "ZODB") with inr _ => true | inl _ => false end.

(** C23: The [sys.path] loop of [run] (lines 170-174) is [List.find] of
    the entries that have a [ZODB]: it stops at the first one ([break])
    and changes nothing. *)
Theorem find_zodb_find (es : list string) (w : world) :
  find_zodb es w = (w, Ok (List.find (has_zodb w) es)).
Proof.
  induction es as [|en es IH]; [reflexivity|]. cbn [find_zodb List.find].
  unfold bind, os_path_exists, has_zodb. now destruct (stat w (path_join en "ZODB")).
Qed.

Lemma keeps_find_zodb (es : list string) : keeps (find_zodb es).
Proof. induction es as [|en es IH]; cbn [find_zodb]; keeps_tac. Qed.

#[export] Hint Resolve keeps_find_zodb : mkzeo.

(** Arguments that do not start with a dash are no options. *)
Lemma getopt_plain (args : list string) :
  match args with [] => True | a :: _ => starts_with "-" a = false end ->
  getopt_h args = Ok ([], args).
Proof. destruct args as [|a rest]; [reflexivity|]. cbn [getopt_h]. now intros ->. Qed.

Lemma home_step (h : string) (w : world) :
  (if isabs h then ret h else cwd <- os_getcwd ;; ret (abspath cwd h)) w = (w, Ok (home_of w h)).
Proof. unfold home_of. destruct (isabs h); reflexivity. Qed.

Lemma arg_count_ok (h : string) (rest : list string) :
  (length rest <= 1)%nat ->
  ((length (h :: rest) =? 1)%nat || (length (h :: rest) =? 2)%nat) = true.
Proof. destruct rest as [|? [|? ?]]; simpl; [reflexivity|reflexivity|lia]. Qed.

Lemma fmt_usage (p : string) :
  py_format "Usage: %s home [[host:]port]" [PStr p] = Ok ("Usage: " ++ p ++ " home [[host:]port]").
Proof. vm_compute. reflexivity. Qed.

Lemma print_usage (p : string) (w : world) :
  print_ (PStr "Usage: %s home [[host:]port]") [PStr p] ∅ w =
  (add_out w ("Usage: " ++ p ++ " home [[host:]port]"), Ok tt).
Proof. apply print_ok; [discriminate|apply fmt_usage]. Qed.

(** *** The type of the address *)

(** C24: The address [run] passes on is an [int] or a [str] of the form
    [host:port] with a non-empty host and the port printed back by
    [str]; it is never another object, so [%(address)s] renders it. *)
Theorem parse_address_type (arg : option string) (a : pyval) :
  parse_address arg = Ok a ->
  match a with
  | PInt _ => True
  | PStr s => exists h z, h <> "" /\ s = h ++ ":" ++ str_of_Z z
  | PObj _ _ => False
  end.
Proof.
  unfold parse_address. destruct arg as [addr|]; [|now intros [= <-]].
  destruct (if contains_char ":" addr then _ else _) as [[h|] p].
  - destruct (py_int p) as [z|]; [|discriminate].
    destruct (h =? "") eqn:Hh; intros [= <-]; [exact I|].
    exists h, z. split; [now apply String.eqb_neq|reflexivity].
  - destruct (py_int p); [now intros [= <-] | discriminate].
Qed.

(** *** [--help] and its abbreviations *)

Lemma help_prefixes (p : string) :
  p <> "" -> String.prefix p "help" = true ->
  p = "h" \/ p = "he" \/ p = "hel" \/ p = "help".
Proof.
  intros Hne Hp.
  destruct p as [|c1 [|c2 [|c3 [|c4 [|c5 p]]]]]; [congruence| | | | |];
    cbn in Hp; repeat (destruct (Ascii.ascii_dec _ _) in Hp; [subst|discriminate]);
    auto; discriminate.
Qed.

(** C28: [getopt] accepts every abbreviation of [--help]: [--h],
    [--he], [--hel] and [--help] are the option [--help], and the
    arguments after it are parsed on. *)
Theorem getopt_help_prefix (p : string) (rest : list string) :
  p <> "" -> String.prefix p "help" = true ->
  getopt_h (("--" ++ p) :: rest) =
  match getopt_h rest with
  | Ok (os, r) => Ok ((("--help", "") :: os)%list, r)
  | Raise e => Raise e
  end.
Proof.
  intros Hne Hp.
  destruct (help_prefixes p Hne Hp) as [-> | [-> | [-> | ->]]];
    cbn; destruct (getopt_h rest) as [[os r]|e]; reflexivity.
Qed.

(** C26: The home [run] passes to [create] is absolute, whatever the
    argument and the working directory. *)
Theorem home_of_isabs (w : world) (h : string) : isabs (home_of w h) = true.
Proof.
  unfold home_of, abspath. destruct (isabs h) eqn:Hh; [exact Hh|].
  apply normpath_isabs. now apply path_join_isabs.
Qed.

(** C25: A relative home is made absolute against the working
    directory: for a clean working directory and a relative path of
    clean names, [os.path.abspath] gives the working directory's path
    followed by those names. *)
Theorem home_of_relative (w : world) (d : string) (ds : list string) :
  Forall (fun c => name_ok c = true) (w_cwd w) -> Forall (fun c => name_ok c = true) (d :: ds) ->
  home_of w (join_with "/" (d :: ds)) = path_of (w_cwd w ++ d :: ds).
Proof.
  intros Hc Hds. unfold home_of. rewrite isabs_join_names by exact Hds.
  exact (abspath_rel (w_cwd w) d ds Hc Hds).
Qed.

(** C27: An empty instance home, [mkzeoinstance ""], names the working
    directory itself: [os.path.abspath("")] joins an empty name to the
    working directory and [normpath] drops the trailing slash, so the
    instance is built in place. *)
Theorem home_of_empty (w : world) :
  Forall (fun c => name_ok c = true) (w_cwd w) -> home_of w "" = path_of (w_cwd w).
Proof.
  intros Hc. unfold home_of, abspath, path_join. cbn [isabs starts_with_char].
  change ("/" ++ join_with "/" (w_cwd w)) with (path_of (w_cwd w)).
  destruct (w_cwd w) as [|c cs] eqn:Ecwd; [reflexivity|].
  rewrite path_of_ends by (discriminate || exact Hc).
  replace (path_of (c :: cs) =? "") with false by reflexivity. cbn [orb].
  exact (normpath_path_of_slash (c :: cs) ltac:(discriminate) Hc).
Qed.

(** ** The ways the program ends *)

Lemma do_long_raise (o : string) ex : do_long o = Raise ex -> exists m n, ex = GetoptError m n.
Proof. unfold do_long. repeat case_match; intros; simplify_eq; eauto. Qed.

Lemma do_shorts_raise (o : string) ex : do_shorts o = Raise ex -> exists m n, ex = GetoptError m n.
Proof.
  induction o as [|c o IH]; cbn [do_shorts]; [discriminate|].
  destruct (Ascii.eqb c "h"); [|intros; simplify_eq; eauto].
  destruct (do_shorts o); [discriminate|]. intros [= ->]. now apply IH.
Qed.

(** [getopt] raises nothing but [GetoptError]. *)
Lemma getopt_h_raise (args : list string) ex :
  getopt_h args = Raise ex -> exists m n, ex = GetoptError m n.
Proof.
  induction args as [|a rest IH]; cbn [getopt_h]; [discriminate|].
  destruct (_ && _); [|discriminate]. destruct (a =? "--"); [discriminate|]. cbv zeta.
  destruct (starts_with "--" a).
  - destruct (do_long _) eqn:Hl; cbn [res_map].
    + destruct (getopt_h rest) as [[? ?]|?]; [discriminate|]. intros [= ->]. now apply IH.
    + intros [= ->]. now apply (do_long_raise _ _ Hl).
  - destruct (do_shorts _) eqn:Hs.
    + destruct (getopt_h rest) as [[? ?]|?]; [discriminate|]. intros [= ->]. now apply IH.
    + intros [= ->]. now apply (do_shorts_raise _ _ Hs).
Qed.

Lemma parse_address_raise (arg : option string) ex :
  parse_address arg = Raise ex -> exists m, ex = ValueError m.
Proof. unfold parse_address. repeat case_match; intros; simplify_eq; eauto. Qed.

Lemma raises_find_zodb (P : exn -> Prop) (es : list string) : raises_only P (find_zodb es).
Proof. intros w. now rewrite find_zodb_find. Qed.

Lemma raises_print_object (cls msg : string) : raises_only escaping_exn (print_ (PObj cls msg) [] ∅).
Proof. intros w. now rewrite print_object. Qed.

Lemma escaping_os (e : errno) (p : string) : escaping_exn (OSError e p).
Proof. exact I. Qed.

Lemma escaping_exit (o : option Z) : o = None \/ o = Some 2%Z -> escaping_exn (SystemExit o).
Proof. exact id. Qed.

Lemma raises_parse_address (arg : option string) :
  raises_only escaping_exn (lift_res (W := world) (parse_address arg)).
Proof.
  intros w. cbn. destruct (parse_address arg) eqn:H; [exact I|].
  now destruct (parse_address_raise _ _ H) as [m ->].
Qed.

Lemma raises_doc (p : string) :
  raises_only escaping_exn
    (lift_res (W := world) (py_format doc_template (<["program" := PStr p]> ∅))).
Proof. exact (raises_only_lift_ok _ _ _ (doc_format p)). Qed.

Lemma raises_usage (p : string) :
  raises_only escaping_exn (print_ (PStr "Usage: %s home [[host:]port]") [PStr p] ∅).
Proof. exact (raises_print_fmt _ _ _ [PStr p] ltac:(discriminate) (fmt_usage p)). Qed.

Lemma raises_create_params (home z zd h py : string) (a : pyval) :
  raises_only escaping_exn (create home (get_params z zd h a py)).
Proof.
  eapply (raises_create _ escaping_os); apply templates_format; tauto.
Qed.

#[local] Hint Resolve raises_find_zodb raises_print_object raises_print_plain escaping_os
  raises_only_raise escaping_exit raises_parse_address raises_doc raises_usage
  raises_create_params : mkzeo.

Lemma raises_run (e : env) : raises_only escaping_exn (run e).
Proof.
  unfold run. destruct (getopt_h (tl (argv e))) as [[opts args]|ex] eqn:Hg.
  - raises_tac; auto.
  - destruct (getopt_h_raise _ _ Hg) as (m & n & ->). raises_tac; auto.
Qed.

Lemma raises_main (e : env) : raises_only escaping_exn (main e).
Proof. unfold main. apply raises_only_bind; [apply raises_run|intros _; auto with mkzeo]. Qed.

(** C9: Every run of the program ends in one of the ways the module
    provides for or lets through: it returns, leaves by [sys.exit()] or
    [sys.exit(2)], or lets an [OSError] of the file system, the
    [ValueError] of [int()] or the [AttributeError] of [print_] escape;
    so its status is 0, 1 or 2.  No [%] format of the module raises
    [KeyError] or [TypeError], and [mkdirs] never runs out of depth. *)
Theorem main_outcomes (e : env) (w : world) :
  match snd (main e w) with Ok _ => True | Raise ex => escaping_exn ex end /\
  (exit_code (snd (main e w)) = 0 \/ exit_code (snd (main e w)) = 1 \/
   exit_code (snd (main e w)) = 2)%Z.
Proof.
  pose proof (raises_main e w) as H. split; [exact H|].
  destruct (snd (main e w)) as [u|ex]; [now left|].
  destruct ex as [o| | | | | | |]; cbn in H |- *; try contradiction; auto.
  destruct H as [-> | ->]; auto.
Qed.

(** ** Existing texts are never overwritten *)

Lemma keeps_main (e : env) : keeps (main e).
Proof. pose proof keeps_create. unfold main, run. keeps_tac. Qed.

(** C6: No run of the program changes the text of an existing file
    whose text, read back and stripped, is not empty: whatever the
    command line, the environment and the outcome, the file is still
    there with the same text, and only its mode may have changed (by
    the [chmod] of [makexfile]).  This is the promise of the module's
    docstring, "will not overwrite existing files", with the exception
    made by [makefile]'s [if olddata:] made exact: blank files are
    overwritten. *)
Theorem main_keeps_files (e : env) (w : world) (k : list string) (d : string) (m : Z) :
  w_fs w !! k = Some (NFile d m) -> strip (translate_newlines d) <> "" ->
  exists m', w_fs (fst (main e w)) !! k = Some (NFile d m').
Proof. intros Hk Hd. exact (keeps_main e w k d m Hk Hd). Qed.

(** ** The outcomes of [main] *)

Section Main.
Context (e : env) (w : world).

(** C16: Any [getopt] error makes [main] fail with [AttributeError], because
    [print_] calls [.decode] on the exception object under Python 3: the
    exit status is 1, with a traceback instead of the message and status 2. *)
Theorem main_getopt_error (m o : string) :
  getopt_h (tl (argv e)) = Raise (GetoptError m o) ->
  main e w = (w, Raise (AttributeError "object has no attribute 'decode'")) /\
  exit_code (snd (main e w)) = 1%Z.
Proof.
  intros Hg. enough (E : main e w = (w, Raise (AttributeError "object has no attribute 'decode'")))
    by (rewrite E; split; reflexivity).
  unfold main, run. rewrite Hg. cbv beta iota. rewrite !bind_assoc.
  step_raise (print_object "GetoptError" m w). reflexivity.
Qed.

(** C17: With [-h] or [--help], [main] prints the docstring formatted with
    the program's base name and leaves by [sys.exit()], status 0. *)
Theorem main_help (o : string * string) (opts : list (string * string)) (args : list string) :
  getopt_h (tl (argv e)) = Ok (o :: opts, args) ->
  main e w = (add_out w (help_text (basename (hd "" (argv e)))), Raise (SystemExit None)).
Proof.
  intros Hg. unfold main, run. rewrite Hg. cbv beta iota zeta. rewrite !bind_assoc.
  rewrite (bind_lift_ok _ _ _ _ (doc_format _)). rewrite bind_assoc.
  step_ok (print_plain _ _). reflexivity.
Qed.

(** C18: With a number of arguments other than one or two, [main] prints
    [Usage: <program> home [[host:]port]] and exits with status 2. *)
Theorem main_usage (args : list string) :
  getopt_h (tl (argv e)) = Ok ([], args) ->
  ((length args =? 1)%nat || (length args =? 2)%nat) = false ->
  main e w = (add_out w ("Usage: " ++ basename (hd "" (argv e)) ++ " home [[host:]port]"),
              Raise (SystemExit (Some 2%Z))).
Proof.
  intros Hg Hn. unfold main, run. rewrite Hg. cbv beta iota zeta. rewrite Hn. cbn [negb].
  rewrite !bind_assoc. step_ok (print_usage _ _). reflexivity.
Qed.

(** C19: When no [sys.path] entry contains [ZODB], [main] prints [Can't find
    ZODB software (not in sys.path)] and exits with status 2, creating
    nothing. *)
Theorem main_no_zodb (h : string) (rest : list string) :
  getopt_h (tl (argv e)) = Ok ([], h :: rest) -> (length rest <= 1)%nat ->
  Forall (no_zodb_at w) (sys_path e) ->
  main e w = (add_out w "Can't find ZODB software (not in sys.path)", Raise (SystemExit (Some 2%Z))).
Proof.
  intros Hg Hl Hz. unfold main, run. rewrite Hg. cbv beta iota zeta.
  rewrite (arg_count_ok h rest Hl). cbn [negb hd]. rewrite !bind_assoc. step_ok (home_step h w).
  rewrite !bind_assoc. step_ok (find_zodb_none _ _ Hz).
  rewrite !bind_assoc. step_ok (print_plain _ _). reflexivity.
Qed.

(** [run] up to the address: the home resolved, [ZODB] found, then the
    parse of the address and [create]. *)
Lemma run_resolved (h : string) (rest pre post : list string) (z : string) (n : node) :
  getopt_h (tl (argv e)) = Ok ([], h :: rest) -> (length rest <= 1)%nat ->
  sys_path e = (pre ++ z :: post)%list -> Forall (no_zodb_at w) pre ->
  stat w (path_join z "ZODB") = inr n ->
  run e w = (address <- lift_res (parse_address (nth_error (h :: rest) 1)) ;;
             create (home_of w h)
               (get_params z (fst (path_split (zdaemon_path e))) (home_of w h) address
                  (executable e))) w.
Proof.
  intros Hg Hl Hs Hpre Hz. unfold run. rewrite Hg. cbv beta iota zeta.
  rewrite (arg_count_ok h rest Hl). cbn [negb hd]. step_ok (home_step h w). rewrite Hs.
  step_ok (find_zodb_first _ post _ _ _ Hpre Hz). reflexivity.
Qed.

(** [run] unfolded to [create] on its resolved parameters. *)
Lemma run_refines (h : string) (rest pre post : list string) (z : string) (n : node) (a : pyval) :
  getopt_h (tl (argv e)) = Ok ([], h :: rest) -> (length rest <= 1)%nat ->
  sys_path e = (pre ++ z :: post)%list -> Forall (no_zodb_at w) pre ->
  stat w (path_join z "ZODB") = inr n ->
  parse_address (nth_error (h :: rest) 1) = Ok a ->
  run e w = create (home_of w h)
              (get_params z (fst (path_split (zdaemon_path e))) (home_of w h) a (executable e)) w.
Proof.
  intros Hg Hl Hs Hpre Hz Ha. rewrite (run_resolved h rest pre post z n Hg Hl Hs Hpre Hz).
  now rewrite (bind_lift_ok _ _ _ _ Ha).
Qed.

(** C2: With no option, one or two arguments and a [ZODB] directory on
    [sys.path], [run] is [create] on the absolute home, with [get_params]
    built from the first [sys.path] entry holding [ZODB], the parent of
    [zdaemon]'s package directory and the parsed address. *)
Theorem run_create (h : string) (rest pre post : list string) (z : string) (n : node) (a : pyval) :
  getopt_h (tl (argv e)) = Ok ([], h :: rest) -> (length rest <= 1)%nat ->
  sys_path e = (pre ++ z :: post)%list -> Forall (no_zodb_at w) pre ->
  stat w (path_join z "ZODB") = inr n ->
  parse_address (nth_error (h :: rest) 1) = Ok a ->
  run e w = create (home_of w h)
              (get_params z (fst (path_split (zdaemon_path e))) (home_of w h) a (executable e)) w.
Proof. apply run_refines. Qed.

(** C3: The whole program on a fresh home: given an absolute clean
    home below an existing directory, no option, at most one address
    argument that parses and a [ZODB] on [sys.path], [main] builds the
    fresh instance of [create_fresh] with the three rendered templates
    and then prints [All done.]; it returns normally (status 0). *)
Theorem main_fresh (pcs : list string) (hn : string) (rest pre post : list string) (z : string)
  (n : node) (a : pyval) md :
  world_wf w -> Forall (fun c => name_ok c = true) (pcs ++ [hn])%list ->
  w_fs w !! pcs = Some (NDir md) -> w_fs w !! (pcs ++ [hn])%list = None ->
  file_create_mode (w_umask w) <> dir_create_mode (w_umask w) ->
  getopt_h (tl (argv e)) = Ok ([], path_of (pcs ++ [hn])%list :: rest) -> (length rest <= 1)%nat ->
  sys_path e = (pre ++ z :: post)%list -> Forall (no_zodb_at w) pre ->
  stat w (path_join z "ZODB") = inr n ->
  parse_address (nth_error (path_of (pcs ++ [hn])%list :: rest) 1) = Ok a ->
  let params := get_params z (fst (path_split (zdaemon_path e))) (path_of (pcs ++ [hn])%list) a
                  (executable e) in
  let render t := expand params (fst (parse_fmt PText t)) in
  main e w =
  (add_out (fresh_world (pcs ++ [hn])%list (render zeo_conf_template) (render zeoctl_template)
              (render runzeo_template) w) "All done.", Ok tt).
Proof.
  intros Hw Hn Hp Hh Hm Hg Hl Hs Hpre Hz Ha params render.
  assert (Hrun : run e w = (fresh_world (pcs ++ [hn])%list (render zeo_conf_template)
                   (render zeoctl_template) (render runzeo_template) w, Ok tt)).
  { rewrite (run_refines _ rest pre post z n a Hg Hl Hs Hpre Hz Ha).
    change (home_of w (path_of (pcs ++ [hn])%list)) with (path_of (pcs ++ [hn])%list).
    apply (create_fresh_eq pcs hn _ _ _ _ w md); try assumption;
      apply templates_format; tauto. }
  unfold main. step_ok Hrun. apply print_plain.
Qed.

(** C20: A port that [int()] rejects, given bare or after a host, makes
    [main] fail with [ValueError] naming the port text: the home is
    resolved and [ZODB] found, but nothing is created or printed, and the
    process ends with a traceback, status 1. *)
Theorem main_bad_port (h a p : string) (pre post : list string) (z : string) (n : node) :
  getopt_h (tl (argv e)) = Ok ([], [h; a]) ->
  sys_path e = (pre ++ z :: post)%list -> Forall (no_zodb_at w) pre ->
  stat w (path_join z "ZODB") = inr n ->
  ((a = p /\ contains_char ":" p = false) \/
   (exists host, contains_char ":" host = false /\ a = host ++ ":" ++ p)) ->
  py_int p = None ->
  main e w = (w, Raise (ValueError ("invalid literal for int() with base 10: " ++ py_repr p))) /\
  exit_code (snd (main e w)) = 1%Z.
Proof.
  intros Hg Hs Hpre Hz Ha Hi.
  assert (Hrun : run e w = (w, Raise (ValueError ("invalid literal for int() with base 10: "
                                                  ++ py_repr p)))).
  { rewrite (run_resolved h [a] pre post z n Hg ltac:(simpl; lia) Hs Hpre Hz).
    cbn [nth_error]. now rewrite (parse_address_bad_port a p Ha Hi). }
  unfold main. rewrite (bind_raise _ _ _ _ _ Hrun). split; reflexivity.
Qed.

End Main.

(** ** The concrete installation *)

(** [mkzeoinstance /tmp/inst 127.0.0.1:8100] on a concrete system exits
    with status 0, prints the ten instance lines and [All done.], writes the
    [zeo.conf] text [test_zeo_conf_content] expects with mode [0o644], and
    the scripts with [0o755]. *)
Example main_demo :
  let r := main (demo_env "127.0.0.1:8100") demo_world in
  exit_code (snd r) = 0%Z /\
  w_out (fst r) =
    ["Created directory /tmp/inst"; "Created directory /tmp/inst/etc";
     "Created directory /tmp/inst/var"; "Created directory /tmp/inst/log";
     "Created directory /tmp/inst/bin"; "Wrote file /tmp/inst/etc/zeo.conf";
     "Wrote file /tmp/inst/bin/zeoctl"; "Changed mode for /tmp/inst/bin/zeoctl to 755";
     "Wrote file /tmp/inst/bin/runzeo"; "Changed mode for /tmp/inst/bin/runzeo to 755";
     "All done."] /\
  w_fs (fst r) !! ["tmp"; "inst"; "etc"; "zeo.conf"] =
    Some (NFile (zeo_conf_text "/tmp/inst" "127.0.0.1:8100" "/usr/bin/python3"
                   "/usr/lib/python3/site-packages") 420%Z) /\
  option_map node_perm (w_fs (fst r) !! ["tmp"; "inst"; "bin"; "zeoctl"]) = Some 493%Z /\
  option_map node_perm (w_fs (fst r) !! ["tmp"; "inst"; "bin"; "runzeo"]) = Some 493%Z.
Proof. vm_compute. repeat split; reflexivity. Qed.

(** Running the same command a second time changes no file and prints
    only [All done.]. *)
Example main_demo_again :
  let w1 := fst (main (demo_env "127.0.0.1:8100") demo_world) in
  main (demo_env "127.0.0.1:8100") w1 = (add_out w1 "All done.", Ok tt).
Proof. vm_compute. reflexivity. Qed.

(** ** Witnesses: the theorems at concrete instances *)

Lemma run_create_witness :
  run (demo_env "127.0.0.1:8100") demo_world =
  create (home_of demo_world "/tmp/inst")
    (get_params "/usr/lib/python3/site-packages"
       (fst (path_split "/usr/lib/python3/site-packages/zdaemon"))
       (home_of demo_world "/tmp/inst") (PStr "127.0.0.1:8100") "/usr/bin/python3") demo_world.
Proof.
  exact (run_create (demo_env "127.0.0.1:8100") demo_world "/tmp/inst" ["127.0.0.1:8100"] [] []
           "/usr/lib/python3/site-packages" (NDir 493%Z) (PStr "127.0.0.1:8100")
           ltac:(vm_compute; reflexivity) ltac:(simpl; lia) eq_refl ltac:(constructor)
           ltac:(vm_compute; reflexivity) ltac:(vm_compute; reflexivity)).
Defined.

Lemma main_getopt_error_witness :
  main (cli_env ["-x"]) demo_world =
  (demo_world, Raise (AttributeError "object has no attribute 'decode'")) /\
  exit_code (snd (main (cli_env ["-x"]) demo_world)) = 1%Z.
Proof.
  exact (main_getopt_error (cli_env ["-x"]) demo_world "option -x not recognized" "x"
           ltac:(vm_compute; reflexivity)).
Defined.

Lemma main_help_witness :
  main (cli_env ["--help"]) demo_world =
  (add_out demo_world (help_text (basename (hd "" (argv (cli_env ["--help"]))))),
   Raise (SystemExit None)).
Proof.
  exact (main_help (cli_env ["--help"]) demo_world ("--help", "") [] [] ltac:(vm_compute; reflexivity)).
Defined.

Lemma main_usage_witness :
  main (cli_env []) demo_world =
  (add_out demo_world ("Usage: " ++ basename (hd "" (argv (cli_env []))) ++ " home [[host:]port]"),
   Raise (SystemExit (Some 2%Z))).
Proof.
  exact (main_usage (cli_env []) demo_world [] ltac:(vm_compute; reflexivity) eq_refl).
Defined.

Lemma main_no_zodb_witness :
  main (mkEnv ["mkzeoinstance"; "/tmp/inst"] ["/nowhere"] "/usr/bin/python3" "/zd") demo_world =
  (add_out demo_world "Can't find ZODB software (not in sys.path)", Raise (SystemExit (Some 2%Z))).
Proof.
  exact (main_no_zodb (mkEnv ["mkzeoinstance"; "/tmp/inst"] ["/nowhere"] "/usr/bin/python3" "/zd")
           demo_world "/tmp/inst" [] ltac:(vm_compute; reflexivity) ltac:(simpl; lia)
           ltac:(constructor; [exists ENOENT; vm_compute; reflexivity | constructor])).
Defined.

Lemma parse_address_host_port_witness :
  parse_address (Some ("localhost" ++ ":" ++ str_of_Z 8100)) =
  Ok (PStr ("localhost" ++ ":" ++ str_of_Z 8100)).
Proof. apply parse_address_host_port; [discriminate | reflexivity]. Defined.

Lemma main_fresh_witness :
  let params := get_params "/usr/lib/python3/site-packages"
                  (fst (path_split "/usr/lib/python3/site-packages/zdaemon"))
                  (path_of (["tmp"] ++ ["inst"])) (PStr "127.0.0.1:8100") "/usr/bin/python3" in
  let render t := expand params (fst (parse_fmt PText t)) in
  main (demo_env "127.0.0.1:8100") demo_world =
  (add_out (fresh_world (["tmp"] ++ ["inst"]) (render zeo_conf_template) (render zeoctl_template)
              (render runzeo_template) demo_world) "All done.", Ok tt).
Proof.
  exact (main_fresh (demo_env "127.0.0.1:8100") demo_world ["tmp"] "inst" ["127.0.0.1:8100"] [] []
           "/usr/lib/python3/site-packages" (NDir 493%Z) (PStr "127.0.0.1:8100") 1023%Z
           ltac:(apply world_wfb_sound; vm_compute; reflexivity) ltac:(repeat constructor)
           ltac:(vm_compute; reflexivity) ltac:(vm_compute; reflexivity)
           ltac:(vm_compute; discriminate) ltac:(vm_compute; reflexivity) ltac:(simpl; lia)
           eq_refl ltac:(constructor) ltac:(vm_compute; reflexivity) ltac:(vm_compute; reflexivity)).
Defined.

Lemma parse_address_type_witness :
  exists h z, h <> "" /\ "localhost:8100" = h ++ ":" ++ str_of_Z z.
Proof.
  exact (parse_address_type (Some "localhost:8100") (PStr "localhost:8100")
           ltac:(vm_compute; reflexivity)).
Defined.

Lemma getopt_help_prefix_witness :
  getopt_h (("--" ++ "he") :: ["/tmp/inst"]) =
  match getopt_h ["/tmp/inst"] with
  | Ok (os, r) => Ok ((("--help", "") :: os)%list, r)
  | Raise e => Raise e
  end.
Proof. exact (getopt_help_prefix "he" ["/tmp/inst"] ltac:(discriminate) eq_refl). Defined.

Lemma home_of_relative_witness :
  home_of (mkWorld (w_fs demo_world) ["tmp"] 18%Z []) (join_with "/" ("inst" :: ["etc"])) =
  path_of (["tmp"] ++ "inst" :: ["etc"]).
Proof.
  exact (home_of_relative (mkWorld (w_fs demo_world) ["tmp"] 18%Z []) "inst" ["etc"]
           ltac:(repeat constructor) ltac:(repeat constructor)).
Defined.

Lemma home_of_empty_witness :
  home_of (mkWorld (w_fs demo_world) ["tmp"; "inst"] 18%Z []) "" = path_of ["tmp"; "inst"].
Proof.
  exact (home_of_empty (mkWorld (w_fs demo_world) ["tmp"; "inst"] 18%Z []) ltac:(repeat constructor)).
Defined.

Lemma main_bad_port_witness :
  main (demo_env "127.0.0.1:http") demo_world =
    (demo_world, Raise (ValueError ("invalid literal for int() with base 10: " ++ py_repr "http"))) /\
  exit_code (snd (main (demo_env "127.0.0.1:http") demo_world)) = 1%Z.
Proof.
  exact (main_bad_port (demo_env "127.0.0.1:http") demo_world "/tmp/inst" "127.0.0.1:http" "http"
           [] [] "/usr/lib/python3/site-packages" (NDir 493%Z)
           ltac:(vm_compute; reflexivity) eq_refl (List.Forall_nil _) ltac:(vm_compute; reflexivity)
           (or_intror (ex_intro _ "127.0.0.1" (conj eq_refl eq_refl)))
           ltac:(vm_compute; reflexivity)).
Defined.

Lemma main_keeps_files_witness :
  exists m', w_fs (fst (main (demo_env "127.0.0.1:8100") kept_world))
               !! ["tmp"; "inst"; "etc"; "zeo.conf"] = Some (NFile "address 8000" m').
Proof.
  exact (main_keeps_files (demo_env "127.0.0.1:8100") kept_world ["tmp"; "inst"; "etc"; "zeo.conf"]
           "address 8000" 384%Z eq_refl ltac:(vm_compute; discriminate)).
Defined.
